(** * Federated RAG service: the Python RAG service ([Python-RAG-Service/main.py])

    A shallow embedding of the index manager ([IndexManager]), of its query
    pipeline with the post-processing branches, of the corpus watcher and of
    the [/rag_query] HTTP handler, with the properties of the written
    specification settled against it.

    Conventions of the embedding.
    - A Python [str] is a [string] holding its UTF-8 bytes.  [len] counts
      code points ([py_len]); the character classes of [str.strip],
      [str.lower], [str.isdigit] and of the [re] module ([\s], [\d], [\w])
      are the ASCII ones, and a byte above 127 is an ordinary character that
      is neither a space, a digit nor a letter.
    - Calls that leave the process (the vector retriever, the language model,
      the query engine, the file system) are oracles held in a record; every
      call is appended to a trace, so that "no call is made" is a statement
      about that trace.
    - A Python exception is a value of [exn]; a function that can raise runs
      in the monad [M]. *)

From Stdlib Require Import ZArith QArith Lia List Bool Ascii String.
From stdpp Require Import base strings gmap.

Open Scope string_scope.
Open Scope list_scope.
Import ListNotations.

(** ** Python string primitives *)

Module Py.

(** [str.isspace] on one ASCII character: TAB..CR, FS..US and the blank. *)
Definition is_space (c : ascii) : bool :=
  let n := nat_of_ascii c in
  (((9 <=? n) && (n <=? 13)) || ((28 <=? n) && (n <=? 32)))%nat.

Definition is_digit (c : ascii) : bool :=
  let n := nat_of_ascii c in ((48 <=? n) && (n <=? 57))%nat.

Definition is_upper (c : ascii) : bool :=
  let n := nat_of_ascii c in ((65 <=? n) && (n <=? 90))%nat.

Definition is_lower (c : ascii) : bool :=
  let n := nat_of_ascii c in ((97 <=? n) && (n <=? 122))%nat.

Definition is_alpha (c : ascii) : bool := is_upper c || is_lower c.

(** [\w] of the [re] module. *)
Definition is_word (c : ascii) : bool :=
  is_alpha c || is_digit c || Ascii.eqb c "_".

Definition lower_char (c : ascii) : ascii :=
  if is_upper c then ascii_of_nat (nat_of_ascii c + 32) else c.

(** [s.lower()] *)
Fixpoint lower (s : string) : string :=
  match s with
  | EmptyString => EmptyString
  | String c s' => String (lower_char c) (lower s')
  end.

Fixpoint lstrip (s : string) : string :=
  match s with
  | EmptyString => EmptyString
  | String c s' => if is_space c then lstrip s' else s
  end.

Fixpoint rstrip (s : string) : string :=
  match s with
  | EmptyString => EmptyString
  | String c s' =>
      match rstrip s' with
      | EmptyString => if is_space c then EmptyString else String c EmptyString
      | r => String c r
      end
  end.

(** [s.strip()] *)
Definition strip (s : string) : string := rstrip (lstrip s).

(** [s.replace(c, "")] for a one-character [c]. *)
Fixpoint remove_char (c : ascii) (s : string) : string :=
  match s with
  | EmptyString => EmptyString
  | String d s' =>
      if Ascii.eqb d c then remove_char c s' else String d (remove_char c s')
  end.

(** [s.startswith(p)] *)
Fixpoint startswith (p s : string) : bool :=
  match p, s with
  | EmptyString, _ => true
  | String a p', String b s' => Ascii.eqb a b && startswith p' s'
  | String _ _, EmptyString => false
  end.

(** [sub in s] *)
Fixpoint contains (sub s : string) : bool :=
  startswith sub s ||
  match s with
  | EmptyString => false
  | String _ s' => contains sub s'
  end.

(** A byte that starts a code point (anything but a UTF-8 continuation
    byte [10xxxxxx]). *)
Definition starts_code_point (c : ascii) : bool :=
  let n := nat_of_ascii c in ((n <? 128) || (192 <=? n))%nat.

(** [len(s)]: the number of code points. *)
Fixpoint py_len (s : string) : nat :=
  match s with
  | EmptyString => 0
  | String c s' => (if starts_code_point c then 1 else 0) + py_len s'
  end.

(** The scan shared by [count] and [split].  [skip] is the number of
    characters of a separator just matched that are still to be passed
    over (the search resumes after the whole occurrence). *)
Fixpoint count_from (sub : string) (skip : nat) (s : string) : nat :=
  match s with
  | EmptyString => 0
  | String _ s' =>
      match skip with
      | S k => count_from sub k s'
      | O =>
          if startswith sub s
          then S (count_from sub (String.length sub - 1) s')
          else count_from sub 0 s'
      end
  end.

(** [s.count(sub)] for a non-empty [sub]: occurrences that do not overlap,
    found from the left. *)
Definition count (sub s : string) : nat := count_from sub 0 s.

(** [split_from sep skip cur s]: [cur] is the piece being read. *)
Fixpoint split_from (sep : string) (skip : nat) (cur : string) (s : string)
  : list string :=
  match s with
  | EmptyString => [cur]
  | String c s' =>
      match skip with
      | S k => split_from sep k cur s'
      | O =>
          if startswith sep s
          then cur :: split_from sep (String.length sep - 1) EmptyString s'
          else split_from sep 0 (cur +:+ String c EmptyString) s'
      end
  end.

(** [s.split(sep)] for a non-empty [sep]. *)
Definition split (sep s : string) : list string :=
  split_from sep 0 EmptyString s.

(** [sep.join(parts)] *)
Fixpoint join (sep : string) (parts : list string) : string :=
  match parts with
  | [] => EmptyString
  | [p] => p
  | p :: ps => p +:+ sep +:+ join sep ps
  end.

(** [s.isdigit()]: non-empty and every character a digit. *)
Fixpoint all_chars (p : ascii -> bool) (s : string) : bool :=
  match s with
  | EmptyString => true
  | String c s' => p c && all_chars p s'
  end.

Fixpoint any_char (p : ascii -> bool) (s : string) : bool :=
  match s with
  | EmptyString => false
  | String c s' => p c || any_char p s'
  end.

Definition isdigit (s : string) : bool :=
  match s with
  | EmptyString => false
  | _ => all_chars is_digit s
  end.

(** Truth value of a [str]. *)
Definition nonempty (s : string) : bool :=
  match s with
  | EmptyString => false
  | _ => true
  end.

(** [list(dict.fromkeys(l))]: first occurrences, in order. *)
Fixpoint dedup_keep_first (seen : list string) (l : list string) : list string :=
  match l with
  | [] => []
  | x :: l' =>
      if existsb (String.eqb x) seen then dedup_keep_first seen l'
      else x :: dedup_keep_first (x :: seen) l'
  end.

End Py.

(** ** The part of the [re] module the service uses

    Patterns are syntax trees; [run] is a backtracking matcher in
    continuation-passing style that tries alternatives in the order Python's
    engine does (left alternative first, greedy repetition longest first,
    lazy repetition shortest first), so the first match it finds is the match
    Python reports. *)

Module Re.

Inductive regex : Type :=
| Eps                          (* the empty pattern *)
| Chr (p : ascii -> bool)      (* one character of a class *)
| Cat (a b : regex)            (* ab *)
| Alt (a b : regex)            (* a|b *)
| Star (a : regex)             (* a*  *)
| StarLazy (a : regex)         (* a*? *)
| Group (n : nat) (a : regex)  (* capturing group number n *)
| Bol                          (* ^ without re.MULTILINE *)
| Eol                          (* $ without re.MULTILINE *)
| Wordb.                       (* \b *)

(** Where the matcher stands in the subject: [pos] characters read, the last
    of them [prev], [rest] still ahead, and the groups captured so far. *)
Record cursor : Type := Cursor {
  pos : nat;
  prev : option ascii;
  rest : string;
  groups : list (nat * string)
}.

Definition newline : ascii := ascii_of_nat 10.

Definition is_word_opt (o : option ascii) : bool :=
  match o with
  | Some c => Py.is_word c
  | None => false
  end.

Definition next_char (c : cursor) : option ascii :=
  match rest c with
  | String a _ => Some a
  | EmptyString => None
  end.

Definition take (n : nat) (s : string) : string := String.substring 0 n s.

(** [run r c k]: match [r] from [c], then hand the cursor reached to [k];
    [None] when every way of matching has been tried.  A repetition gives up
    an iteration that reads nothing, so it makes at most as many iterations
    as there are characters left: that number is its [fuel], and the case
    [O] is reached only when nothing is left to read. *)
Fixpoint run (r : regex) (c : cursor) (k : cursor -> option cursor) {struct r}
  : option cursor :=
  match r with
  | Eps => k c
  | Chr p =>
      match rest c with
      | String a s' =>
          if p a then k (Cursor (S (pos c)) (Some a) s' (groups c)) else None
      | EmptyString => None
      end
  | Cat a b => run a c (fun c' => run b c' k)
  | Alt a b =>
      match run a c k with
      | Some c' => Some c'
      | None => run b c k
      end
  | Star a =>
      (fix loop (fuel : nat) (c : cursor) {struct fuel} : option cursor :=
         match fuel with
         | O => k c
         | S fuel' =>
             match run a c (fun c' => if (pos c <? pos c')%nat
                                    then loop fuel' c' else None) with
             | Some c' => Some c'
             | None => k c
             end
         end) (String.length (rest c)) c
  | StarLazy a =>
      (fix loop (fuel : nat) (c : cursor) {struct fuel} : option cursor :=
         match fuel with
         | O => k c
         | S fuel' =>
             match k c with
             | Some c' => Some c'
             | None => run a c (fun c' => if (pos c <? pos c')%nat
                                        then loop fuel' c' else None)
             end
         end) (String.length (rest c)) c
  | Group n a =>
      run a c (fun c' =>
        k (Cursor (pos c') (prev c') (rest c')
                  ((n, take (pos c' - pos c) (rest c)) :: groups c')))
  | Bol => if (pos c =? 0)%nat then k c else None
  | Eol =>
      match rest c with
      | EmptyString => k c
      | String a EmptyString => if Ascii.eqb a newline then k c else None
      | _ => None
      end
  | Wordb =>
      if xorb (is_word_opt (prev c)) (is_word_opt (next_char c))
      then k c else None
  end.

(** The text of group [n] of a match (the last binding made wins). *)
Fixpoint group (n : nat) (gs : list (nat * string)) : string :=
  match gs with
  | [] => EmptyString
  | (m, s) :: gs' => if (m =? n)%nat then s else group n gs'
  end.

(** [re.match(r, s)] *)
Definition rmatch (r : regex) (s : string) : option cursor :=
  run r (Cursor 0 None s []) Some.

Definition matches (r : regex) (s : string) : bool :=
  match rmatch r s with
  | Some _ => true
  | None => false
  end.

(** [re.search(r, s)]: the leftmost position where [r] matches. *)
Fixpoint search_at (r : regex) (p : nat) (pv : option ascii) (s : string)
  : option cursor :=
  match run r (Cursor p pv s []) Some with
  | Some c => Some c
  | None =>
      match s with
      | EmptyString => None
      | String a s' => search_at r (S p) (Some a) s'
      end
  end.

Definition search (r : regex) (s : string) : option cursor :=
  search_at r 0 None s.

(** The matches [re.findall] and [re.sub] visit: leftmost first, none
    overlapping.  Each is given by its text and its groups.  [skip] counts the
    characters of the last match that the scan still has to pass. *)
Fixpoint scan (r : regex) (p : nat) (pv : option ascii) (skip : nat)
  (s : string) : list (string * list (nat * string)) :=
  match skip with
  | S k =>
      match s with
      | EmptyString => []
      | String a s' => scan r (S p) (Some a) k s'
      end
  | O =>
      match run r (Cursor p pv s []) Some with
      | Some c =>
          (take (pos c - p) s, groups c) ::
          match s with
          | EmptyString => []
          | String a s' => scan r (S p) (Some a) (pos c - p - 1) s'
          end
      | None =>
          match s with
          | EmptyString => []
          | String a s' => scan r (S p) (Some a) 0 s'
          end
      end
  end.

(** [re.findall(r, s)] for a pattern without groups: the matched texts. *)
Definition findall (r : regex) (s : string) : list string :=
  map fst (scan r 0 None 0 s).

(** [re.findall(r, s)] for a pattern with the one group [1]. *)
Definition findall_group1 (r : regex) (s : string) : list string :=
  map (fun m => group 1 (snd m)) (scan r 0 None 0 s).

(** [re.sub(r, repl, s)] for a literal replacement and a pattern that does
    not match the empty string. *)
Fixpoint sub_at (r : regex) (repl : string) (p : nat) (pv : option ascii)
  (skip : nat) (s : string) : string :=
  match skip with
  | S k =>
      match s with
      | EmptyString => EmptyString
      | String a s' => sub_at r repl (S p) (Some a) k s'
      end
  | O =>
      match run r (Cursor p pv s []) Some with
      | Some c =>
          repl +:+
          match s with
          | EmptyString => EmptyString
          | String a s' =>
              if (pos c =? p)%nat
              then String a (sub_at r repl (S p) (Some a) 0 s')
              else sub_at r repl (S p) (Some a) (pos c - p - 1) s'
          end
      | None =>
          match s with
          | EmptyString => EmptyString
          | String a s' => String a (sub_at r repl (S p) (Some a) 0 s')
          end
      end
  end.

Definition sub (r : regex) (repl s : string) : string :=
  sub_at r repl 0 None 0 s.

(** *** Pattern shorthands *)

Fixpoint lit (s : string) : regex :=
  match s with
  | EmptyString => Eps
  | String c s' => Cat (Chr (Ascii.eqb c)) (lit s')
  end.

Definition plus (a : regex) : regex := Cat a (Star a).        (* a+  *)
Definition opt (a : regex) : regex := Alt a Eps.              (* a?  *)

Fixpoint rep (n : nat) (a : regex) : regex :=                 (* a{n} *)
  match n with
  | O => Eps
  | S n' => Cat a (rep n' a)
  end.

Fixpoint alts (l : list regex) : regex :=                     (* a|b|... *)
  match l with
  | [] => Chr (fun _ => false)
  | [a] => a
  | a :: l' => Alt a (alts l')
  end.

Fixpoint seq (l : list regex) : regex :=
  match l with
  | [] => Eps
  | [a] => a
  | a :: l' => Cat a (seq l')
  end.

Definition d : regex := Chr Py.is_digit.                       (* \d *)
Definition s : regex := Chr Py.is_space.                       (* \s *)
Definition w : regex := Chr Py.is_word.                        (* \w *)
Definition dot : regex := Chr (fun c => negb (Ascii.eqb c newline)). (* . *)

End Re.

(** ** Exceptions, generations, the outside world *)

(** The two classes the handlers of [IndexManager.query] tell apart; [msg]
    is [str(e)]. *)
Inductive exn : Type :=
| ResponseError (msg : string)   (* ollama._types.ResponseError *)
| Exception (msg : string).      (* any other exception *)

Definition exn_str (e : exn) : string :=
  match e with
  | ResponseError msg => msg
  | Exception msg => msg
  end.

(** [AttributeError] raised by [obj.attr] when [obj] has no such attribute. *)
Definition AttributeError (type_name attr : string) : exn :=
  Exception ("'" +:+ type_name +:+ "' object has no attribute '" +:+ attr +:+ "'").

(** One index generation: a [VectorStoreIndex], given by the texts that the
    collection behind it serves when it is built. *)
Record Index : Type := { docs : list string }.

(** What [get_files_snapshot] returns: a set of (file name, modification
    time) pairs.  The time stamp is an integer here. *)
Abbreviation Snapshot := (gset (string * Z)).

(** The fields of [IndexManager] ([_lock] is left to the callers). *)
Record IndexManager : Type := {
  _index : option Index;
  _last_snapshot : option Snapshot
}.

(** A Python [float]: a number, given by its exact value, an infinity or
    NaN. *)
Inductive pyfloat : Type :=
| Finite (x : Q)
| PlusInf
| MinusInf
| NaN.

(** A retrieved node: [node.score] (possibly [None]) and its text. *)
Record Node : Type := { score : option pyfloat; node_text : string }.

(** The object a query engine returns: its [response] attribute and
    [str(resp)]. *)
Record Response : Type := { response : option string; str_resp : string }.

(** Calls that leave the process. *)
Inductive event : Type :=
| EvRetrieve (ix : Index) (q : string)          (* retriever.retrieve(q) *)
| EvComplete (prompt : string)                  (* Settings.llm.complete(prompt) *)
| EvEngineQuery (ix : Index) (q : string).      (* qe.query(q) *)

(** A generation call is a call that reaches the language model. *)
Definition is_generation (e : event) : bool :=
  match e with
  | EvRetrieve _ _ => false
  | EvComplete _ => true
  | EvEngineQuery _ _ => true
  end.

Definition is_retrieval (e : event) : bool :=
  match e with
  | EvRetrieve _ _ => true
  | EvComplete _ => false
  | EvEngineQuery _ _ => true
  end.

(** The answers of the outside world to one query.  [interfere k] is what
    the watcher thread does to the manager just before the query reads
    [self._index] for the [k]-th time (the identity when no build completes
    at that moment). *)
Record World : Type := {
  retrieve : Index -> string -> exn + list Node;
  complete : string -> exn + string;
  engine_query : Index -> string -> string -> string -> exn + Response;
  interfere : nat -> IndexManager -> IndexManager
}.

(** ** State and exceptions

    [SM S A]: a computation over a state of type [S] that returns an [A] or
    raises. *)

Definition SM (S A : Type) : Type := S -> (exn + A) * S.

Definition ret {S A} (a : A) : SM S A := fun st => (inr a, st).

Definition raise {S A} (e : exn) : SM S A := fun st => (inl e, st).

Definition bind {S A B} (m : SM S A) (f : A -> SM S B) : SM S B :=
  fun st =>
    match m st with
    | (inl e, st') => (inl e, st')
    | (inr a, st') => f a st'
    end.

(** [try: m  except Exception as e: h e] *)
Definition try_except {S A} (m : SM S A) (h : exn -> SM S A) : SM S A :=
  fun st =>
    match m st with
    | (inl e, st') => h e st'
    | (inr a, st') => (inr a, st')
    end.

Notation "x <- m ;; f" := (bind m (fun x => f))
  (at level 100, m at next level, right associativity).

(** The outcome of a call made outside the process. *)
Definition lift {S A} (r : exn + A) : SM S A := fun st => (r, st).

Definition gets {S A} (f : S -> A) : SM S A := fun st => (inr (f st), st).

Definition modify {S} (f : S -> S) : SM S unit := fun st => (inr tt, f st).

(** ** The query path: shared manager, handle reads, trace *)

Record qstate : Type := {
  im : IndexManager;
  reads : nat;
  trace : list event
}.

Abbreviation M := (SM qstate).

Definition emit (e : event) : M unit :=
  modify (fun st => {| im := im st; reads := reads st; trace := trace st ++ [e] |}).

(** Reading [self._index] and calling method [attr] on it. *)
Definition read_index (w : World) (attr : string) : M Index :=
  fun st =>
    let im' := interfere w (reads st) (im st) in
    let st' := {| im := im'; reads := S (reads st); trace := trace st |} in
    match _index im' with
    | Some ix => (inr ix, st')
    | None => (inl (AttributeError "NoneType" attr), st')
    end.

Definition call_retrieve (w : World) (ix : Index) (q : string) : M (list Node) :=
  _ <- emit (EvRetrieve ix q) ;; lift (retrieve w ix q).

Definition call_complete (w : World) (prompt : string) : M string :=
  _ <- emit (EvComplete prompt) ;; lift (complete w prompt).

Definition call_engine (w : World) (ix : Index) (qa refine q : string)
  : M Response :=
  _ <- emit (EvEngineQuery ix q) ;; lift (engine_query w ix qa refine q).

Definition start (m : IndexManager) : qstate :=
  {| im := m; reads := 0; trace := [] |}.

(** ** Post-processing of a candidate answer *)

Definition nl : string := String Re.newline EmptyString.
Definition dq : string := String (ascii_of_nat 34) EmptyString.

Module Patterns.
Import Re.

Definition comma : ascii := ascii_of_nat 44.

(** [\d{4}-\d{2}-\d{2}] *)
Definition date : regex := seq [rep 4 d; lit "-"; rep 2 d; lit "-"; rep 2 d].

(** [\d{4}-\d{2}-\d{2}|Main\s*-\s*(?:Curry|Biryani)|^\d+\.\d+] *)
Definition raw_csv_pattern : regex :=
  alts [ date;
         seq [lit "Main"; Star s; lit "-"; Star s; alts [lit "Curry"; lit "Biryani"]];
         seq [Bol; plus d; lit "."; plus d] ].

(** [^\s*\d{4}-\d{2}-\d{2}\s*$] *)
Definition date_line : regex := seq [Bol; Star s; date; Star s; Eol].

(** [^\s*[\d.]+\s*$] *)
Definition number_line : regex :=
  seq [Bol; Star s; plus (Chr (fun c => Py.is_digit c || Ascii.eqb c ".")); Star s; Eol].

(** [^\s*(Main|Drink|Other)\s*-.*$] *)
Definition category_line : regex :=
  seq [Bol; Star s; Group 1 (alts [lit "Main"; lit "Drink"; lit "Other"]);
       Star s; lit "-"; Star dot; Eol].

(** [^\s*\d+\s*$] *)
Definition id_line : regex := seq [Bol; Star s; plus d; Star s; Eol].

(** [^\d+\.\s*] *)
Definition numbering : regex := seq [Bol; plus d; lit "."; Star s].

(** [\s{2,}] *)
Definition spaces2 : regex := seq [s; s; Star s].

(** [(?:Item Name,\s* )?Quantity:\s*([^,]+),\s*(\d+)], the blank after the
    first star not being part of the pattern *)
Definition item_quantity : regex :=
  seq [opt (seq [lit "Item Name,"; Star s]); lit "Quantity:"; Star s;
       Group 1 (plus (Chr (fun c => negb (Ascii.eqb c comma))));
       lit ","; Star s; Group 2 (plus d)].

(** [^(Plain|Prwan|Plains)\s*] *)
Definition name_prefix : regex :=
  seq [Bol; Group 1 (alts [lit "Plain"; lit "Prwan"; lit "Plains"]); Star s].

(** [\b([A-Z][a-z]+ (?:Curry|Biryani|Naan|Bhajee|Chaat|Masala|Tikka)[a-zA-Z]* )\b],
    the blank after the star not being part of the pattern *)
Definition dish : regex :=
  seq [Wordb;
       Group 1 (seq [Chr Py.is_upper; plus (Chr Py.is_lower); lit " ";
                     alts [lit "Curry"; lit "Biryani"; lit "Naan"; lit "Bhajee";
                           lit "Chaat"; lit "Masala"; lit "Tikka"];
                     Star (Chr Py.is_alpha)]);
       Wordb].

(** [Item Name,\s*Quantity:\s*] *)
Definition item_label : regex :=
  seq [lit "Item Name,"; Star s; lit "Quantity:"; Star s].

(** [Title:\s*\w+\s*] *)
Definition title_label : regex := seq [lit "Title:"; Star s; plus w; Star s].

(** [\[Read as CSV\]] *)
Definition csv_marker : regex := lit "[Read as CSV]".

(** [===.*?===] *)
Definition sheet_marker : regex := seq [lit "==="; StarLazy dot; lit "==="].

(** [\n\n+] *)
Definition blank_lines : regex :=
  seq [Chr (Ascii.eqb newline); plus (Chr (Ascii.eqb newline))].

End Patterns.

(** [any(text.lower().startswith(w) for w in ws)], also
    [text.lower().startswith(tuple)] *)
Definition starts_with_any (ws : list string) (text : string) : bool :=
  existsb (fun w => Py.startswith w (Py.lower text)) ws.

(** [". ".join(sentences[:n]) + "."] *)
Definition first_sentences (n : nat) (sentences : list string) : string :=
  Py.join ". " (firstn n sentences) +:+ ".".

(** The loop of [_extract_meaningful_response] over the lines. *)
Fixpoint keep_meaningful (lines : list string) : list string :=
  match lines with
  | [] => []
  | line :: rest =>
      if Re.matches Patterns.date_line line then keep_meaningful rest
      else if Re.matches Patterns.number_line line then keep_meaningful rest
      else if Re.matches Patterns.category_line line then keep_meaningful rest
      else if Re.matches Patterns.id_line line then keep_meaningful rest
      else if Py.nonempty (Py.strip line) && (3 <? Py.py_len (Py.strip line))%nat
      then
        let line1 := Re.sub Patterns.numbering "" line in
        let line2 := Re.sub Patterns.spaces2 " " line1 in
        Py.strip line2 :: keep_meaningful rest
      else keep_meaningful rest
  end.

Definition allergy_fallback : string :=
  "I'd recommend dishes like Cauliflower Bhajee, Chapati, or mild curries on request. Always tell our staff about your allergy so we can prepare it safely!".

Definition recommend_fallback : string :=
  "Let me know what cuisine you prefer — I can suggest mild, vegetarian, or other options!".

Definition trouble_fallback : string :=
  "Sorry, I'm having trouble retrieving that info. Please ask our staff for details!".

(** [IndexManager._extract_meaningful_response] *)
Definition _extract_meaningful_response (text query : string) : string :=
  let lines := Py.split nl text in
  let cleaned_lines := keep_meaningful lines in
  let ql := Py.lower query in
  match cleaned_lines with
  | [] =>
      if Py.contains "allerg" ql || Py.contains "spic" ql then allergy_fallback
      else if Py.contains "suggest" ql || Py.contains "recommend" ql
      then recommend_fallback
      else trouble_fallback
  | _ =>
      let text1 := Py.join " " cleaned_lines in
      let text2 :=
        if (300 <? Py.py_len text1)%nat || (5 <? Py.count "." text1)%nat
        then first_sentences 2 (Py.split ". " text1)
        else text1 in
      let text3 :=
        if negb (starts_with_any ["i'd"; "great"; "perfect"; "sure"; "here"; "based"] text2)
        then
          if Py.contains "allerg" ql || Py.contains "spic" ql
          then "For your allergy concern: " +:+ text2
          else if Py.contains "recommend" ql
          then "Here are some great options: " +:+ text2
          else text2
        else text2 in
      Py.strip text3
  end.

(** The loop of [_clean_and_format_response] that collects (name, quantity)
    pairs. *)
Fixpoint collect_items (lines : list string) : list (string * string) :=
  match lines with
  | [] => []
  | line :: rest =>
      match Re.search Patterns.item_quantity line with
      | Some m =>
          (Py.strip (Re.group 1 (Re.groups m)), Py.strip (Re.group 2 (Re.groups m)))
          :: collect_items rest
      | None =>
          if Py.contains "," line && Py.any_char Py.is_digit line
          then
            let parts := map Py.strip (Py.split "," line) in
            if (2 <=? length parts)%nat && Py.isdigit (List.last parts "")
            then (hd "" parts, List.last parts "") :: collect_items rest
            else collect_items rest
          else collect_items rest
      end
  end.

(** [for ... in items: response += f"• {name}\n"] after the name clean-up. *)
Fixpoint bullet_items (items : list (string * string)) : string :=
  match items with
  | [] => ""
  | (name, _) :: rest =>
      "• " +:+ Py.strip (Re.sub Patterns.name_prefix "" name) +:+ nl
      +:+ bullet_items rest
  end.

Fixpoint bullet_dishes (dishes : list string) : string :=
  match dishes with
  | [] => ""
  | dish :: rest => "• " +:+ dish +:+ " is getting great feedback" +:+ nl
                    +:+ bullet_dishes rest
  end.

Definition is_top_items_query (query : string) : bool :=
  let ql := Py.lower query in
  Py.contains "top" ql &&
  (Py.contains "item" ql || Py.contains "10" query || Py.contains "five" query
   || Py.contains "best" query || Py.contains "popular" query).

Definition is_recommendation_query (query : string) : bool :=
  existsb (fun word => Py.contains word (Py.lower query))
          ["recommend"; "suggest"; "best"; "popular"; "trending"].

(** The last part of [_clean_and_format_response]: labels and markers are
    removed, at most three sentences kept, a prefix added. *)
Definition strip_labels (text : string) : string :=
  let t1 := Re.sub Patterns.item_label "" text in
  let t2 := Re.sub Patterns.title_label "" t1 in
  let t3 := Re.sub Patterns.csv_marker "" t2 in
  let t4 := Re.sub Patterns.sheet_marker "" t3 in
  Re.sub Patterns.blank_lines nl t4.

Definition clean_other (text : string) : string :=
  let t5 := strip_labels text in
  let sentences := Py.split ". " t5 in
  let t6 := if (3 <? length sentences)%nat then first_sentences 3 sentences else t5 in
  let t7 :=
    if negb (starts_with_any ["great"; "perfect"; "sure"; "absolutely"; "yes"; "hi"; "hello"] t6)
    then "Based on our data: " +:+ t6
    else t6 in
  Py.strip t7.

Definition recommendation_answer (text : string) : string :=
  let dishes := Re.findall_group1 Patterns.dish text in
  let response :=
    match dishes with
    | [] => "Based on recent trends, our guests are loving our curry and biryani selections. "
    | _ =>
        "Perfect! Based on what's trending right now:" +:+ nl +:+ nl
        +:+ bullet_dishes (firstn 5 (Py.dedup_keep_first [] dishes))
        +:+ nl +:+ "These are currently among our guests' favorites. "
    end in
  Py.strip (response +:+ "Which cuisine or spice level appeals to you?").

Definition top_items_answer (items : list (string * string)) : string :=
  Py.strip
    ("Great question! Here are our most popular dishes right now:" +:+ nl +:+ nl
     +:+ bullet_items (firstn 10 items)
     +:+ nl +:+ "These items have been customer favorites with strong demand. "
     +:+ "Would you like a recommendation based on spice level or cuisine type?").

(** [IndexManager._clean_and_format_response] *)
Definition _clean_and_format_response (text query : string) : string :=
  let items := if is_top_items_query query
               then collect_items (Py.split nl text) else [] in
  match items with
  | _ :: _ => top_items_answer items
  | [] =>
      if is_recommendation_query query then recommendation_answer text
      else clean_other text
  end.

(** ** [IndexManager.query] *)

Definition greetings : gset string :=
  {[ "hi"; "hii"; "hey"; "hello"; "hello there"; "hi there"; "hey there";
     "howdy"; "good morning"; "good afternoon"; "good evening" ]}.

Definition order_keywords : gset string :=
  {[ "order"; "menu"; "item"; "dish"; "food"; "curry"; "biryani"; "naan";
     "papadum"; "forecast"; "demand"; "sale"; "popular"; "best-seller";
     "price"; "cost"; "week"; "predict"; "trend"; "top items";
     "availability"; "served" ]}.

Definition greeting_answer : string :=
  "Hello! Welcome User. How can I help you today? Feel free to ask about our menu items, recommendations, or anything else!".

Definition too_short_answer : string :=
  "Could you please ask me something more specific?".

Definition no_data_answer : string :=
  "I don't have information about that in our system. Our menu and order data might not include what you're looking for, or it could be temporarily unavailable. Please ask our staff directly for more details!".

(** The prompt of the open-domain fallback (the f-string, then [.strip()]). *)
Definition fallback_prompt (q : string) : string :=
  Py.strip
    (nl +:+ "You are a friendly restaurant assistant. Respond conversationally and warmly." +:+ nl
     +:+ nl +:+ "Structure your response as:" +:+ nl
     +:+ "1. Warm greeting" +:+ nl
     +:+ "2. Natural, helpful answer to their question" +:+ nl
     +:+ "3. A friendly closing suggestion" +:+ nl
     +:+ nl +:+ "The guest said: " +:+ dq +:+ q +:+ dq +:+ nl
     +:+ nl +:+ "Respond naturally without mentioning data, files, or systems. Keep it brief and warm." +:+ nl).

Definition qa_prompt : string :=
  "You are a friendly restaurant assistant. Follow this structure:" +:+ nl
  +:+ "1. Start with a warm greeting" +:+ nl
  +:+ "2. Provide a concise, helpful answer using key details from context" +:+ nl
  +:+ "3. Add a personalized suggestion or recommendation" +:+ nl
  +:+ "4. End with a friendly closing" +:+ nl +:+ nl
  +:+ "CRITICAL: Never list raw context, metadata, file paths, or database dumps." +:+ nl
  +:+ "Summarize data naturally in conversational language." +:+ nl
  +:+ "Use bullet points only if essential. Keep response brief and readable." +:+ nl +:+ nl
  +:+ "Guest question: {query_str}" +:+ nl +:+ nl
  +:+ "Context data: {context_str}" +:+ nl +:+ nl +:+ "Your response:".

Definition refine_prompt : string :=
  "Refine this response to be more conversational and structured:" +:+ nl
  +:+ "- Start with a warm greeting if missing" +:+ nl
  +:+ "- Summarize key insights naturally (no raw data)" +:+ nl
  +:+ "- Add a personalized suggestion" +:+ nl
  +:+ "- End with a friendly closing" +:+ nl
  +:+ "- Keep it brief and warm" +:+ nl +:+ nl
  +:+ "Current response: {existing_answer}" +:+ nl +:+ nl
  +:+ "Additional context: {context_str}" +:+ nl +:+ nl +:+ "Refined response:".

Definition Qltb (x y : Q) : bool := negb (Qle_bool y x).

(** The exact value of the double that the literal [0.15] denotes:
    5404319552844595 / 2^55, a little below 15/100. *)
Definition threshold : Q := 5404319552844595 # 36028797018963968.

(** [x < y] on floats, [y] a number: false for NaN. *)
Definition float_ltb (x : pyfloat) (y : Q) : bool :=
  match x with
  | Finite v => Qltb v y
  | MinusInf => true
  | PlusInf => false
  | NaN => false
  end.

(** [float(node.score or 0) < 0.15]; a score that is [None] or zero gives
    [0]. *)
Definition score_below (n : Node) : bool :=
  float_ltb (match score n with Some x => x | None => Finite 0 end) threshold.

(** [not retrieved_nodes or all(... < 0.15 for node in retrieved_nodes)] *)
Definition no_context (retrieved_nodes : list Node) : bool :=
  match retrieved_nodes with
  | [] => true
  | _ => forallb score_below retrieved_nodes
  end.

(** [q.lower().replace("!", "").replace("?", "")] *)
Definition q_lower_clean (q : string) : string :=
  Py.remove_char "?" (Py.remove_char "!" (Py.lower q)).

Definition is_greeting (q : string) : bool :=
  bool_decide (q_lower_clean q ∈ greetings)
  || ((Py.py_len q <? 5)%nat && bool_decide (q_lower_clean q ∈ greetings)).

(** [any(keyword in q_lower for keyword in order_keywords)] *)
Definition is_order_related (q : string) : bool :=
  bool_decide (set_Exists (λ keyword, Py.contains keyword (Py.lower q) = true)
                 order_keywords).

(** [getattr(resp, "response", None) or str(resp)] *)
Definition response_text (resp : Response) : string :=
  match response resp with
  | Some t => if Py.nonempty t then t else str_resp resp
  | None => str_resp resp
  end.

Definition has_raw_data (text : string) : bool :=
  (2 <? length (Re.findall Patterns.raw_csv_pattern text))%nat.

Definition has_field_labels (text : string) : bool :=
  (0 <? Py.count "Item Name" text)%nat || (0 <? Py.count "Title:" text)%nat.

Definition is_verbose (text : string) : bool :=
  (3 <? Py.count "This dish" text)%nat || (2 <? Py.count "which means" text)%nat
  || (2 <? Py.count "typically consists" text)%nat.

Definition looks_like_dump (text : string) : bool :=
  (2 <? Py.count "The item" text)%nat || (5 <? Py.count " • " text)%nat.

(** The branch for data dumps: the first two sentences. *)
Definition truncate_dump (text : string) : string :=
  let sentences := Py.split ". " text in
  if (2 <? length sentences)%nat then first_sentences 2 sentences else text.

(** The class defines no method [_compress_verbose_response]: its intended
    body follows the [return] of [_extract_meaningful_response] without a
    [def] line, so the attribute lookup raises. *)
Definition _compress_verbose_response (text query : string) : M string :=
  raise (AttributeError "IndexManager" "_compress_verbose_response").

(** The chain [if has_raw_data ... elif ... elif ... elif ...] that ends
    [query]. *)
Definition post_process (text q : string) : M string :=
  if has_raw_data text then ret (_extract_meaningful_response text q)
  else if has_field_labels text then ret (_clean_and_format_response text q)
  else if is_verbose text then _compress_verbose_response text q
  else if looks_like_dump text then ret (truncate_dump text)
  else ret text.

(** The body of the [try] block; [q0] is the argument of [query]. *)
Definition query_body (w : World) (q0 : string) : M string :=
  let q := Py.strip q0 in
  if is_greeting q then ret greeting_answer
  else if (Py.py_len q <? 3)%nat then ret too_short_answer
  else
    ix <- read_index w "as_retriever" ;;
    retrieved_nodes <- call_retrieve w ix q ;;
    if no_context retrieved_nodes then
      if is_order_related q then ret no_data_answer
      else
        text <- call_complete w (fallback_prompt q) ;;
        ret (Py.strip text)
    else
      ix' <- read_index w "as_query_engine" ;;
      resp <- call_engine w ix' qa_prompt refine_prompt q ;;
      post_process (response_text resp) q.

Definition ollama_error_answer (e : string) : string :=
  "[Ollama Error] The model stopped or ran out of resources. "
  +:+ "Try restarting Ollama or freeing memory." +:+ nl
  +:+ "Details: " +:+ e.

Definition unexpected_error_answer (e : string) : string :=
  "[Unexpected Error During Query] " +:+ e.

(** The two [except] clauses of [IndexManager.query]. *)
Definition query_handlers (e : exn) : M string :=
  match e with
  | ResponseError msg => ret (ollama_error_answer msg)
  | Exception msg => ret (unexpected_error_answer msg)
  end.

(** [IndexManager.query]: the body under its two handlers. *)
Definition query (w : World) (q : string) : M string :=
  try_except (query_body w q) query_handlers.

Arguments greetings : simpl never.
Arguments order_keywords : simpl never.
Arguments is_greeting : simpl never.
Arguments is_order_related : simpl never.
Arguments fallback_prompt : simpl never.
Arguments qa_prompt : simpl never.
Arguments refine_prompt : simpl never.
Arguments greeting_answer : simpl never.
Arguments too_short_answer : simpl never.
Arguments no_data_answer : simpl never.
Arguments no_context : simpl never.
Arguments response_text : simpl never.
Arguments post_process : simpl never.
Arguments has_raw_data : simpl never.
Arguments has_field_labels : simpl never.
Arguments is_verbose : simpl never.
Arguments looks_like_dump : simpl never.
Arguments truncate_dump : simpl never.
Arguments _extract_meaningful_response : simpl never.
Arguments _clean_and_format_response : simpl never.
Arguments ollama_error_answer : simpl never.
Arguments unexpected_error_answer : simpl never.
Arguments AttributeError : simpl never.

(** ** Building a generation: [collect_documents], [get_files_snapshot],
    [IndexManager._build_index] *)

Definition DATA_EXTS : gset string := {[ ".csv"; ".xls"; ".xlsx"; ".jsonl" ]}.

(** A directory entry as the builder sees it: [f.name], [f.suffix], what
    [f.stat().st_mtime] gives and what [extract_text_from_file(f)] gives. *)
Record File : Type := {
  name : string;
  suffix : string;
  stat_mtime : exn + Z;
  extract_text : exn + string
}.

Definition is_data_file (f : File) : bool :=
  bool_decide (Py.lower (suffix f) ∈ DATA_EXTS).

(** [build_summary_documents] *)
Definition build_summary_documents : list string := [].

Fixpoint collect_from (files : list File) : exn + list string :=
  match files with
  | [] => inr []
  | f :: rest =>
      if is_data_file f then
        match extract_text f with
        | inl e => inl e
        | inr text =>
            match collect_from rest with
            | inl e => inl e
            | inr ds =>
                inr (if Py.nonempty text && Py.nonempty (Py.strip text)
                     then text :: ds else ds)
            end
        end
      else collect_from rest
  end.

(** [collect_documents()], given what [os.listdir(DATA_DIR)] answers. *)
Definition collect_documents (listing : exn + list File) : exn + list string :=
  match listing with
  | inl e => inl e
  | inr files =>
      match collect_from files with
      | inl e => inl e
      | inr ds => inr (ds ++ build_summary_documents)
      end
  end.

Fixpoint snapshot_of (files : list File) : exn + Snapshot :=
  match files with
  | [] => inr ∅
  | f :: rest =>
      if is_data_file f then
        match stat_mtime f with
        | inl e => inl e
        | inr t =>
            match snapshot_of rest with
            | inl e => inl e
            | inr snap => inr ({[ (name f, t) ]} ∪ snap)
            end
        end
      else snapshot_of rest
  end.

(** [get_files_snapshot()], given what [DATA_DIR.iterdir()] answers. *)
Definition get_files_snapshot (listing : exn + list File) : exn + Snapshot :=
  match listing with
  | inl e => inl e
  | inr files => snapshot_of files
  end.

(** The directory [PERSIST_DIR]: [None] when it does not exist, otherwise
    the texts whose vectors it holds. *)
Abbreviation Disk := (option (list string)).

(** The manager together with the directory [PERSIST_DIR]. *)
Record Host : Type := {
  manager : IndexManager;
  persist_dir : Disk
}.

(** The answers of the outside world to one run of [_build_index].  A step
    that works on [PERSIST_DIR] is given what the directory holds and says
    what it holds afterwards, whether the step returns or raises.  The
    removal ignores errors, so it may leave anything behind; the Chroma
    client may or may not create the directory again; the index that
    [from_documents] returns is a handle on the collection [edi_rag], so what
    it serves may include what the collection held before. *)
Record BuildEnv : Type := {
  rmtree : Disk -> Disk;                          (* shutil.rmtree(PERSIST_DIR, ignore_errors=True) *)
  listdir : exn + list File;
  open_store : SM Disk unit;                      (* PersistentClient ... StorageContext *)
  from_documents : list string -> SM Disk Index;  (* VectorStoreIndex.from_documents *)
  persist : SM Disk unit;                         (* index.storage_context.persist *)
  iterdir : exn + list File
}.

(** A step that works on [PERSIST_DIR]. *)
Definition on_disk {A} (m : SM Disk A) : SM Host A :=
  fun h =>
    match m (persist_dir h) with
    | (r, d) => (r, {| manager := manager h; persist_dir := d |})
    end.

Definition call_rmtree (env : BuildEnv) : SM Host unit :=
  on_disk (fun d => (inr tt, rmtree env d)).

Definition set_index (ix : Index) : SM Host unit :=
  modify (fun h =>
    {| manager := {| _index := Some ix;
                     _last_snapshot := _last_snapshot (manager h) |};
       persist_dir := persist_dir h |}).

Definition set_last_snapshot (snap : Snapshot) : SM Host unit :=
  modify (fun h =>
    {| manager := {| _index := _index (manager h);
                     _last_snapshot := Some snap |};
       persist_dir := persist_dir h |}).

(** [VectorStoreIndex.from_documents(docs, storage_context=...)] *)
Definition call_from_documents (env : BuildEnv) (ds : list string) : SM Host Index :=
  on_disk (from_documents env ds).

(** [IndexManager._build_index] (the assignments to [Settings] left out). *)
Definition _build_index (env : BuildEnv) : SM Host unit :=
  _ <- call_rmtree env ;;
  ds <- lift (collect_documents (listdir env)) ;;
  _ <- on_disk (open_store env) ;;
  index <- call_from_documents env ds ;;
  _ <- on_disk (persist env) ;;
  _ <- set_index index ;;
  snap <- lift (get_files_snapshot (iterdir env)) ;;
  set_last_snapshot snap.

(** [IndexManager._start_indexing]: the build under [self._lock]. *)
Definition _start_indexing (env : BuildEnv) : SM Host unit := _build_index env.

(** ** The corpus watcher: [IndexManager._monitor_files] *)

(** One turn of the loop, after [time.sleep]: what the directory shows and
    what a build started now would meet. *)
Record Tick : Type := {
  seen : exn + list File;
  rebuild : BuildEnv
}.

Definition monitor_tick (t : Tick) : SM Host unit :=
  snap <- lift (get_files_snapshot (seen t)) ;;
  last <- gets (fun h => _last_snapshot (manager h)) ;;
  if bool_decide (Some snap ≠ last) then _start_indexing (rebuild t) else ret tt.

(** The first turns of [while True].  [inl e]: the loop, and with it the
    watcher thread, ended with exception [e]; [inr tt]: it is still
    running. *)
Fixpoint _monitor_files (ticks : list Tick) : SM Host unit :=
  match ticks with
  | [] => ret tt
  | t :: rest => _ <- monitor_tick t ;; _monitor_files rest
  end.

(** ** The HTTP handler [rag_query] *)

(** Values a decoded request body can hold.  [PObject] is any other object
    (an uploaded file of a multipart form, for instance); it is truthy. *)
#[local] Unset Elimination Schemes.
Inductive pyval : Type :=
| PNone
| PBool (b : bool)
| PInt (z : Z)
| PFloat (x : Q)
| PStr (s : string)
| PList (l : list pyval)
| PDict (d : gmap string pyval)
| PObject (type_name : string).
#[local] Set Elimination Schemes.

(** [bool(v)] *)
Definition truthy (v : pyval) : bool :=
  match v with
  | PNone => false
  | PBool b => b
  | PInt z => negb (z =? 0)%Z
  | PFloat x => negb (Qeq_bool x 0)
  | PStr s => Py.nonempty s
  | PList l => match l with [] => false | _ => true end
  | PDict d => (0 <? size d)%nat
  | PObject _ => true
  end.

(** [type(v).__name__] *)
Definition type_name_of (v : pyval) : string :=
  match v with
  | PNone => "NoneType"
  | PBool _ => "bool"
  | PInt _ => "int"
  | PFloat _ => "float"
  | PStr _ => "str"
  | PList _ => "list"
  | PDict _ => "dict"
  | PObject t => t
  end.

(** [d.get(key)] on a mapping. *)
Definition dict_get (d : gmap string pyval) (key : string) : pyval :=
  default PNone (d !! key).

(** [body.get(key)]: only a [dict] has the method. *)
Definition body_get (body : pyval) (key : string) : exn + pyval :=
  match body with
  | PDict d => inr (dict_get d key)
  | v => inl (AttributeError (type_name_of v) "get")
  end.

(** [a or b] on two values already computed. *)
Definition py_or (a b : pyval) : pyval := if truthy a then a else b.

(** [body.get("query") or body.get("message")] *)
Definition query_or_message (body : pyval) : exn + pyval :=
  match body_get body "query" with
  | inl e => inl e
  | inr a =>
      if truthy a then inr a
      else body_get body "message"
  end.

(** [form.get("query") or form.get("message")] *)
Definition form_query_or_message (form : gmap string pyval) : pyval :=
  py_or (dict_get form "query") (dict_get form "message").

(** A request: the [content-type] header if present, and what
    [await request.json()] and [await request.form()] give. *)
Record Request : Type := {
  content_type : option string;
  json : exn + pyval;
  form : exn + gmap string pyval
}.

Definition is_json_type (ct : string) : bool := Py.contains "application/json" ct.

Definition is_form_type (ct : string) : bool :=
  Py.contains "application/x-www-form-urlencoded" ct
  || Py.contains "multipart/form-data" ct.

(** The three branches that compute [query_text]. *)
Definition extract_query_text (request : Request) : exn + pyval :=
  let ct := default "" (content_type request) in
  if is_json_type ct then
    match json request with
    | inl e => inl e
    | inr body => query_or_message body
    end
  else if is_form_type ct then
    match form request with
    | inl e => inl e
    | inr f => inr (form_query_or_message f)
    end
  else
    match json request with
    | inl _ => inr PNone
    | inr body =>
        match query_or_message body with
        | inl _ => inr PNone
        | inr v => inr v
        end
    end.

(** [index_manager.query(v)] for a value that need not be a [str]: on
    anything else [q.strip()], the first statement under [try], raises. *)
Definition query_any (w : World) (v : pyval) : M string :=
  match v with
  | PStr s => query w s
  | _ => try_except (raise (AttributeError (type_name_of v) "strip")) query_handlers
  end.

(** The clock and the validation of a non-[str] value for a [str] field of
    the response model. *)
Record HttpEnv : Type := {
  utcnow_isoformat : string;
  coerce_to_str : pyval -> exn + string
}.

Definition validate_str (env : HttpEnv) (v : pyval) : exn + string :=
  match v with
  | PStr s => inr s
  | _ => coerce_to_str env v
  end.

Module Http.

Record QueryResponse : Type := {
  answer : string;
  query : string;
  timestamp : string
}.

Inductive response : Type :=
| JSONResponse (status_code : nat) (detail : string)
| Model (body : QueryResponse).

Definition status (r : response) : nat :=
  match r with
  | JSONResponse c _ => c
  | Model _ => 200
  end.

Definition rag_query (w : World) (env : HttpEnv) (request : Request) : M response :=
  try_except
    (query_text <- lift (extract_query_text request) ;;
     if negb (truthy query_text)
     then ret (JSONResponse 400 "Missing 'query' or 'message' field")
     else
       a <- query_any w query_text ;;
       let ts := utcnow_isoformat env +:+ "Z" in
       q <- lift (validate_str env query_text) ;;
       ret (Model {| answer := a; query := q; timestamp := ts |}))
    (fun e => ret (JSONResponse 500 (exn_str e))).

End Http.

(** * Vocabulary of the statements

    States a query passes through, conditions on a build, and measures of a
    text, used to state the properties below. *)

(** What makes a keyword incompatible with the two short cuts: it has at
    least three characters, neither [!] nor [?], and occurs in no greeting. *)
Definition keyword_ok (k : string) : bool :=
  (3 <=? Py.py_len k)%nat
  && Py.all_chars (fun x => negb (Ascii.eqb x "!")) k
  && Py.all_chars (fun x => negb (Ascii.eqb x "?")) k
  && bool_decide (set_Forall (λ g, Py.contains k g = false) greetings).

(** The state a query is in after its first read of the handle and its
    retrieval call. *)
Definition after_retrieval (w : World) (st : qstate) (ix : Index) (q : string)
  : qstate :=
  {| im := interfere w (reads st) (im st);
     reads := S (reads st);
     trace := trace st ++ [EvRetrieve ix q] |}.

(** The build, started when [PERSIST_DIR] holds [d0], raises [e] before the
    assignment [self._index = index] (while collecting the documents,
    opening the store, embedding, or persisting) and leaves [d] in the
    directory. *)
Definition fails_before_publish (env : BuildEnv) (d0 : Disk) (e : exn) (d : Disk)
  : Prop :=
  let d1 := rmtree env d0 in
  (collect_documents (listdir env) = inl e /\ d = d1)
  \/ exists ds, collect_documents (listdir env) = inr ds /\
       (open_store env d1 = (inl e, d)
        \/ exists d2, open_store env d1 = (inr tt, d2) /\
             (from_documents env ds d2 = (inl e, d)
              \/ exists index d3,
                   from_documents env ds d2 = (inr index, d3)
                   /\ persist env d3 = (inl e, d))).

(** The generation an external call was made against. *)
Definition event_index (e : event) : option Index :=
  match e with
  | EvRetrieve ix _ => Some ix
  | EvEngineQuery ix _ => Some ix
  | EvComplete _ => None
  end.

(** The state of a query after its second read of the handle and the call
    of the query engine. *)
Definition after_engine (w : World) (st : qstate) (ix ix' : Index) (q : string)
  : qstate :=
  {| im := interfere w (S (reads st)) (interfere w (reads st) (im st));
     reads := S (S (reads st));
     trace := (trace st ++ [EvRetrieve ix q]) ++ [EvEngineQuery ix' q] |}.

(** The conditions under which [query] reaches the post-processing chain
    with the candidate answer [response_text resp]. *)
Record grounded (w : World) (q0 : string) (st : qstate) (resp : Response)
  : Prop := {
  g_not_greeting : is_greeting (Py.strip q0) = false;
  g_long_enough : (Py.py_len (Py.strip q0) <? 3)%nat = false;
  g_context :
    exists ix nodes ix',
      _index (interfere w (reads st) (im st)) = Some ix
      /\ retrieve w ix (Py.strip q0) = inr nodes
      /\ no_context nodes = false
      /\ _index (interfere w (S (reads st)) (interfere w (reads st) (im st)))
         = Some ix'
      /\ engine_query w ix' qa_prompt refine_prompt (Py.strip q0) = inr resp
}.

(** The conditions under which [query] hands the question to the language
    model without context, and the model completes with [text]. *)
Record fallback (w : World) (q0 : string) (st : qstate) (text : string)
  : Prop := {
  f_not_greeting : is_greeting (Py.strip q0) = false;
  f_long_enough : (Py.py_len (Py.strip q0) <? 3)%nat = false;
  f_not_domain : is_order_related (Py.strip q0) = false;
  f_no_context :
    exists ix nodes,
      _index (interfere w (reads st) (im st)) = Some ix
      /\ retrieve w ix (Py.strip q0) = inr nodes
      /\ no_context nodes = true;
  f_completion : complete w (fallback_prompt (Py.strip q0)) = inr text
}.

(** The answer [query] gives for a candidate: the chain of [post_process]
    with the error of the missing method turned into text by the handler. *)
Definition branch_answer (text q : string) : string :=
  if has_raw_data text then _extract_meaningful_response text q
  else if has_field_labels text then _clean_and_format_response text q
  else if is_verbose text
       then unexpected_error_answer
              (exn_str (AttributeError "IndexManager" "_compress_verbose_response"))
  else if looks_like_dump text then truncate_dump text
  else text.

(** The number of sentences [text.split(". ")] yields. *)
Definition sentences (text : string) : nat := length (Py.split ". " text).

(** The text has no full stop followed by a blank. *)
Definition no_sep (s : string) : Prop := Py.contains ". " s = false.

(** The last character is a full stop. *)
Fixpoint ends_with_dot (s : string) : bool :=
  match s with
  | EmptyString => false
  | String c EmptyString => Ascii.eqb "." c
  | String _ s' => ends_with_dot s'
  end.

(** The first character is a blank. *)
Definition starts_with_blank (s : string) : bool :=
  match s with
  | String c _ => Ascii.eqb " " c
  | EmptyString => false
  end.

(** The text has no full stop. *)
Definition no_dot (p : string) : bool :=
  Py.all_chars (fun c => negb (Ascii.eqb "." c)) p.

(** [cut] is [text] cut after its [n]-th sentence: the first [n] pieces
    between occurrences of a full stop followed by a blank, joined as they
    were and ended by the full stop of the occurrence that follows them.
    What [text] holds from the blank of that occurrence on is left out. *)
Definition cut_at_sentences (n : nat) (text cut : string) : Prop :=
  exists pieces rest,
    length pieces = n
    /\ Forall no_sep pieces
    /\ text = Py.join ". " pieces +:+ ". " +:+ rest
    /\ cut = Py.join ". " pieces +:+ ".".

(** The text the recovery branch rebuilds from the lines it keeps. *)
Definition rebuilt_text (text : string) : string :=
  Py.join " " (keep_meaningful (Py.split nl text)).

(** What the recovery branch and the label clean-up may put in front of
    their text. *)
Definition recovery_openers : list string :=
  [""; "For your allergy concern: "; "Here are some great options: "].

Definition cleanup_openers : list string := [""; "Based on our data: "].

(** The recovery branch rebuilds a text long enough, or with enough full
    stops, to be cut. *)
Definition recovery_truncates (text : string) : bool :=
  match keep_meaningful (Py.split nl text) with
  | [] => false
  | cleaned_lines =>
      let text1 := Py.join " " cleaned_lines in
      (300 <? Py.py_len text1)%nat || (5 <? Py.count "." text1)%nat
  end.

(** The label clean-up takes its generic path: the query asks neither for
    top items (with items found) nor for a recommendation. *)
Definition cleans_generically (text q : string) : bool :=
  match (if is_top_items_query q then collect_items (Py.split nl text) else []) with
  | _ :: _ => false
  | [] => negb (is_recommendation_query q)
  end.

(** The cursor after the longest run of characters of the class [p]. *)
Fixpoint eat (p : ascii -> bool) (n : nat) (pv : option ascii) (s : string)
  (g : list (nat * string)) : Re.cursor :=
  match s with
  | String x s' => if p x then eat p (S n) (Some x) s' g else Re.Cursor n pv s g
  | EmptyString => Re.Cursor n pv "" g
  end.

(** The length of that run. *)
Fixpoint lead (p : ascii -> bool) (s : string) : nat :=
  match s with
  | String x s' => if p x then S (lead p s') else 0
  | EmptyString => 0
  end.

(** [s[n:]] *)
Fixpoint drop (n : nat) (s : string) : string :=
  match n, s with
  | O, _ => s
  | S n', String _ s' => drop n' s'
  | S _, EmptyString => EmptyString
  end.

(** A character that is not white space. *)
Definition visible (c : ascii) : bool := negb (Py.is_space c).

(** The string has a character that [strip] keeps. *)
Definition has_visible (s : string) : bool := Py.any_char visible s.

(** The class [[\d.]] of the number-only line. *)
Definition digit_or_dot (c : ascii) : bool := Py.is_digit c || Ascii.eqb c ".".

(** The answer the handlers give for an exception. *)
Definition handled_answer (e : exn) : string :=
  match e with
  | ResponseError msg => ollama_error_answer msg
  | Exception msg => unexpected_error_answer msg
  end.

(** The last call a query made, if it made one. *)
Definition last_call (st : qstate) : option event := last (trace st).

(** The call reached the language model and what came back was blank: a
    completion with nothing but white space, or a response of the query
    engine whose text is empty. *)
Definition blank_generation (w : World) (e : event) : Prop :=
  match e with
  | EvRetrieve _ _ => False
  | EvComplete prompt =>
      exists text, complete w prompt = inr text /\ Py.strip text = ""
  | EvEngineQuery ix q =>
      exists resp, engine_query w ix qa_prompt refine_prompt q = inr resp
                   /\ response_text resp = ""
  end.

(** * Concrete inputs

    Managers, worlds, candidate answers, builds and ticks on which the
    properties are run. *)

(** A manager serving one generation, and a world in which that generation
    answers every retrieval with one well-scored node and the engine answers
    with a given text. *)
Definition demo_index : Index := {| docs := ["Cauliflower Bhajee, Chicken Curry"] |}.

Definition demo_manager : IndexManager :=
  {| _index := Some demo_index; _last_snapshot := Some ∅ |}.

Definition demo_node : Node :=
  {| score := Some (Finite (1 # 2)); node_text := "Chicken Curry" |}.

Definition grounded_world (candidate : string) : World :=
  {| retrieve := fun _ _ => inr [demo_node];
     complete := fun _ => inr "Happy to help!";
     engine_query := fun _ _ _ _ =>
       inr {| response := Some candidate; str_resp := candidate |};
     interfere := fun _ m => m |}.

(** The retriever finds nothing and the model answers [text]. *)
Definition empty_world (text : string) : World :=
  {| retrieve := fun _ _ => inr [];
     complete := fun _ => inr text;
     engine_query := fun _ _ _ _ => inl (Exception "no engine");
     interfere := fun _ m => m |}.

(** A candidate that repeats [This dish] four times. *)
Definition verbose_candidate : string :=
  "This dish is mild. This dish is creamy. This dish is popular. This dish is served with rice.".

Definition demo_state : qstate := start demo_manager.

(** Three date lines, then a line that carries a field label. *)
Definition leaking_candidate : string :=
  "2024-01-02" +:+ nl +:+ "2024-01-03" +:+ nl +:+ "2024-01-04" +:+ nl
  +:+ "Item Name, Quantity: Plain Naan, 12".

(** Five sentences, 291 characters, and nothing that makes a branch fire. *)
Definition long_candidate : string :=
  "Our kitchen prepares every curry fresh each morning with whole spices. The tandoor breads are baked to order and arrive at your table warm. Many guests enjoy pairing a mild korma with garlic naan. Others prefer something hotter such as a vindaloo with plain rice. Just tell us what you like.".

(** A candidate that repeats [The item] four times. *)
Definition dump_candidate : string :=
  "The item Korma is mild. The item Vindaloo is hot. The item Naan is a bread. The item Rice is plain.".

Definition menu_file (t : Z) : File :=
  {| name := "menu.csv"; suffix := ".csv"; stat_mtime := inr t;
     extract_text := inr "Cauliflower Bhajee, Chicken Curry" |}.

Definition vanished_file : File :=
  {| name := "menu.csv"; suffix := ".csv";
     stat_mtime := inl (Exception "[Errno 2] No such file or directory: 'menu.csv'");
     extract_text := inr "" |}.

(** A host whose published generation has its vectors on disk. *)
Definition demo_host : Host :=
  {| manager := {| _index := Some demo_index;
                   _last_snapshot := Some {[ ("menu.csv", 1%Z) ]} |};
     persist_dir := Some ["Cauliflower Bhajee, Chicken Curry"] |}.

(** The builds below are rebuilds inside the running service of
    [demo_host]: the Chroma client of the process is reused and the
    collection still holds the texts of the published generation. *)

(** The removal of [PERSIST_DIR] succeeds. *)
Definition removed : Disk -> Disk := fun _ => None.

(** Opening the store on the client already there does not create the
    directory again. *)
Definition reopened : SM Disk unit := fun d => (inr tt, d).

(** The embedding service is down: [from_documents] raises before it has
    written anything. *)
Definition embedding_down : BuildEnv :=
  {| rmtree := removed;
     listdir := inr [menu_file 2];
     open_store := reopened;
     from_documents := fun _ d =>
       (inl (Exception "embedding service unavailable"), d);
     persist := fun d => (inr tt, d);
     iterdir := inr [menu_file 2] |}.

(** A rebuild in which every step succeeds: the new index serves what the
    collection held together with the new documents, and [persist] writes
    the directory. *)
Definition healthy_build (t : Z) : BuildEnv :=
  {| rmtree := removed;
     listdir := inr [menu_file t];
     open_store := reopened;
     from_documents := fun ds d =>
       (inr {| docs := docs demo_index ++ ds |}, d);
     persist := fun d => (inr tt, Some (default [] d));
     iterdir := inr [menu_file t] |}.

(** A tick at which the file vanishes between listing and [stat], then a
    tick at which the file is back with a new time stamp. *)
Definition vanishing_tick : Tick :=
  {| seen := inr [vanished_file]; rebuild := healthy_build 2 |}.

Definition changed_tick : Tick :=
  {| seen := inr [menu_file 2]; rebuild := healthy_build 2 |}.

Definition read_error : exn :=
  Exception "[Errno 2] No such file or directory: 'menu.csv'".

Definition new_index : Index := {| docs := ["Lamb Biryani, Garlic Naan"] |}.

(** The watcher publishes [new_index] just before the second read. *)
Definition swapping_world : World :=
  {| retrieve := fun _ _ => inr [demo_node];
     complete := fun _ => inr "Happy to help!";
     engine_query := fun ix _ _ _ =>
       inr {| response := Some (Py.join ", " (docs ix)); str_resp := "" |};
     interfere := fun k m =>
       if (k =? 1)%nat
       then {| _index := Some new_index; _last_snapshot := _last_snapshot m |}
       else m |}.

(** * More of the service

    The constructor of the manager, the two extraction functions, and the
    vocabulary of the further properties at the end of the file. *)

(** ** [IndexManager.__init__] *)

(** The fields start as [None] and the first build runs in the constructor.
    [_start_monitor] comes after it and is reached only when that build
    returned; the thread it starts runs [_monitor_files] on the host the
    constructor leaves.  [disk] is what [PERSIST_DIR] holds when the service
    starts. *)
Definition __init__ (env : BuildEnv) (disk : Disk)
  : (exn + unit) * Host :=
  _start_indexing env
    {| manager := {| _index := None; _last_snapshot := None |};
       persist_dir := disk |}.

(** ** [extract_text_from_jsonl]

    The outcome of [json.loads(raw_line)]: the decoded object, a
    [JSONDecodeError], or another exception. *)
Inductive loaded : Type :=
| Loaded (obj : pyval)
| JSONDecodeError
| Raised (e : exn).

(** What the [json] module and [str] answer.  [str] of a [str] is the string
    itself; [str_of] is asked for the other values.  A dict is a finite map
    here, so [str_of] and [dumps] cannot tell two dicts with the same items
    apart. *)
Record Json : Type := {
  loads : string -> loaded;       (* json.loads(s) *)
  str_of : pyval -> string;       (* str(v), v not a str *)
  dumps : pyval -> string         (* json.dumps(v, ensure_ascii=False) *)
}.

(** [str(v)], also what an f-string puts for [{v}]. *)
Definition py_str (j : Json) (v : pyval) : string :=
  match v with
  | PStr s => s
  | _ => str_of j v
  end.

(** The entry of [lines] for one line that is not blank; [raw_line] is
    already stripped. *)
Definition jsonl_line (j : Json) (raw_line : string) : exn + string :=
  match loads j raw_line with
  | Loaded (PDict d) =>
      let title := dict_get d "title" in
      let content := dict_get d "content" in
      if truthy title && truthy content then
        inr ("Title: " +:+ py_str j title +:+ nl +:+ py_str j content)
      else if truthy content then inr (py_str j content)
      else inr (dumps j (PDict d))
  | Loaded obj => inr (py_str j obj)
  | JSONDecodeError => inr raw_line
  | Raised e => inl e
  end.

(** The loop over the lines of the file; the result is the list [lines]. *)
Fixpoint jsonl_lines (j : Json) (f : list string) : exn + list string :=
  match f with
  | [] => inr []
  | raw_line :: f' =>
      let raw_line := Py.strip raw_line in
      if negb (Py.nonempty raw_line) then jsonl_lines j f'
      else
        match jsonl_line j raw_line with
        | inl e => inl e
        | inr l =>
            match jsonl_lines j f' with
            | inl e => inl e
            | inr lines => inr (l :: lines)
            end
        end
  end.

(** [f] is what opening the file and reading its lines gives. *)
Definition extract_text_from_jsonl (j : Json) (f : exn + list string)
  : exn + string :=
  match f with
  | inl e => inl e
  | inr raw_lines =>
      match jsonl_lines j raw_lines with
      | inl e => inl e
      | inr lines => inr (Py.join (nl +:+ nl) lines)
      end
  end.

(** ** [extract_text_from_file] *)

(** A workbook opened by [pd.ExcelFile]. *)
Record ExcelFile : Type := {
  sheet_names : list string;
  engine : string
}.

(** A path of the data directory as the extractor sees it.  The data frames
    are given by their [to_string(index=False)]. *)
Record Path : Type := {
  path_name : string;                             (* p.name *)
  path_suffix : string;                           (* p.suffix *)
  st_mtime : exn + Z;                             (* p.stat().st_mtime *)
  open_excel : string -> exn + ExcelFile;         (* pd.ExcelFile(p, engine=..) *)
  read_excel : string -> string -> exn + string;  (* pd.read_excel(p, sheet_name=.., engine=..) *)
  read_csv : exn + string;                        (* pd.read_csv(p, ..) *)
  read_text : exn + string;                       (* open(p, ..).read() *)
  read_lines : exn + list string                  (* the lines of open(p, ..) *)
}.

(** The entry of [parts] for one sheet. *)
Definition sheet_part (p : Path) (xls : ExcelFile) (sheet : string) : string :=
  match read_excel p sheet (engine xls) with
  | inr df => "=== Sheet: " +:+ sheet +:+ " ===" +:+ nl +:+ df
  | inl e => "[Error reading sheet " +:+ sheet +:+ ": " +:+ exn_str e +:+ "]"
  end.

(** [try: xls = pd.ExcelFile(p, engine=..) except Exception: xls = None] *)
Definition try_excel (p : Path) (engine_name : string) : option ExcelFile :=
  match open_excel p engine_name with
  | inr xls => Some xls
  | inl _ => None
  end.

(** The workbook the two attempts leave in [xls]: [xlrd] for [.xls], then
    [openpyxl] for [.xls] and [.xlsx] when there is none yet. *)
Definition open_workbook (p : Path) (ext : string) : option ExcelFile :=
  let xls := if String.eqb ext ".xls" then try_excel p "xlrd" else None in
  match xls with
  | None =>
      if String.eqb ext ".xls" || String.eqb ext ".xlsx"
      then try_excel p "openpyxl" else None
  | Some _ => xls
  end.

(** The list [tried] of the source is written and never read; it is left
    out. *)
Definition extract_text_from_file (j : Json) (p : Path) : exn + string :=
  let ext := Py.lower (path_suffix p) in
  if String.eqb ext ".jsonl" then extract_text_from_jsonl j (read_lines p)
  else
    match open_workbook p ext with
    | Some xls =>
        inr (Py.join (nl +:+ nl) (map (sheet_part p xls) (sheet_names xls)))
    | None =>
        let csv :=
          if String.eqb ext ".csv" then
            match read_csv p with
            | inr df => Some ("[Read as CSV]" +:+ nl +:+ df)
            | inl _ => None
            end
          else None in
        match csv with
        | Some text => inr text
        | None =>
            match read_text p with
            | inr txt => inr ("[Read as text]" +:+ nl +:+ txt)
            | inl _ => inr ""
            end
        end
    end.

(** The directory entry of a path: what [collect_documents] and
    [get_files_snapshot] read of it. *)
Definition file_of (j : Json) (p : Path) : File :=
  {| name := path_name p;
     suffix := path_suffix p;
     stat_mtime := st_mtime p;
     extract_text := extract_text_from_file j p |}.

(** ** Vocabulary of the further properties *)

(** The suffix of the path is not [.jsonl], in any case of the letters. *)
Definition not_jsonl (p : Path) : Prop :=
  Py.lower (path_suffix p) <> ".jsonl".

(** The markers the text extracted from a spreadsheet, a CSV or a text file
    begins with. *)
Definition extraction_markers : list string :=
  [ "=== Sheet: "; "[Error reading sheet "; "[Read as CSV]" +:+ nl;
    "[Read as text]" +:+ nl ].

Definition starts_with_marker (text : string) : bool :=
  existsb (fun m => Py.startswith m text) extraction_markers.

(** The line is not blank: [raw_line.strip()] is truthy. *)
Definition not_blank (raw_line : string) : bool :=
  Py.nonempty (Py.strip raw_line).

(** What looking the text up in the body parsed as JSON gives:
    [await request.json()] followed by the two [get]. *)
Definition json_lookup (request : Request) : exn + pyval :=
  match json request with
  | inl e => inl e
  | inr body => query_or_message body
  end.

(** The first character, if any, is white space. *)
Definition head_space (s : string) : bool :=
  match s with
  | String c _ => Py.is_space c
  | EmptyString => false
  end.

(** Two white-space characters stand side by side somewhere in the text. *)
Fixpoint adjacent_spaces (s : string) : bool :=
  match s with
  | EmptyString => false
  | String a s' => (Py.is_space a && head_space s') || adjacent_spaces s'
  end.

(** The dishes a recommendation lists:
    [list(dict.fromkeys(dishes))[:5]]. *)
Definition unique_dishes (dishes : list string) : list string :=
  firstn 5 (Py.dedup_keep_first [] dishes).

(** ** Concrete inputs of the further properties *)

(** The retriever raises. *)
Definition retriever_down : World :=
  {| retrieve := fun _ _ => inl (Exception "vector store unavailable");
     complete := fun _ => inr "Happy to help!";
     engine_query := fun _ _ _ _ => inl (Exception "no engine");
     interfere := fun _ m => m |}.

Definition drinks_file (t : Z) : File :=
  {| name := "drinks.XLSX"; suffix := ".XLSX"; stat_mtime := inr t;
     extract_text := inr "Mango Lassi, Masala Chai" |}.

(** Every step succeeds but the last: the file has vanished when the
    snapshot that ends the build is taken. *)
Definition vanishing_build : BuildEnv :=
  {| rmtree := removed;
     listdir := inr [menu_file 2];
     open_store := reopened;
     from_documents := fun ds d =>
       (inr {| docs := docs demo_index ++ ds |}, d);
     persist := fun d => (inr tt, Some (default [] d));
     iterdir := inr [vanished_file] |}.

(** A host whose recorded snapshot holds two files. *)
Definition two_file_host : Host :=
  {| manager := {| _index := Some demo_index;
                   _last_snapshot :=
                     Some {[ ("menu.csv", 1%Z); ("drinks.XLSX", 3%Z) ]} |};
     persist_dir := None |}.

(** The corpus has changed and the embedding service is down. *)
Definition failing_tick : Tick :=
  {| seen := inr [menu_file 2]; rebuild := embedding_down |}.

(** A request whose body is not JSON, with and without a content type. *)
Definition decode_error : exn :=
  Exception "Expecting value: line 1 column 1 (char 0)".

Definition text_as_json : Request :=
  {| content_type := Some "application/json";
     json := inl decode_error;
     form := inr ∅ |}.

Definition text_untyped : Request :=
  {| content_type := None;
     json := inl decode_error;
     form := inr ∅ |}.

Definition demo_http : HttpEnv :=
  {| utcnow_isoformat := "2024-01-02T03:04:05";
     coerce_to_str := fun _ => inl (Exception "Input should be a valid string") |}.

(** A decoder that takes a line opening with a brace for an object with a
    title and a content, and rejects every other line. *)
Definition demo_json : Json :=
  {| loads := fun s =>
       if Py.startswith "{" s
       then Loaded (PDict {[ "title" := PStr "Korma"; "content" := PStr "Mild and creamy." ]})
       else JSONDecodeError;
     str_of := fun _ => "<object>";
     dumps := fun _ => "{}" |}.

(** A decoder that rejects every line. *)
Definition no_json : Json :=
  {| loads := fun _ => JSONDecodeError;
     str_of := fun _ => "<object>";
     dumps := fun _ => "{}" |}.

Definition no_such_file : exn :=
  Exception "[Errno 2] No such file or directory".

(** A CSV file that [pandas] reads. *)
Definition menu_csv : Path :=
  {| path_name := "menu.csv"; path_suffix := ".csv";
     st_mtime := inr 1%Z;
     open_excel := fun _ => inl (Exception "Excel file format cannot be determined");
     read_excel := fun _ _ => inl (Exception "Excel file format cannot be determined");
     read_csv := inr "Cauliflower Bhajee, Chicken Curry";
     read_text := inr ("Item" +:+ nl +:+ "Cauliflower Bhajee, Chicken Curry");
     read_lines := inr ["Item" +:+ nl; "Cauliflower Bhajee, Chicken Curry"] |}.

(** A workbook that no engine opens and that cannot be read as text. *)
Definition broken_xls : Path :=
  {| path_name := "old.xls"; path_suffix := ".XLS";
     st_mtime := inr 1%Z;
     open_excel := fun _ => inl (Exception "Unsupported format, or corrupt file");
     read_excel := fun _ _ => inl (Exception "Unsupported format, or corrupt file");
     read_csv := inl (Exception "Error tokenizing data");
     read_text := inl no_such_file;
     read_lines := inl no_such_file |}.

(** A line-delimited JSON file that cannot be opened. *)
Definition locked_jsonl : Path :=
  {| path_name := "notes.jsonl"; path_suffix := ".jsonl";
     st_mtime := inr 1%Z;
     open_excel := fun _ => inl (Exception "Excel file format cannot be determined");
     read_excel := fun _ _ => inl (Exception "Excel file format cannot be determined");
     read_csv := inl (Exception "[Errno 13] Permission denied");
     read_text := inl (Exception "[Errno 13] Permission denied");
     read_lines := inl (Exception "[Errno 13] Permission denied") |}.

(** Three lines: an object, a blank line, plain words. *)
Definition demo_lines : list string :=
  [ "{" +:+ dq +:+ "title" +:+ dq +:+ ": " +:+ dq +:+ "Korma" +:+ dq +:+ "}" +:+ nl;
    "  " +:+ nl;
    " plain words " +:+ nl ].

(** * Properties *)

(** ** Facts about the string primitives *)

Section StringFacts.

Lemma app_nil (t : string) : "" +:+ t = t.
Proof. reflexivity. Qed.

Lemma app_cons (c : ascii) (s t : string) : String c s +:+ t = String c (s +:+ t).
Proof. reflexivity. Qed.

Lemma app_empty_r (s : string) : s +:+ "" = s.
Proof.
  induction s as [|c s IH]; [reflexivity|]. now rewrite app_cons, IH.
Qed.

Lemma app_assoc' (a b c : string) : (a +:+ b) +:+ c = a +:+ (b +:+ c).
Proof.
  induction a as [|x a IH]; [reflexivity|]. now rewrite !app_cons, IH.
Qed.

Lemma startswith_app (p t : string) : Py.startswith p (p +:+ t) = true.
Proof.
  induction p as [|c p IH]; [reflexivity|].
  rewrite app_cons. simpl. now rewrite Ascii.eqb_refl, IH.
Qed.

Lemma startswith_inv (p s : string) :
  Py.startswith p s = true -> exists t, s = p +:+ t.
Proof.
  revert s; induction p as [|c p IH]; intros s H.
  - now exists s.
  - destruct s as [|d s]; simpl in H; [discriminate|].
    apply andb_true_iff in H as [Hc Hp].
    apply Ascii.eqb_eq in Hc; subst d.
    destruct (IH _ Hp) as [t ->]. now exists t.
Qed.

Lemma contains_here (sub s : string) :
  Py.startswith sub s = true -> Py.contains sub s = true.
Proof. intros H. destruct s; simpl; rewrite H; reflexivity. Qed.

Lemma contains_app (a sub t : string) : Py.contains sub (a +:+ sub +:+ t) = true.
Proof.
  induction a as [|c a IH].
  - rewrite app_nil. apply contains_here, startswith_app.
  - rewrite app_cons. simpl. rewrite IH. apply orb_true_r.
Qed.

Lemma contains_inv (sub s : string) :
  Py.contains sub s = true -> exists a t, s = a +:+ sub +:+ t.
Proof.
  induction s as [|c s IH]; simpl; intros H.
  - rewrite orb_false_r in H. apply startswith_inv in H as [t Ht].
    exists "", t. exact Ht.
  - apply orb_true_iff in H as [H|H].
    + apply startswith_inv in H as [t Ht]. exists "", t. exact Ht.
    + destruct (IH H) as (a & t & ->). now exists (String c a), t.
Qed.

Lemma remove_char_app (c : ascii) (a b : string) :
  Py.remove_char c (a +:+ b) = Py.remove_char c a +:+ Py.remove_char c b.
Proof.
  induction a as [|x a IH]; [reflexivity|].
  rewrite app_cons. simpl. destruct (Ascii.eqb x c); [exact IH|].
  now rewrite app_cons, IH.
Qed.

Lemma remove_char_absent (c : ascii) (k : string) :
  Py.all_chars (fun x => negb (Ascii.eqb x c)) k = true -> Py.remove_char c k = k.
Proof.
  induction k as [|x k IH]; simpl; [reflexivity|]. intros H.
  apply andb_true_iff in H as [Hx Hk].
  apply negb_true_iff in Hx. rewrite Hx, (IH Hk). reflexivity.
Qed.

(** Removing a character that a word does not have keeps the word's
    occurrences. *)
Lemma contains_remove_char (c : ascii) (k s : string) :
  Py.all_chars (fun x => negb (Ascii.eqb x c)) k = true ->
  Py.contains k s = true -> Py.contains k (Py.remove_char c s) = true.
Proof.
  intros Hk H. apply contains_inv in H as (a & t & ->).
  rewrite !remove_char_app, (remove_char_absent _ _ Hk).
  apply contains_app.
Qed.

Lemma py_len_app (a b : string) : Py.py_len (a +:+ b) = Py.py_len a + Py.py_len b.
Proof.
  induction a as [|x a IH]; [reflexivity|].
  rewrite app_cons. simpl. rewrite IH. lia.
Qed.

Lemma starts_code_point_lower (c : ascii) :
  Py.starts_code_point (Py.lower_char c) = Py.starts_code_point c.
Proof. destruct c as [[] [] [] [] [] [] [] []]; reflexivity. Qed.

Lemma py_len_lower (s : string) : Py.py_len (Py.lower s) = Py.py_len s.
Proof.
  induction s as [|c s IH]; simpl; [reflexivity|].
  now rewrite starts_code_point_lower, IH.
Qed.

Lemma py_len_contains (k s : string) :
  Py.contains k s = true -> Py.py_len k <= Py.py_len s.
Proof.
  intros H. apply contains_inv in H as (a & t & ->).
  rewrite !py_len_app. lia.
Qed.

End StringFacts.

(** ** The classifier *)

Lemma order_keywords_ok : set_Forall (λ k, keyword_ok k = true) order_keywords.
Proof. apply (bool_decide_unpack _). vm_compute. exact I. Qed.

Lemma is_order_related_inv (q : string) :
  is_order_related q = true ->
  exists k, k ∈ order_keywords /\ Py.contains k (Py.lower q) = true.
Proof.
  unfold is_order_related. intros H.
  apply bool_decide_eq_true_1 in H. destruct H as (k & Hk & Hc). eauto.
Qed.

(** A query that holds a domain keyword is not a greeting and is not too
    short: it reaches the retrieval step. *)
Lemma order_related_reaches_retrieval (q : string) :
  is_order_related q = true ->
  is_greeting q = false /\ (Py.py_len q <? 3)%nat = false.
Proof.
  intros H. apply is_order_related_inv in H as (k & Hk & Hc).
  pose proof (order_keywords_ok k Hk) as Hok. unfold keyword_ok in Hok.
  repeat (apply andb_true_iff in Hok as [Hok ?]).
  apply bool_decide_eq_true_1 in H.
  assert (Hg : bool_decide (q_lower_clean q ∈ greetings) = false).
  { apply bool_decide_eq_false_2. intros Hin.
    specialize (H _ Hin). simpl in H.
    unfold q_lower_clean in H.
    rewrite contains_remove_char in H; [discriminate | assumption |].
    apply contains_remove_char; assumption. }
  split.
  - unfold is_greeting. rewrite Hg. now rewrite andb_false_r.
  - apply Nat.ltb_ge. apply Nat.leb_le in Hok.
    apply py_len_contains in Hc. rewrite py_len_lower in Hc. lia.
Qed.

Lemma greeting_member (q : string) :
  q_lower_clean q ∈ greetings -> is_greeting q = true.
Proof.
  intros H. unfold is_greeting. now rewrite (bool_decide_eq_true_2 _ H).
Qed.

(** ** Running the query path *)

Lemma query_body_to_gate (w : World) (q0 : string) (st : qstate) (ix : Index)
    (nodes : list Node) :
  is_greeting (Py.strip q0) = false ->
  (Py.py_len (Py.strip q0) <? 3)%nat = false ->
  _index (interfere w (reads st) (im st)) = Some ix ->
  retrieve w ix (Py.strip q0) = inr nodes ->
  query_body w q0 st =
  (if no_context nodes then
     if is_order_related (Py.strip q0) then ret no_data_answer
     else
       text <- call_complete w (fallback_prompt (Py.strip q0)) ;;
       ret (Py.strip text)
   else
     ix' <- read_index w "as_query_engine" ;;
     resp <- call_engine w ix' qa_prompt refine_prompt (Py.strip q0) ;;
     post_process (response_text resp) (Py.strip q0))
    (after_retrieval w st ix (Py.strip q0)).
Proof.
  intros Hg Hl Hix Hr. unfold query_body. rewrite Hg, Hl.
  unfold bind at 1. unfold read_index at 1. rewrite Hix.
  unfold bind at 1. unfold call_retrieve, bind at 1, emit, modify, lift.
  cbn [trace im reads]. rewrite Hr. reflexivity.
Qed.

(** C7.  Whenever the trimmed input, lowercased and with every [!] and [?]
    removed, is one of the fixed greetings, [query] returns the canned
    greeting and leaves the state as it found it: the handle is not read and
    the trace gains no event, so neither a retrieval nor a generation call
    is made. *)
Theorem greeting_returns_canned_answer_without_calls
    (w : World) (q : string) (st : qstate) :
  q_lower_clean (Py.strip q) ∈ greetings ->
  query w q st = (inr greeting_answer, st).
Proof.
  intros H. unfold query, try_except, query_body.
  now rewrite (greeting_member _ H).
Qed.

Lemma after_retrieval_generation_calls (w : World) (st : qstate) (ix : Index)
    (q : string) :
  filter is_generation (trace (after_retrieval w st ix q))
  = filter is_generation (trace st).
Proof.
  unfold after_retrieval; simpl.
  rewrite filter_app. simpl. apply app_nil_r.
Qed.

(** C2.  A query that holds a domain keyword, for which the retriever
    returns no node or only nodes scored below 0.15, gets the fixed no-data
    answer; the only call made is that retrieval, so the generation calls of
    the trace are those that were there before the query. *)
Theorem domain_query_without_context_gets_no_data_answer
    (w : World) (q : string) (st : qstate) (ix : Index) (nodes : list Node) :
  is_order_related (Py.strip q) = true ->
  _index (interfere w (reads st) (im st)) = Some ix ->
  retrieve w ix (Py.strip q) = inr nodes ->
  no_context nodes = true ->
  query w q st = (inr no_data_answer, after_retrieval w st ix (Py.strip q))
  /\ filter is_generation (trace (snd (query w q st)))
     = filter is_generation (trace st).
Proof.
  intros Hrel Hix Hr Hnc.
  destruct (order_related_reaches_retrieval _ Hrel) as [Hg Hl].
  assert (E : query w q st
              = (inr no_data_answer, after_retrieval w st ix (Py.strip q))).
  { unfold query, try_except.
    rewrite (query_body_to_gate w q st ix nodes Hg Hl Hix Hr), Hnc, Hrel.
    reflexivity. }
  split; [exact E|].
  rewrite E. apply after_retrieval_generation_calls.
Qed.

(** ** The builder *)

Ltac build_steps :=
  cbv beta iota zeta delta
    [_start_indexing _build_index call_rmtree call_from_documents on_disk bind
     set_index set_last_snapshot modify lift gets raise ret monitor_tick
     __init__];
  cbn [manager persist_dir _index _last_snapshot fst snd].

(** C1, amended.  A build that fails while collecting, opening the store,
    embedding or persisting leaves both fields of the manager as they were:
    the handle published before stays the one queries read, and no partly
    built generation is published.  The directory of persisted vector data
    is not protected: its removal is the first step of the build, before
    anything that can fail, and after the failure it holds what the removal
    and the steps that ran have left.  When the failure is in collecting the
    documents, that is exactly what the removal left. *)
Theorem failed_build_keeps_published_generation
    (env : BuildEnv) (e : exn) (h : Host) (d : Disk) :
  fails_before_publish env (persist_dir h) e d ->
  _build_index env h
  = (inl e, {| manager := manager h; persist_dir := d |})
  /\ (collect_documents (listdir env) = inl e ->
      _build_index env h
      = (inl e, {| manager := manager h;
                   persist_dir := rmtree env (persist_dir h) |})).
Proof.
  intros F.
  assert (C : collect_documents (listdir env) = inl e ->
              _build_index env h
              = (inl e, {| manager := manager h;
                           persist_dir := rmtree env (persist_dir h) |})).
  { intros Hc. build_steps. now rewrite Hc. }
  split; [|exact C].
  destruct F as [[Hc ->] | (ds & Hc & F)]; [now apply C|].
  build_steps. rewrite Hc. build_steps.
  destruct F as [Ho | (d2 & Ho & F)]; rewrite Ho; build_steps;
    [reflexivity|].
  destruct F as [Hf | (index & d3 & Hf & Hp)]; rewrite Hf; build_steps;
    [reflexivity|].
  rewrite Hp. reflexivity.
Qed.

(** ** The watcher *)

Lemma monitor_files_app (a b : list Tick) (h : Host) :
  _monitor_files (a ++ b) h =
  match _monitor_files a h with
  | (inl e, h') => (inl e, h')
  | (inr _, h') => _monitor_files b h'
  end.
Proof.
  revert h; induction a as [|t a IH]; intros h; simpl.
  - reflexivity.
  - unfold bind. destruct (monitor_tick t h) as [[e|[]] h1]; [reflexivity|].
    apply IH.
Qed.

Lemma monitor_tick_read_error (t : Tick) (e : exn) (h : Host) :
  get_files_snapshot (seen t) = inl e -> monitor_tick t h = (inl e, h).
Proof.
  intros H. unfold monitor_tick, bind, lift. now rewrite H.
Qed.

(** C8, amended.  An error raised while the watcher reads the corpus
    directory is not caught: it ends [_monitor_files], and with it the
    watcher thread, at that tick.  The manager and the persisted directory
    stay as the earlier ticks left them, and no later tick is processed,
    whatever the directory shows then. *)
Theorem watcher_ends_at_directory_read_error
    (before : list Tick) (t : Tick) (later : list Tick) (h h1 : Host) (e : exn) :
  _monitor_files before h = (inr tt, h1) ->
  get_files_snapshot (seen t) = inl e ->
  _monitor_files (before ++ t :: later) h = (inl e, h1).
Proof.
  intros Hb He. rewrite monitor_files_app, Hb. simpl.
  unfold bind. now rewrite (monitor_tick_read_error t e h1 He).
Qed.

(** ** The handle during a query *)

Lemma query_handlers_returns (e : exn) (st : qstate) :
  exists a, query_handlers e st = (inr a, st).
Proof. destruct e; eexists; reflexivity. Qed.

Lemma post_process_state (text q : string) (st : qstate) :
  snd (post_process text q st) = st.
Proof.
  unfold post_process, _compress_verbose_response, raise, ret.
  repeat case_match; reflexivity.
Qed.

Lemma query_state (w : World) (q : string) (st : qstate) :
  snd (query w q st) = snd (query_body w q st).
Proof.
  unfold query, try_except.
  destruct (query_body w q st) as [[e|a] st1]; [|reflexivity].
  destruct (query_handlers_returns e st1) as [a ->]. reflexivity.
Qed.

(** [IndexManager.query] never raises: what its body raises is turned into
    an answer by one of the two handlers. *)
Lemma query_returns (w : World) (q : string) (st : qstate) :
  exists a, query w q st = (inr a, snd (query_body w q st)).
Proof.
  unfold query, try_except.
  destruct (query_body w q st) as [[e|a] st1]; simpl.
  - apply query_handlers_returns.
  - now exists a.
Qed.

(** Closes a goal about the reads and the trace of a final state that is
    written out. *)
Ltac trace_leaf :=
  split;
  [ lia
  | cbn [app In event_index]; intros ? ? HIn;
    repeat (destruct HIn as [<-|HIn]); try contradiction;
    cbn [event_index]; congruence ].

Ltac query_steps :=
  cbv beta iota zeta delta
    [bind read_index call_retrieve call_complete call_engine emit modify lift
     ret raise start after_retrieval];
  cbn [im reads trace fst snd].

(** C9, amended.  A query answered by the greeting or the length check does
    not read [self._index].  Every other query reads it once at the start of
    its retrieval step and, on the grounded path, a second time to build the
    query engine; it never reads it more than twice.  The retrieval runs
    against the generation published at the first read and the engine
    against the one published at the second read.  When no publication falls
    between the two reads, every call of the query is made against one and
    the same generation. *)
Theorem query_reads_published_handle_at_each_step
    (w : World) (q : string) (m : IndexManager) :
  let st' := snd (query w q (start m)) in
  let first := _index (interfere w 0 m) in
  let second := _index (interfere w 1 (interfere w 0 m)) in
  (if is_greeting (Py.strip q) || (Py.py_len (Py.strip q) <? 3)%nat
   then st' = start m
   else
     match first with
     | None => st' = {| im := interfere w 0 m; reads := 1; trace := [] |}
     | Some ix =>
         match retrieve w ix (Py.strip q) with
         | inl _ =>
             st' = {| im := interfere w 0 m; reads := 1;
                      trace := [EvRetrieve ix (Py.strip q)] |}
         | inr nodes =>
             if no_context nodes then
               st' = {| im := interfere w 0 m; reads := 1;
                        trace :=
                          EvRetrieve ix (Py.strip q)
                          :: (if is_order_related (Py.strip q) then []
                              else [EvComplete (fallback_prompt (Py.strip q))]) |}
             else
               st' = {| im := interfere w 1 (interfere w 0 m); reads := 2;
                        trace :=
                          EvRetrieve ix (Py.strip q)
                          :: match second with
                             | Some ix' => [EvEngineQuery ix' (Py.strip q)]
                             | None => []
                             end |}
         end
     end)
  /\ reads st' <= 2
  /\ (forall ix q', In (EvRetrieve ix q') (trace st') -> first = Some ix)
  /\ (forall ix q', In (EvEngineQuery ix q') (trace st') -> second = Some ix)
  /\ (second = first ->
      forall e1 e2 i1 i2, In e1 (trace st') -> In e2 (trace st') ->
        event_index e1 = Some i1 -> event_index e2 = Some i2 -> i1 = i2).
Proof.
  intros st' first second.
  assert (X : if is_greeting (Py.strip q) || (Py.py_len (Py.strip q) <? 3)%nat
   then st' = start m
   else
     match first with
     | None => st' = {| im := interfere w 0 m; reads := 1; trace := [] |}
     | Some ix =>
         match retrieve w ix (Py.strip q) with
         | inl _ =>
             st' = {| im := interfere w 0 m; reads := 1;
                      trace := [EvRetrieve ix (Py.strip q)] |}
         | inr nodes =>
             if no_context nodes then
               st' = {| im := interfere w 0 m; reads := 1;
                        trace :=
                          EvRetrieve ix (Py.strip q)
                          :: (if is_order_related (Py.strip q) then []
                              else [EvComplete (fallback_prompt (Py.strip q))]) |}
             else
               st' = {| im := interfere w 1 (interfere w 0 m); reads := 2;
                        trace :=
                          EvRetrieve ix (Py.strip q)
                          :: match second with
                             | Some ix' => [EvEngineQuery ix' (Py.strip q)]
                             | None => []
                             end |}
         end
     end).
  { subst st' first second. rewrite query_state. unfold query_body.
    destruct (is_greeting _); [reflexivity|].
    destruct (_ <? 3)%nat; [reflexivity|]. cbn [orb].
    query_steps.
    destruct (_index (interfere w 0 m)) as [ix|]; query_steps;
      [|reflexivity].
    destruct (retrieve w ix _) as [e|nodes]; query_steps; [reflexivity|].
    destruct (no_context nodes).
    - destruct (is_order_related _); query_steps; [reflexivity|].
      destruct (complete w _); query_steps; reflexivity.
    - query_steps.
      destruct (_index (interfere w 1 (interfere w 0 m))) as [ix'|];
        query_steps; [|reflexivity].
      destruct (engine_query w ix' _ _ _); query_steps; [reflexivity|].
      rewrite post_process_state. reflexivity. }
  split; [exact X|].
  assert (H : reads st' <= 2
    /\ (forall e i, In e (trace st') -> event_index e = Some i ->
          match e with
          | EvEngineQuery _ _ => second = Some i
          | _ => first = Some i
          end)).
  { clearbody st'. revert X.
    destruct (_ || _); [intros ->; query_steps; trace_leaf|].
    destruct first as [ix|] eqn:H1; [|intros ->; query_steps; trace_leaf].
    destruct (retrieve w ix _) as [e|nodes];
      [intros ->; query_steps; trace_leaf|].
    destruct (no_context nodes).
    - destruct (is_order_related _); intros ->; query_steps; trace_leaf.
    - destruct second as [ix'|] eqn:H2; intros ->; query_steps; trace_leaf. }
  destruct H as [Hr He]. split; [exact Hr|].
  split; [intros ix q' Hin; exact (He _ _ Hin eq_refl)|].
  split; [intros ix q' Hin; exact (He _ _ Hin eq_refl)|].
  intros Heq e1 e2 i1 i2 In1 In2 E1 E2.
  pose proof (He _ _ In1 E1) as P1. pose proof (He _ _ In2 E2) as P2.
  destruct e1, e2; rewrite ?Heq in *; congruence.
Qed.

(** ** The candidate answer that asks for compression *)

(** C5, at the failing input.  The candidate repeats [This dish] four times;
    no earlier branch fires, the call of [_compress_verbose_response] raises
    [AttributeError], and the answer is the text of the generic handler: no
    compressed text is returned. *)
Theorem verbose_candidate_gets_error_text :
  is_verbose verbose_candidate = true
  /\ fst (query (grounded_world verbose_candidate) "what do you suggest"
            (start demo_manager))
     = inr "[Unexpected Error During Query] 'IndexManager' object has no attribute '_compress_verbose_response'".
Proof. split; vm_compute; reflexivity. Qed.

(** ** The grounded path *)

Lemma query_body_grounded (w : World) (q0 : string) (st : qstate)
    (resp : Response) :
  grounded w q0 st resp ->
  exists st', query_body w q0 st
              = post_process (response_text resp) (Py.strip q0) st'.
Proof.
  intros [Hg Hl (ix & nodes & ix' & H1 & Hr & Hn & H2 & He)].
  exists (after_engine w st ix ix' (Py.strip q0)).
  rewrite (query_body_to_gate w q0 st ix nodes Hg Hl H1 Hr), Hn.
  query_steps. rewrite H2. query_steps. rewrite He. reflexivity.
Qed.

Lemma query_grounded (w : World) (q0 : string) (st : qstate) (resp : Response) :
  grounded w q0 st resp ->
  fst (query w q0 st) = inr (branch_answer (response_text resp) (Py.strip q0)).
Proof.
  intros G. destruct (query_body_grounded w q0 st resp G) as [st' E].
  unfold query, try_except. rewrite E.
  unfold post_process, branch_answer, _compress_verbose_response, raise, ret.
  destruct (has_raw_data _); [reflexivity|].
  destruct (has_field_labels _); [reflexivity|].
  destruct (is_verbose _); [reflexivity|].
  destruct (looks_like_dump _); reflexivity.
Qed.

Lemma query_fallback (w : World) (q0 : string) (st : qstate) (text : string) :
  fallback w q0 st text -> fst (query w q0 st) = inr (Py.strip text).
Proof.
  intros [Hg Hl Hrel (ix & nodes & Hix & Hr & Hnc) Hc].
  unfold query, try_except.
  rewrite (query_body_to_gate w q0 st ix nodes Hg Hl Hix Hr), Hnc, Hrel.
  query_steps. rewrite Hc. reflexivity.
Qed.

(** C4, amended.  A candidate answer that the query engine produced on the
    grounded path goes through exactly one branch of the chain, the first
    whose condition holds: recovery of meaningful lines when more than two
    raw-data patterns are found; otherwise label clean-up when [Item Name] or
    [Title:] occurs; otherwise the call for compression when the phrase
    counts are exceeded; otherwise the cut to two sentences when it looks
    like a data dump; otherwise the candidate is returned as it is.  In
    particular, when the recovery branch fires, none of the later branches
    is applied to its result.  A candidate that the fallback completion
    produced goes through no branch at all: it is returned with the white
    space around it removed, whatever it holds. *)
Theorem candidate_goes_through_first_matching_branch
    (w : World) (q : string) (st : qstate) :
  (forall resp, grounded w q st resp ->
     let text := response_text resp in
     (has_raw_data text = true ->
        fst (query w q st) = inr (_extract_meaningful_response text (Py.strip q)))
     /\ (has_raw_data text = false -> has_field_labels text = true ->
        fst (query w q st) = inr (_clean_and_format_response text (Py.strip q)))
     /\ (has_raw_data text = false -> has_field_labels text = false ->
         is_verbose text = false -> looks_like_dump text = true ->
        fst (query w q st) = inr (truncate_dump text))
     /\ (has_raw_data text = false -> has_field_labels text = false ->
         is_verbose text = false -> looks_like_dump text = false ->
        fst (query w q st) = inr text))
  /\ (forall text, fallback w q st text ->
       fst (query w q st) = inr (Py.strip text)).
Proof.
  split; [|apply query_fallback].
  intros resp G text. rewrite (query_grounded w q st resp G).
  fold text. unfold branch_answer.
  repeat split; intros; repeat match goal with H : _ = _ |- _ => rewrite H end;
    reflexivity.
Qed.

(** ** Sentences: pieces between occurrences of [". "] *)

Section Sentences.

Lemma length_split_from (sep : string) (s : string) :
  forall skip cur,
    length (Py.split_from sep skip cur s) = S (Py.count_from sep skip s).
Proof.
  induction s as [|c s IH]; intros skip cur; simpl; [reflexivity|].
  destruct skip as [|k]; [|apply IH].
  destruct (Py.startswith sep (String c s)); simpl; now rewrite IH.
Qed.

Lemma sentences_count (text : string) : sentences text = S (Py.count ". " text).
Proof. apply length_split_from. Qed.

(** [". "] starts a string exactly when its first two characters are a full
    stop and a blank. *)
Lemma startswith_sep (s : string) :
  Py.startswith ". " s =
  match s with
  | String c (String d _) => Ascii.eqb "." c && Ascii.eqb " " d
  | _ => false
  end.
Proof.
  destruct s as [|c [|d s]]; simpl; try reflexivity.
  - now rewrite andb_false_r.
  - now rewrite andb_true_r.
Qed.

Lemma contains_cons (sub : string) (c : ascii) (s : string) :
  Py.contains sub (String c s)
  = Py.startswith sub (String c s) || Py.contains sub s.
Proof. reflexivity. Qed.

Lemma no_sep_tail (c : ascii) (s : string) : no_sep (String c s) -> no_sep s.
Proof.
  unfold no_sep. rewrite contains_cons. intros H.
  now apply orb_false_iff in H as [_ H].
Qed.

Lemma no_sep_head (c : ascii) (s : string) :
  no_sep (String c s) -> Py.startswith ". " (String c s) = false.
Proof.
  unfold no_sep. rewrite contains_cons. intros H.
  now apply orb_false_iff in H as [H _].
Qed.

(** Adding a character to a piece without [". "] makes no occurrence unless
    the piece ends with a full stop and the character is a blank. *)
Lemma no_sep_snoc (cur : string) (c : ascii) :
  no_sep cur -> ends_with_dot cur && Ascii.eqb " " c = false ->
  no_sep (cur +:+ String c "").
Proof.
  unfold no_sep.
  induction cur as [|x cur IH]; intros Hn He.
  - rewrite app_nil, contains_cons, startswith_sep. reflexivity.
  - rewrite app_cons, contains_cons.
    pose proof (no_sep_head _ _ Hn) as Hh. apply no_sep_tail in Hn.
    apply orb_false_iff. split.
    + rewrite startswith_sep in *.
      destruct cur as [|y cur]; [exact He | exact Hh].
    + apply IH; [exact Hn|].
      destruct cur as [|y cur]; [reflexivity | exact He].
Qed.

Lemma ends_with_dot_snoc (cur : string) (c : ascii) :
  ends_with_dot (cur +:+ String c "") = Ascii.eqb "." c.
Proof.
  induction cur as [|x cur IH]; [reflexivity|].
  rewrite app_cons. destruct cur as [|y cur]; [reflexivity|].
  rewrite app_cons in *. exact IH.
Qed.

Lemma split_from_cons (sep : string) (skip : nat) (cur : string) (c : ascii)
    (s : string) :
  Py.split_from sep skip cur (String c s) =
  match skip with
  | S k => Py.split_from sep k cur s
  | O =>
      if Py.startswith sep (String c s)
      then cur :: Py.split_from sep (String.length sep - 1) "" s
      else Py.split_from sep 0 (cur +:+ String c "") s
  end.
Proof. reflexivity. Qed.

Lemma count_from_cons (sub : string) (skip : nat) (c : ascii) (s : string) :
  Py.count_from sub skip (String c s) =
  match skip with
  | S k => Py.count_from sub k s
  | O =>
      if Py.startswith sub (String c s)
      then S (Py.count_from sub (String.length sub - 1) s)
      else Py.count_from sub 0 s
  end.
Proof. reflexivity. Qed.

(** Every piece of a split is free of the separator. *)
Lemma split_from_no_sep (s : string) :
  forall skip cur,
    no_sep cur ->
    cur = "" \/ (skip = 0 /\ ends_with_dot cur && starts_with_blank s = false) ->
    Forall no_sep (Py.split_from ". " skip cur s).
Proof.
  induction s as [|c s IH]; intros skip cur Hn Hb.
  - constructor; [exact Hn | constructor].
  - rewrite split_from_cons. destruct skip as [|k].
    + destruct (Py.startswith ". " (String c s)) eqn:Hs.
      * constructor; [exact Hn|]. apply IH; [reflexivity | now left].
      * assert (He : ends_with_dot cur && Ascii.eqb " " c = false).
        { destruct Hb as [-> | [_ Hb]]; [reflexivity | exact Hb]. }
        apply IH.
        -- now apply no_sep_snoc.
        -- right. split; [reflexivity|].
           rewrite ends_with_dot_snoc. rewrite startswith_sep in Hs.
           destruct s as [|d s]; [apply andb_false_r | exact Hs].
    + destruct Hb as [-> | [Hk _]]; [|discriminate].
      apply IH; [reflexivity | now left].
Qed.

Lemma split_no_sep (text : string) : Forall no_sep (Py.split ". " text).
Proof. apply split_from_no_sep; [reflexivity | now left]. Qed.

Lemma sep_cons (x : string) : ". " +:+ x = String "." (String " " x).
Proof. reflexivity. Qed.

(** After a piece free of the separator, the first occurrence is the one
    that follows the piece. *)
Lemma count_piece_then_sep (a x : string) :
  no_sep a -> Py.count ". " (a +:+ ". " +:+ x) = S (Py.count ". " x).
Proof.
  unfold Py.count. induction a as [|c a IH]; intros Hn.
  - rewrite app_nil, sep_cons, count_from_cons, startswith_sep.
    rewrite !Ascii.eqb_refl. reflexivity.
  - rewrite app_cons, count_from_cons.
    pose proof (no_sep_head _ _ Hn) as Hh.
    replace (Py.startswith ". " (String c (a +:+ ". " +:+ x))) with false.
    + apply IH. now apply no_sep_tail in Hn.
    + symmetry. rewrite startswith_sep in *.
      destruct a as [|y a]; [|exact Hh].
      rewrite app_nil, sep_cons. apply andb_false_r.
Qed.

Lemma count_piece_then_dot (b : string) :
  no_sep b -> Py.count ". " (b +:+ ".") = 0.
Proof.
  unfold Py.count. induction b as [|c b IH]; intros Hn.
  - reflexivity.
  - rewrite app_cons, count_from_cons.
    pose proof (no_sep_head _ _ Hn) as Hh.
    replace (Py.startswith ". " (String c (b +:+ "."))) with false.
    + apply IH. now apply no_sep_tail in Hn.
    + symmetry. rewrite startswith_sep in *.
      destruct b as [|y b]; [|exact Hh].
      rewrite app_nil. apply andb_false_r.
Qed.

Lemma join_cons2 (sep p p' : string) (l : list string) :
  Py.join sep (p :: p' :: l) = p +:+ sep +:+ Py.join sep (p' :: l).
Proof. reflexivity. Qed.

Lemma count_joined (l : list string) :
  l <> [] -> Forall no_sep l ->
  Py.count ". " (Py.join ". " l +:+ ".") = length l - 1.
Proof.
  induction l as [|p l IH]; intros Hne Hl; [contradiction|].
  inversion Hl as [|? ? Hp Hl']; subst.
  destruct l as [|p' l].
  - now apply count_piece_then_dot.
  - rewrite join_cons2, !app_assoc', (count_piece_then_sep p _ Hp).
    rewrite IH; [cbn [length]; lia | discriminate | exact Hl'].
Qed.

Lemma split_nonempty (sep text : string) : Py.split sep text <> [].
Proof.
  intros H. apply (f_equal (@length string)) in H.
  unfold Py.split in H. rewrite length_split_from in H. discriminate.
Qed.

(** [". ".join(sentences[:n]) + "."] has at most [n] sentences. *)
Lemma first_sentences_bound (n : nat) (text : string) :
  0 < n -> sentences (first_sentences n (Py.split ". " text)) <= n.
Proof.
  intros Hn. rewrite sentences_count. unfold first_sentences.
  pose proof (split_nonempty ". " text) as Hne.
  pose proof (split_no_sep text) as Hns.
  destruct (Py.split ". " text) as [|p l]; [contradiction|].
  destruct n as [|n]; [lia|].
  rewrite count_joined.
  - pose proof (firstn_le_length (S n) (p :: l)). cbn [firstn length] in *. lia.
  - discriminate.
  - now apply Forall_take.
Qed.

Lemma truncate_dump_bound (text : string) : sentences (truncate_dump text) <= 2.
Proof.
  unfold truncate_dump.
  destruct (2 <? length (Py.split ". " text))%nat eqn:E.
  - apply first_sentences_bound. lia.
  - apply Nat.ltb_ge in E. exact E.
Qed.

End Sentences.

Section SentencesUnderEdits.

Lemma count_from_first_not_dot (c : ascii) (s : string) :
  Ascii.eqb "." c = false ->
  Py.count_from ". " 0 (String c s) = Py.count_from ". " 0 s.
Proof.
  intros H. rewrite count_from_cons, startswith_sep.
  destruct s; [reflexivity|]. now rewrite H.
Qed.

(** A prefix without a full stop adds no sentence. *)
Lemma count_prefix_no_dot (p x : string) :
  no_dot p = true -> Py.count ". " (p +:+ x) = Py.count ". " x.
Proof.
  unfold Py.count, no_dot. induction p as [|c p IH]; intros H; [reflexivity|].
  cbn [Py.all_chars] in H. apply andb_true_iff in H as [Hc Hp].
  apply negb_true_iff in Hc.
  rewrite app_cons, count_from_first_not_dot; auto.
Qed.

Lemma space_not_dot (c : ascii) : Py.is_space c = true -> Ascii.eqb "." c = false.
Proof.
  intros H. destruct (Ascii.eqb_spec "."%char c) as [<-|]; [discriminate | reflexivity].
Qed.

Lemma lstrip_cons (c : ascii) (s : string) :
  Py.lstrip (String c s) = if Py.is_space c then Py.lstrip s else String c s.
Proof. reflexivity. Qed.

Lemma count_lstrip (s : string) : Py.count ". " (Py.lstrip s) = Py.count ". " s.
Proof.
  unfold Py.count. induction s as [|c s IH]; [reflexivity|].
  rewrite lstrip_cons. destruct (Py.is_space c) eqn:E; [|reflexivity].
  rewrite IH. symmetry. apply count_from_first_not_dot, space_not_dot, E.
Qed.

(** Appending text does not remove occurrences. *)
Lemma count_from_app_le (a b : string) :
  forall skip, Py.count_from ". " skip a <= Py.count_from ". " skip (a +:+ b).
Proof.
  induction a as [|c a IH]; intros skip.
  - cbn [Py.count_from]. lia.
  - rewrite app_cons, !count_from_cons.
    destruct skip as [|k]; [|apply IH].
    rewrite !startswith_sep.
    destruct a as [|d a].
    + rewrite app_nil. destruct b; [cbn [Py.count_from]; lia|].
      destruct (_ && _); cbn [Py.count_from]; lia.
    + rewrite app_cons. destruct (_ && _).
      * apply le_n_S. rewrite <- app_cons. apply IH.
      * rewrite <- app_cons. apply IH.
Qed.

Lemma rstrip_cons (c : ascii) (s : string) :
  Py.rstrip (String c s) =
  match Py.rstrip s with
  | EmptyString => if Py.is_space c then EmptyString else String c EmptyString
  | r => String c r
  end.
Proof. reflexivity. Qed.

Lemma rstrip_app (s : string) : exists ws, s = Py.rstrip s +:+ ws.
Proof.
  induction s as [|c s [ws IH]].
  - now exists "".
  - rewrite rstrip_cons. destruct (Py.rstrip s) as [|d r] eqn:E.
    + destruct (Py.is_space c).
      * exists (String c s). reflexivity.
      * exists ws. rewrite app_cons. f_equal. exact IH.
    + exists ws. rewrite app_cons. f_equal. exact IH.
Qed.

Lemma count_rstrip (s : string) : Py.count ". " (Py.rstrip s) <= Py.count ". " s.
Proof.
  destruct (rstrip_app s) as [ws E]. rewrite E at 2. apply count_from_app_le.
Qed.

Lemma sentences_strip (s : string) : sentences (Py.strip s) <= sentences s.
Proof.
  rewrite !sentences_count. unfold Py.strip.
  pose proof (count_rstrip (Py.lstrip s)). rewrite count_lstrip in H. lia.
Qed.

Lemma sentences_prefix (p x : string) :
  no_dot p = true -> sentences (p +:+ x) = sentences x.
Proof. intros H. rewrite !sentences_count. now rewrite count_prefix_no_dot. Qed.

End SentencesUnderEdits.

Lemma drop_0 (s : string) : drop 0 s = s.
Proof. destruct s; reflexivity. Qed.

(** ** Splitting and joining *)

Section SplitJoin.

Variable sep : string.
Hypothesis sep_nonempty : sep <> "".

Lemma drop_app_length (a b : string) : drop (String.length a) (a +:+ b) = b.
Proof.
  induction a as [|c a IH]; [apply drop_0 | exact IH].
Qed.

Lemma length_app (a b : string) :
  String.length (a +:+ b) = String.length a + String.length b.
Proof.
  induction a as [|c a IH]; [reflexivity|].
  rewrite app_cons. cbn [String.length]. now rewrite IH.
Qed.

Lemma after_first_char (p : string) (c : ascii) (s t : string) :
  p <> "" -> String c s = p +:+ t ->
  drop (String.length p - 1) s = t
  /\ String.length p - 1 <= String.length s
  /\ String.length t <= String.length s.
Proof.
  intros Hp E. destruct p as [|c' p']; [contradiction|].
  rewrite app_cons in E. injection E as <- ->.
  replace (String.length (String c p') - 1) with (String.length p')
    by (cbn [String.length]; lia).
  rewrite drop_app_length, length_app. repeat split; lia.
Qed.

Lemma split_from_skip (s : string) :
  forall k cur, k <= String.length s ->
    Py.split_from sep k cur s = Py.split_from sep 0 cur (drop k s).
Proof.
  induction s as [|c s IH]; intros k cur Hk.
  - cbn [String.length] in Hk. replace k with 0 by lia. reflexivity.
  - destruct k as [|k]; [now rewrite drop_0|].
    rewrite split_from_cons. cbn [drop]. apply IH.
    cbn [String.length] in Hk. lia.
Qed.

Lemma join_cons_more (p : string) (l : list string) :
  l <> [] -> Py.join sep (p :: l) = p +:+ sep +:+ Py.join sep l.
Proof. destruct l; [contradiction | reflexivity]. Qed.

Lemma split_from_nonempty (k : nat) (cur s : string) :
  Py.split_from sep k cur s <> [].
Proof.
  intros H. apply (f_equal (@length string)) in H.
  rewrite length_split_from in H. discriminate.
Qed.

Lemma join_split_from (n : nat) :
  forall s cur, String.length s <= n ->
    Py.join sep (Py.split_from sep 0 cur s) = cur +:+ s.
Proof.
  induction n as [|n IH]; intros s cur Hn.
  - destruct s; [|cbn [String.length] in Hn; lia].
    cbn [Py.split_from Py.join]. now rewrite app_empty_r.
  - destruct s as [|c s].
    + cbn [Py.split_from Py.join]. now rewrite app_empty_r.
    + cbn [String.length] in Hn. rewrite split_from_cons.
      destruct (Py.startswith sep (String c s)) eqn:Es.
      * apply startswith_inv in Es as [t Et].
        destruct (after_first_char sep c s t sep_nonempty Et) as (Ed & Hl & Ht).
        rewrite split_from_skip by exact Hl. rewrite Ed.
        rewrite join_cons_more by apply split_from_nonempty.
        rewrite IH by lia. now rewrite app_nil, Et.
      * rewrite IH by lia. now rewrite app_assoc', app_cons, app_nil.
Qed.

(** Joining the pieces of a split with the separator gives the text back. *)
Lemma join_split (s : string) : Py.join sep (Py.split sep s) = s.
Proof. unfold Py.split. now rewrite (join_split_from (String.length s)). Qed.

End SplitJoin.

(** ** Where a cut falls *)

Lemma join_app (sep : string) (a b : list string) :
  a <> [] -> b <> [] ->
  Py.join sep (a ++ b) = Py.join sep a +:+ sep +:+ Py.join sep b.
Proof.
  intros Ha Hb. induction a as [|x a IH]; [contradiction|].
  destruct a as [|y a].
  - destruct b; [contradiction | reflexivity].
  - change ((x :: y :: a) ++ b) with (x :: y :: (a ++ b)).
    rewrite !join_cons2. change (y :: a ++ b) with ((y :: a) ++ b).
    rewrite IH by discriminate. now rewrite !app_assoc'.
Qed.

(** Keeping the first [n] sentences of a text that has more cuts it at a
    sentence boundary. *)
Lemma first_sentences_cut (n : nat) (text : string) :
  0 < n -> n < sentences text ->
  cut_at_sentences n text (first_sentences n (Py.split ". " text)).
Proof.
  intros Hn Hl. unfold sentences in Hl.
  exists (firstn n (Py.split ". " text)),
         (Py.join ". " (skipn n (Py.split ". " text))).
  split; [apply firstn_length_le; lia|].
  split; [apply Forall_take, split_no_sep|].
  split; [|reflexivity].
  rewrite <- join_app.
  - rewrite firstn_skipn. symmetry. apply join_split. discriminate.
  - intros E. apply (f_equal (@length string)) in E.
    rewrite firstn_length_le in E by lia. cbn [length] in E. lia.
  - intros E. apply (f_equal (@length string)) in E.
    rewrite length_skipn in E. cbn [length] in E. lia.
Qed.

(** On a text with no more than [n] sentences nothing is cut: a full stop
    is added. *)
Lemma first_sentences_all (n : nat) (text : string) :
  sentences text <= n ->
  first_sentences n (Py.split ". " text) = text +:+ ".".
Proof.
  intros H. unfold first_sentences, sentences in *.
  rewrite firstn_all2 by exact H. rewrite join_split by discriminate.
  reflexivity.
Qed.

Lemma extract_shape (text query : string) :
  keep_meaningful (Py.split nl text) <> [] ->
  exists opener,
    In opener recovery_openers
    /\ _extract_meaningful_response text query
       = Py.strip
           (opener +:+
            (if recovery_truncates text
             then first_sentences 2 (Py.split ". " (rebuilt_text text))
             else rebuilt_text text)).
Proof.
  unfold _extract_meaningful_response, recovery_truncates, rebuilt_text,
    recovery_openers.
  destruct (keep_meaningful (Py.split nl text)) as [|l ls]; [contradiction|].
  intros _. cbv zeta.
  destruct (negb _).
  - destruct (Py.contains "allerg" _ || _).
    + exists "For your allergy concern: ". split; [cbn [In]; auto | reflexivity].
    + destruct (Py.contains "recommend" _).
      * exists "Here are some great options: ".
        split; [cbn [In]; auto | reflexivity].
      * exists "". split; [cbn [In]; auto | reflexivity].
  - exists "". split; [cbn [In]; auto | reflexivity].
Qed.

Lemma clean_other_shape (text : string) :
  exists opener,
    In opener cleanup_openers
    /\ clean_other text
       = Py.strip
           (opener +:+
            (if (3 <? sentences (strip_labels text))%nat
             then first_sentences 3 (Py.split ". " (strip_labels text))
             else strip_labels text)).
Proof.
  unfold clean_other, cleanup_openers, sentences. cbv zeta.
  destruct (negb _).
  - exists "Based on our data: ". split; [cbn [In]; auto | reflexivity].
  - exists "". split; [cbn [In]; auto | reflexivity].
Qed.

Lemma extract_truncated_bound (text query : string) :
  recovery_truncates text = true ->
  sentences (_extract_meaningful_response text query) <= 2.
Proof.
  unfold recovery_truncates, _extract_meaningful_response.
  destruct (keep_meaningful (Py.split nl text)) as [|l ls]; [discriminate|].
  intros ->.
  etransitivity; [apply sentences_strip|].
  pose proof (first_sentences_bound 2 (Py.join " " (l :: ls))) as B.
  repeat case_match; rewrite ?sentences_prefix by reflexivity; apply B; lia.
Qed.

Lemma clean_other_bound (text : string) : sentences (clean_other text) <= 3.
Proof.
  unfold clean_other.
  etransitivity; [apply sentences_strip|].
  set (t5 := strip_labels text).
  set (t6 := if (3 <? length (Py.split ". " t5))%nat
             then first_sentences 3 (Py.split ". " t5) else t5).
  assert (B : sentences t6 <= 3).
  { subst t6. destruct (3 <? _)%nat eqn:E.
    - apply first_sentences_bound. lia.
    - apply Nat.ltb_ge in E. exact E. }
  destruct (negb _); rewrite ?sentences_prefix by reflexivity; exact B.
Qed.

(** C6, amended.  The answer of a grounded query is cut to sentences (the
    pieces between occurrences of a full stop followed by a blank) by
    sentence count, not by a number of characters.
    - Data-dump branch: a candidate with more than two sentences is cut
      after its second sentence, one with at most two is returned as it is.
    - Recovery branch, when the text it rebuilt is longer than 300 characters
      or has more than five full stops: that text is cut after its second
      sentence when it has more than two, and gets a full stop added
      otherwise; an opener may be put in front and the white space around
      is removed.  When the rebuilt text is neither that long nor has that
      many full stops it is not cut, and when no line is kept the answer is
      one of three fixed sentences.
    - Generic path of the label clean-up: the cleaned text is cut after its
      third sentence when it has more than three and is not cut otherwise;
      an opener may be put in front and the white space around is removed.
    A cut keeps the text up to the full stop that ends the last sentence
    kept, unchanged.  The answers of the three cutting places have at most
    two, two and three sentences.  A candidate that makes no branch fire is
    returned as it is, whatever its length. *)
Theorem grounded_answer_sentence_cuts
    (w : World) (q : string) (st : qstate) (resp : Response) :
  grounded w q st resp ->
  let text := response_text resp in
  exists a, fst (query w q st) = inr a
    /\ (has_raw_data text = false -> has_field_labels text = false ->
        is_verbose text = false -> looks_like_dump text = true ->
        a = truncate_dump text /\ sentences a <= 2
        /\ (2 < sentences text -> cut_at_sentences 2 text a)
        /\ (sentences text <= 2 -> a = text))
    /\ (has_raw_data text = true -> recovery_truncates text = true ->
        sentences a <= 2
        /\ exists opener body,
             In opener recovery_openers
             /\ a = Py.strip (opener +:+ body)
             /\ (2 < sentences (rebuilt_text text) ->
                 cut_at_sentences 2 (rebuilt_text text) body)
             /\ (sentences (rebuilt_text text) <= 2 ->
                 body = rebuilt_text text +:+ "."))
    /\ (has_raw_data text = true -> recovery_truncates text = false ->
        keep_meaningful (Py.split nl text) <> [] ->
        exists opener,
          In opener recovery_openers
          /\ a = Py.strip (opener +:+ rebuilt_text text))
    /\ (has_raw_data text = true -> keep_meaningful (Py.split nl text) = [] ->
        In a [allergy_fallback; recommend_fallback; trouble_fallback])
    /\ (has_raw_data text = false -> has_field_labels text = true ->
        cleans_generically text (Py.strip q) = true ->
        sentences a <= 3
        /\ exists opener body,
             In opener cleanup_openers
             /\ a = Py.strip (opener +:+ body)
             /\ (3 < sentences (strip_labels text) ->
                 cut_at_sentences 3 (strip_labels text) body)
             /\ (sentences (strip_labels text) <= 3 ->
                 body = strip_labels text))
    /\ (has_raw_data text = false -> has_field_labels text = false ->
        is_verbose text = false -> looks_like_dump text = false ->
        a = text).
Proof.
  intros G text. eexists. split; [apply (query_grounded w q st resp G)|].
  fold text. unfold branch_answer.
  split; [|split; [|split; [|split; [|split]]]].
  - intros -> -> -> ->. split; [reflexivity|].
    split; [apply truncate_dump_bound|]. unfold truncate_dump, sentences.
    split; intros H.
    + apply Nat.ltb_lt in H as H'. rewrite H'.
      apply first_sentences_cut; [lia | exact H].
    + apply Nat.ltb_ge in H. now rewrite H.
  - intros -> Ht. split; [now apply extract_truncated_bound|].
    assert (K : keep_meaningful (Py.split nl text) <> []).
    { intros E. unfold recovery_truncates in Ht. now rewrite E in Ht. }
    destruct (extract_shape text (Py.strip q) K) as (opener & Ho & E).
    rewrite Ht in E. exists opener. eexists. split; [exact Ho|].
    split; [exact E|]. split; intros H.
    + apply first_sentences_cut; [lia | exact H].
    + now apply first_sentences_all.
  - intros -> Ht K.
    destruct (extract_shape text (Py.strip q) K) as (opener & Ho & E).
    rewrite Ht in E. now exists opener.
  - intros -> K. unfold _extract_meaningful_response. rewrite K. cbv zeta.
    destruct (_ || _); [cbn [In]; auto|].
    destruct (_ || _); cbn [In]; auto.
  - intros -> -> Hc. unfold _clean_and_format_response.
    unfold cleans_generically in Hc.
    destruct (if is_top_items_query _ then _ else _); [|discriminate].
    apply negb_true_iff in Hc. rewrite Hc.
    split; [apply clean_other_bound|].
    destruct (clean_other_shape text) as (opener & Ho & E).
    exists opener. eexists. split; [exact Ho|]. split; [exact E|].
    split; intros H.
    + apply Nat.ltb_lt in H as H'. rewrite H'.
      apply first_sentences_cut; [lia | exact H].
    + apply Nat.ltb_ge in H. now rewrite H.
  - intros -> -> -> ->. reflexivity.
Qed.

(** ** The HTTP handler *)

Lemma query_any_returns (w : World) (v : pyval) (st : qstate) :
  exists a st', query_any w v st = (inr a, st').
Proof.
  destruct v; try (eexists; eexists; reflexivity).
  destruct (query_returns w s st) as [a E]. eauto.
Qed.

(** C10.  The handler looks the text up under [query] and then under
    [message]: in the JSON body when the content type names JSON, in the
    form when it names a form encoding, and otherwise in the body parsed as
    JSON, a body that cannot be parsed counting as no text.  It always
    returns a response.  The status is 400 only when the look-up gave an
    empty or missing value.  When the look-up gives a non-empty string, the
    response is the model holding the answer of [IndexManager.query], the
    same string as the echoed query, and the UTC time followed by [Z]. *)
Theorem rag_query_accepts_query_or_message
    (w : World) (env : HttpEnv) (request : Request) (st : qstate) :
  let ct := default "" (content_type request) in
  (forall d, is_json_type ct = true -> json request = inr (PDict d) ->
     extract_query_text request
     = inr (py_or (dict_get d "query") (dict_get d "message")))
  /\ (forall f, is_json_type ct = false -> is_form_type ct = true ->
      form request = inr f ->
      extract_query_text request
      = inr (py_or (dict_get f "query") (dict_get f "message")))
  /\ (forall d, is_json_type ct = false -> is_form_type ct = false ->
      json request = inr (PDict d) ->
      extract_query_text request
      = inr (py_or (dict_get d "query") (dict_get d "message")))
  /\ (exists r st', Http.rag_query w env request st = (inr r, st'))
  /\ (forall r st', Http.rag_query w env request st = (inr r, st') ->
      Http.status r = 400 ->
      exists v, extract_query_text request = inr v /\ truthy v = false)
  /\ (forall s, extract_query_text request = inr (PStr s) -> s <> "" ->
      exists a st', query w s st = (inr a, st')
        /\ Http.rag_query w env request st
           = (inr (Http.Model {| Http.answer := a; Http.query := s;
                                 Http.timestamp := utcnow_isoformat env +:+ "Z" |}),
              st')).
Proof.
  intros ct.
  assert (Hq : forall d, query_or_message (PDict d)
                         = inr (py_or (dict_get d "query") (dict_get d "message"))).
  { intros d. unfold query_or_message, py_or, body_get.
    destruct (truthy (dict_get d "query")); reflexivity. }
  repeat split.
  - intros d Hj Hb. unfold extract_query_text. fold ct. now rewrite Hj, Hb, Hq.
  - intros f Hj Hf Hb. unfold extract_query_text. fold ct. now rewrite Hj, Hf, Hb.
  - intros d Hj Hf Hb. unfold extract_query_text. fold ct.
    now rewrite Hj, Hf, Hb, Hq.
  - unfold Http.rag_query, try_except, bind, lift, ret.
    destruct (extract_query_text request) as [e|v]; [eauto|].
    destruct (negb (truthy v)); [eauto|].
    destruct (query_any_returns w v st) as (a & st1 & ->).
    destruct (validate_str env v); eauto.
  - intros r st'. unfold Http.rag_query, try_except, bind, lift, ret.
    destruct (extract_query_text request) as [e|v].
    + intros [= <- <-]. discriminate.
    + destruct (truthy v) eqn:Ht; cbn [negb].
      * destruct (query_any_returns w v st) as (a & st1 & ->).
        destruct (validate_str env v); intros [= <- <-]; discriminate.
      * intros _ _. now exists v.
  - intros s Hs Hne.
    destruct (query_returns w s st) as [a Ha].
    exists a, (snd (query_body w s st)). split; [exact Ha|].
    unfold Http.rag_query, try_except, bind, lift, ret. rewrite Hs.
    assert (Ht : truthy (PStr s) = true) by (destruct s; [contradiction | reflexivity]).
    rewrite Ht. cbn [negb query_any validate_str]. rewrite Ha. reflexivity.
Qed.

(** ** The matcher on the repetition of a character class *)

Section StarOfClass.
Import Re.

Variable p : ascii -> bool.

Lemma run_chr (c : cursor) (k : cursor -> option cursor) :
  run (Chr p) c k =
  match rest c with
  | String a s' =>
      if p a then k (Cursor (S (pos c)) (Some a) s' (groups c)) else None
  | EmptyString => None
  end.
Proof. reflexivity. Qed.

Lemma run_cat (a b : regex) (c : cursor) (k : cursor -> option cursor) :
  run (Cat a b) c k = run a c (fun c' => run b c' k).
Proof. reflexivity. Qed.

Lemma run_star_nil (n : nat) (pv : option ascii) (g : list (nat * string))
    (k : cursor -> option cursor) :
  run (Star (Chr p)) (Cursor n pv "" g) k = k (Cursor n pv "" g).
Proof. reflexivity. Qed.

Lemma run_star_cons (n : nat) (pv : option ascii) (a : ascii) (s' : string)
    (g : list (nat * string)) (k : cursor -> option cursor) :
  run (Star (Chr p)) (Cursor n pv (String a s') g) k =
  if p a then
    match run (Star (Chr p)) (Cursor (S n) (Some a) s' g) k with
    | Some r => Some r
    | None => k (Cursor n pv (String a s') g)
    end
  else k (Cursor n pv (String a s') g).
Proof.
  cbn [run rest pos groups String.length].
  destruct (p a); [|reflexivity].
  rewrite (proj2 (Nat.ltb_lt n (S n)) (Nat.lt_succ_diag_r n)).
  reflexivity.
Qed.

Lemma pos_eat (s : string) :
  forall n pv g, pos (eat p n pv s g) = n + lead p s.
Proof.
  induction s as [|x s IH]; intros n pv g; cbn [eat lead].
  - cbn [pos]. lia.
  - destruct (p x); [rewrite IH; lia | cbn [pos]; lia].
Qed.

Lemma rest_eat (s : string) :
  forall n pv g, rest (eat p n pv s g) = drop (lead p s) s.
Proof.
  induction s as [|x s IH]; intros n pv g; cbn [eat lead].
  - reflexivity.
  - destruct (p x); [rewrite IH; reflexivity | reflexivity].
Qed.

(** With a continuation that accepts everything, the greedy star stops
    after the longest run. *)
Lemma run_star_total (s : string) :
  forall n pv g, run (Star (Chr p)) (Cursor n pv s g) Some = Some (eat p n pv s g).
Proof.
  induction s as [|x s IH]; intros n pv g.
  - reflexivity.
  - rewrite run_star_cons. cbn [eat].
    destruct (p x); [now rewrite IH | reflexivity].
Qed.

(** The greedy star tries the longest run first: when the continuation
    accepts there, that is the match. *)
Lemma run_star_greedy (k : cursor -> option cursor) (r : cursor) (s : string) :
  forall n pv g,
    k (eat p n pv s g) = Some r ->
    run (Star (Chr p)) (Cursor n pv s g) k = Some r.
Proof.
  induction s as [|x s IH]; intros n pv g H.
  - exact H.
  - rewrite run_star_cons. cbn [eat] in H.
    destruct (p x); [now rewrite (IH _ _ _ H) | exact H].
Qed.

(** Whatever the continuation, a match of the star stops inside the run. *)
Lemma run_star_inv (k : cursor -> option cursor) (r : cursor) (s : string) :
  forall n pv g,
    run (Star (Chr p)) (Cursor n pv s g) k = Some r ->
    exists j pv', j <= lead p s /\ k (Cursor (n + j) pv' (drop j s) g) = Some r.
Proof.
  induction s as [|x s IH]; intros n pv g H.
  - exists 0, pv. rewrite Nat.add_0_r. split; [cbn [lead]; lia | exact H].
  - rewrite run_star_cons in H. cbn [lead].
    destruct (p x).
    + destruct (run (Star (Chr p)) (Cursor (S n) (Some x) s g) k) as [r'|] eqn:E.
      * injection H as ->. destruct (IH _ _ _ E) as (j & pv' & Hj & Hk).
        exists (S j), pv'. split; [lia|].
        rewrite <- Nat.add_succ_comm. exact Hk.
      * exists 0, pv. rewrite Nat.add_0_r. split; [lia | exact H].
    + exists 0, pv. rewrite Nat.add_0_r. split; [lia | exact H].
Qed.

End StarOfClass.

(** ** Visible characters *)

Section Visible.

Lemma has_visible_cons (c : ascii) (s : string) :
  has_visible (String c s) = visible c || has_visible s.
Proof. reflexivity. Qed.

Lemma has_visible_app (a b : string) :
  has_visible (a +:+ b) = has_visible a || has_visible b.
Proof.
  induction a as [|c a IH]; [reflexivity|].
  now rewrite app_cons, !has_visible_cons, IH, orb_assoc.
Qed.

Lemma has_visible_lstrip (s : string) : has_visible (Py.lstrip s) = has_visible s.
Proof.
  induction s as [|c s IH]; [reflexivity|].
  rewrite lstrip_cons, has_visible_cons. unfold visible.
  destruct (Py.is_space c) eqn:E; [exact IH|].
  rewrite has_visible_cons. unfold visible. now rewrite E.
Qed.

Lemma has_visible_rstrip (s : string) : has_visible (Py.rstrip s) = has_visible s.
Proof.
  induction s as [|c s IH]; [reflexivity|].
  rewrite rstrip_cons, (has_visible_cons c s).
  destruct (Py.rstrip s) as [|d r].
  - rewrite <- IH.
    destruct (Py.is_space c) eqn:E; rewrite ?has_visible_cons; unfold visible;
      rewrite ?E; reflexivity.
  - rewrite (has_visible_cons c), IH. reflexivity.
Qed.

Lemma has_visible_strip (s : string) : has_visible (Py.strip s) = has_visible s.
Proof. unfold Py.strip. now rewrite has_visible_rstrip, has_visible_lstrip. Qed.

Lemma visible_nonempty (s : string) : has_visible s = true -> s <> "".
Proof. intros H ->. discriminate H. Qed.

Lemma strip_visible_nonempty (s : string) :
  has_visible s = true -> Py.strip s <> "".
Proof. intros H. apply visible_nonempty. now rewrite has_visible_strip. Qed.

Lemma lstrip_blank (s : string) : has_visible s = false -> Py.lstrip s = "".
Proof.
  induction s as [|c s IH]; [reflexivity|].
  rewrite has_visible_cons, lstrip_cons. unfold visible. intros H.
  apply orb_false_iff in H as [Hc Hs]. apply negb_false_iff in Hc.
  rewrite Hc. auto.
Qed.

(** What [strip] leaves of a string is empty unless the string has a
    visible character. *)
Lemma nonempty_strip_visible (s : string) :
  Py.nonempty (Py.strip s) = true -> has_visible s = true.
Proof.
  intros H. destruct (has_visible s) eqn:E; [reflexivity|].
  unfold Py.strip in H. rewrite (lstrip_blank _ E) in H. discriminate H.
Qed.

Lemma lower_char_space (c : ascii) :
  Py.is_space (Py.lower_char c) = Py.is_space c.
Proof. destruct c as [[] [] [] [] [] [] [] []]; reflexivity. Qed.

(** A text whose lowercase form starts with a word that starts with a
    visible character has a visible character. *)
Lemma startswith_lower_visible (w text : string) :
  match w with String c _ => visible c | EmptyString => false end = true ->
  Py.startswith w (Py.lower text) = true -> has_visible text = true.
Proof.
  destruct w as [|c w]; [discriminate|]. intros Hc H.
  destruct text as [|x text]; [discriminate H|].
  cbn [Py.lower Py.startswith] in H.
  apply andb_true_iff in H as [Hx _]. apply Ascii.eqb_eq in Hx. subst c.
  rewrite has_visible_cons. unfold visible in *.
  now rewrite lower_char_space in Hc; rewrite Hc.
Qed.

End Visible.

(** ** The two substitutions of the recovery branch keep visible text *)

Section RecoverySubstitutions.
Import Re.

Lemma sub_at_nil (r : regex) (repl : string) (n : nat) (pv : option ascii)
    (skip : nat) :
  sub_at r repl n pv skip "" =
  match skip with
  | S _ => ""
  | O =>
      match run r (Cursor n pv "" []) Some with
      | Some _ => repl +:+ ""
      | None => ""
      end
  end.
Proof. destruct skip; reflexivity. Qed.

Lemma sub_at_cons (r : regex) (repl : string) (n : nat) (pv : option ascii)
    (skip : nat) (a : ascii) (s' : string) :
  sub_at r repl n pv skip (String a s') =
  match skip with
  | S k => sub_at r repl (S n) (Some a) k s'
  | O =>
      match run r (Cursor n pv (String a s') []) Some with
      | Some c =>
          repl +:+
          (if (pos c =? n)%nat
           then String a (sub_at r repl (S n) (Some a) 0 s')
           else sub_at r repl (S n) (Some a) (pos c - n - 1) s')
      | None => String a (sub_at r repl (S n) (Some a) 0 s')
      end
  end.
Proof. destruct skip; reflexivity. Qed.

(** A pattern anchored at the start matches nowhere else: past the first
    position the substitution only finishes skipping and copies. *)
Lemma sub_at_anchored (r : regex) (repl : string) (s : string) :
  forall n pv k, sub_at (Cat Bol r) repl (S n) pv k s = drop k s.
Proof.
  induction s as [|a s IH]; intros n pv k.
  - rewrite sub_at_nil. destruct k; reflexivity.
  - rewrite sub_at_cons. destruct k as [|k].
    + rewrite run_cat. cbn [run pos Nat.eqb]. rewrite IH, !drop_0. reflexivity.
    + rewrite IH. reflexivity.
Qed.

Lemma sub_anchored (r : regex) (line : string) :
  Re.sub (Cat Bol r) "" line =
  match run (Cat Bol r) (Cursor 0 None line []) Some with
  | Some c => drop (pos c) line
  | None => line
  end.
Proof.
  unfold Re.sub. destruct line as [|a s].
  - rewrite sub_at_nil. destruct (run _ _ _) as [c|]; [|reflexivity].
    now destruct (pos c).
  - rewrite sub_at_cons.
    destruct (run _ _ _) as [c|]; [|now rewrite sub_at_anchored, drop_0].
    rewrite app_nil. destruct (pos c) as [|m].
    + cbn [Nat.eqb]. now rewrite sub_at_anchored, !drop_0.
    + cbn [Nat.eqb]. rewrite sub_at_anchored.
      replace (S m - 0 - 1) with m by lia. reflexivity.
Qed.

(** *** [\s{2,}] replaced by one blank *)

Lemma run_spaces2 (n : nat) (pv : option ascii) (str : string)
    (g : list (nat * string)) :
  run Patterns.spaces2 (Cursor n pv str g) Some =
  match str with
  | String a (String b t) =>
      if Py.is_space a then
        if Py.is_space b
        then Some (eat Py.is_space (S (S n)) (Some b) t g)
        else None
      else None
  | _ => None
  end.
Proof.
  unfold Patterns.spaces2, seq, Re.s.
  rewrite run_cat, run_chr. cbn [rest pos groups].
  destruct str as [|a [|b t]]; [reflexivity | |].
  - destruct (Py.is_space a); reflexivity.
  - destruct (Py.is_space a); [|reflexivity].
    rewrite run_cat, run_chr. cbn [rest pos groups].
    destruct (Py.is_space b); [|reflexivity].
    apply run_star_total.
Qed.

Lemma visible_blank : visible " " = false.
Proof. reflexivity. Qed.

Lemma collapse_spaces_visible (s : string) :
  forall n pv skip,
    skip <= lead Py.is_space s ->
    has_visible s = true ->
    has_visible (sub_at Patterns.spaces2 " " n pv skip s) = true.
Proof.
  induction s as [|a s IH]; intros n pv skip Hk Hv; [discriminate Hv|].
  rewrite sub_at_cons. rewrite has_visible_cons in Hv. unfold visible in Hv.
  destruct skip as [|k].
  - rewrite run_spaces2. destruct s as [|b t].
    + rewrite has_visible_cons. unfold visible.
      rewrite orb_false_r in Hv. now rewrite Hv.
    + destruct (Py.is_space a) eqn:Ea.
      * cbn [negb orb] in Hv. destruct (Py.is_space b) eqn:Eb.
        -- rewrite pos_eat.
           replace (S (S n) + lead Py.is_space t =? n)%nat with false
             by (symmetry; apply Nat.eqb_neq; lia).
           rewrite app_cons, app_nil, has_visible_cons, visible_blank.
           cbn [orb]. apply IH; [|exact Hv].
           cbn [lead]. rewrite Eb. lia.
        -- rewrite has_visible_cons. unfold visible. rewrite Ea. cbn [negb orb].
           apply IH; [lia | exact Hv].
      * rewrite has_visible_cons. unfold visible. now rewrite Ea.
  - cbn [lead] in Hk. destruct (Py.is_space a) eqn:Ea; [|lia].
    cbn [negb orb] in Hv. apply IH; [lia | exact Hv].
Qed.

(** *** The leading numbering removed *)

Lemma run_bol (pv : option ascii) (s : string) (g : list (nat * string))
    (k : cursor -> option cursor) :
  run Bol (Cursor 0 pv s g) k = k (Cursor 0 pv s g).
Proof. reflexivity. Qed.

Lemma run_eps (c : cursor) (k : cursor -> option cursor) : run Eps c k = k c.
Proof. reflexivity. Qed.

Lemma run_eol_end (n : nat) (pv : option ascii) (g : list (nat * string)) :
  run Eol (Cursor n pv "" g) Some = Some (Cursor n pv "" g).
Proof. reflexivity. Qed.

Lemma drop_add (a b : nat) (s : string) : drop (a + b) s = drop b (drop a s).
Proof.
  revert s; induction a as [|a IH]; intros s.
  - now rewrite drop_0.
  - destruct s as [|x s]; [now destruct b | apply IH].
Qed.

Lemma has_visible_drop_lead (u : string) :
  has_visible (drop (lead Py.is_space u) u) = has_visible u.
Proof.
  induction u as [|c u IH]; [reflexivity|].
  cbn [lead]. rewrite (has_visible_cons c u). unfold visible.
  destruct (Py.is_space c) eqn:E; [exact IH|].
  rewrite drop_0, has_visible_cons. unfold visible. now rewrite E.
Qed.

Lemma drop_lead_blank (u : string) :
  has_visible u = false -> drop (lead Py.is_space u) u = "".
Proof.
  induction u as [|c u IH]; [reflexivity|].
  rewrite has_visible_cons. unfold visible. intros H.
  apply orb_false_iff in H as [Hc Hu]. apply negb_false_iff in Hc.
  cbn [lead]. rewrite Hc. now apply IH.
Qed.

(** How a match of [^\d+\.\s*] at the start of a line reads it: a digit,
    [j] more digits, a full stop, and the blanks that follow. *)
Lemma run_numbering_inv (line : string) (c : cursor) :
  run Patterns.numbering (Cursor 0 None line []) Some = Some c ->
  exists x t j u,
    line = String x t /\ Py.is_digit x = true /\ j <= lead Py.is_digit t
    /\ drop j t = String "." u /\ pos c = 2 + j + lead Py.is_space u.
Proof.
  unfold Patterns.numbering, seq, plus, Re.d, Re.s.
  rewrite run_cat, run_bol, !run_cat, run_chr. cbn [rest pos groups].
  destruct line as [|x t]; [discriminate|].
  destruct (Py.is_digit x) eqn:Ex; [|discriminate].
  intros H. apply run_star_inv in H as (j & pv' & Hj & H).
  unfold lit in H. rewrite !run_cat, run_chr in H. cbn [rest pos groups] in H.
  destruct (drop j t) as [|y u] eqn:Ed; [discriminate|].
  destruct (Ascii.eqb_spec "."%char y) as [<-|]; [|discriminate].
  rewrite run_eps, run_star_total in H. injection H as <-.
  exists x, t, j, u. repeat split; auto.
  rewrite pos_eat. lia.
Qed.

Lemma digit_not_space (c : ascii) : Py.is_digit c = true -> Py.is_space c = false.
Proof. destruct c as [[] [] [] [] [] [] [] []]; (discriminate || reflexivity). Qed.

Lemma space_not_digit_or_dot (c : ascii) :
  Py.is_space c = true -> digit_or_dot c = false.
Proof. destruct c as [[] [] [] [] [] [] [] []]; (discriminate || reflexivity). Qed.

Lemma blank_lead_digit_or_dot (u : string) :
  has_visible u = false -> lead digit_or_dot u = 0.
Proof.
  destruct u as [|c u]; [reflexivity|].
  rewrite has_visible_cons. unfold visible. intros H.
  apply orb_false_iff in H as [Hc _]. apply negb_false_iff in Hc.
  cbn [lead]. now rewrite (space_not_digit_or_dot _ Hc).
Qed.

Lemma digits_dot_decomp (t : string) :
  forall j u,
    j <= lead Py.is_digit t -> drop j t = String "." u ->
    lead digit_or_dot u = 0 ->
    drop (lead digit_or_dot t) t = u.
Proof.
  induction t as [|y t IH]; intros j u Hj Hd Hu.
  - destruct j; discriminate Hd.
  - destruct j as [|j].
    + rewrite drop_0 in Hd. injection Hd as -> ->.
      cbn [lead]. change (digit_or_dot ".") with true. cbn iota.
      rewrite Hu. reflexivity.
    + cbn [lead] in Hj |- *. cbn [drop] in Hd.
      destruct (Py.is_digit y) eqn:Ey; [|lia].
      unfold digit_or_dot at 1. rewrite Ey. cbn [orb drop].
      apply (IH j); [lia | exact Hd | exact Hu].
Qed.

(** A line made of digits, a full stop and blanks is a number-only line. *)
Lemma number_line_matches (x : ascii) (t : string) (j : nat) (u : string) :
  Py.is_digit x = true -> j <= lead Py.is_digit t ->
  drop j t = String "." u -> has_visible u = false ->
  matches Patterns.number_line (String x t) = true.
Proof.
  intros Hx Hj Hd Hu.
  assert (E : exists r, rmatch Patterns.number_line (String x t) = Some r).
  { unfold rmatch, Patterns.number_line, seq, plus, Re.s.
    fold digit_or_dot.
    destruct (eat digit_or_dot 1 (Some x) t []) as [n1 pv1 r1 g1] eqn:E1.
    assert (R1 : r1 = u).
    { pose proof (rest_eat digit_or_dot t 1 (Some x) []) as R.
      rewrite E1 in R. cbn [rest] in R. rewrite R.
      apply (digits_dot_decomp t j u Hj Hd), blank_lead_digit_or_dot, Hu. }
    subst r1.
    destruct (eat Py.is_space n1 pv1 u g1) as [n2 pv2 r2 g2] eqn:E2.
    assert (R2 : r2 = "").
    { pose proof (rest_eat Py.is_space u n1 pv1 g1) as R.
      rewrite E2 in R. cbn [rest] in R. rewrite R. now apply drop_lead_blank. }
    subst r2.
    exists (Cursor n2 pv2 "" g2).
    rewrite run_cat, run_bol, run_cat.
    apply run_star_greedy. cbn [eat]. rewrite (digit_not_space _ Hx).
    rewrite !run_cat, run_chr. cbn [rest pos groups].
    unfold digit_or_dot at 1. rewrite Hx. cbn [orb].
    apply run_star_greedy. rewrite E1.
    rewrite run_cat. apply run_star_greedy. rewrite E2.
    apply run_eol_end. }
  destruct E as [r E]. unfold matches. now rewrite E.
Qed.

(** Removing the numbering from a line that is not number-only leaves a
    visible character. *)
Lemma strip_numbering_visible (line : string) :
  matches Patterns.number_line line = false ->
  has_visible line = true ->
  has_visible (Re.sub Patterns.numbering "" line) = true.
Proof.
  intros Hn Hv.
  change Patterns.numbering
    with (Cat Bol (seq [plus d; lit "."; Star Re.s])) at 1.
  rewrite sub_anchored.
  change (Cat Bol (seq [plus d; lit "."; Star Re.s])) with Patterns.numbering.
  destruct (run Patterns.numbering _ _) as [c|] eqn:E; [|exact Hv].
  apply run_numbering_inv in E as (x & t & j & u & -> & Hx & Hj & Hd & Hp).
  rewrite Hp.
  replace (2 + j + lead Py.is_space u) with (1 + (j + (1 + lead Py.is_space u)))
    by lia.
  cbn [Nat.add drop]. rewrite drop_add, Hd. cbn [drop].
  rewrite has_visible_drop_lead.
  destruct (has_visible u) eqn:Eu; [reflexivity|].
  rewrite (number_line_matches x t j u Hx Hj Hd Eu) in Hn. discriminate Hn.
Qed.

End RecoverySubstitutions.

(** ** The branches never turn a text into nothing *)

Section BranchesNonEmpty.

Lemma has_visible_app_l (a b : string) :
  has_visible a = true -> has_visible (a +:+ b) = true.
Proof. intros H. now rewrite has_visible_app, H. Qed.

Lemma has_visible_app_r (a b : string) :
  has_visible b = true -> has_visible (a +:+ b) = true.
Proof. intros H. rewrite has_visible_app, H. apply orb_true_r. Qed.

Lemma keep_meaningful_cons (line : string) (rest : list string) :
  keep_meaningful (line :: rest) =
  if Re.matches Patterns.date_line line then keep_meaningful rest
  else if Re.matches Patterns.number_line line then keep_meaningful rest
  else if Re.matches Patterns.category_line line then keep_meaningful rest
  else if Re.matches Patterns.id_line line then keep_meaningful rest
  else if Py.nonempty (Py.strip line) && (3 <? Py.py_len (Py.strip line))%nat
  then Py.strip (Re.sub Patterns.spaces2 " " (Re.sub Patterns.numbering "" line))
       :: keep_meaningful rest
  else keep_meaningful rest.
Proof. reflexivity. Qed.

(** Every line the recovery loop keeps has a visible character. *)
Lemma keep_meaningful_visible (lines : list string) :
  Forall (fun l => has_visible l = true) (keep_meaningful lines).
Proof.
  induction lines as [|line rest IH]; [constructor|].
  rewrite keep_meaningful_cons.
  destruct (Re.matches Patterns.date_line line); [exact IH|].
  destruct (Re.matches Patterns.number_line line) eqn:En; [exact IH|].
  destruct (Re.matches Patterns.category_line line); [exact IH|].
  destruct (Re.matches Patterns.id_line line); [exact IH|].
  destruct (Py.nonempty (Py.strip line) && _) eqn:Ek; [|exact IH].
  apply andb_true_iff in Ek as [Ek _].
  constructor; [|exact IH].
  rewrite has_visible_strip. unfold Re.sub at 1.
  apply collapse_spaces_visible; [lia|].
  apply strip_numbering_visible; [exact En|].
  now apply nonempty_strip_visible.
Qed.

Lemma join_visible (sep l : string) (ls : list string) :
  has_visible l = true -> has_visible (Py.join sep (l :: ls)) = true.
Proof.
  intros H. destruct ls as [|l' ls]; [exact H|].
  rewrite join_cons2. now apply has_visible_app_l.
Qed.

Lemma first_sentences_visible (n : nat) (l : list string) :
  has_visible (first_sentences n l) = true.
Proof. unfold first_sentences. now apply has_visible_app_r. Qed.

Lemma extract_nonempty (text query : string) :
  _extract_meaningful_response text query <> "".
Proof.
  unfold _extract_meaningful_response.
  pose proof (keep_meaningful_visible (Py.split nl text)) as Hk.
  destruct (keep_meaningful (Py.split nl text)) as [|l ls].
  - destruct (_ || _); [discriminate|]. destruct (_ || _); discriminate.
  - inversion Hk as [|? ? Hl _]; subst.
    pose proof (join_visible " " l ls Hl) as V1.
    apply strip_visible_nonempty.
    set (text1 := Py.join " " (l :: ls)) in *.
    set (text2 := if (300 <? Py.py_len text1)%nat || (5 <? Py.count "." text1)%nat
                  then first_sentences 2 (Py.split ". " text1) else text1).
    assert (V2 : has_visible text2 = true).
    { subst text2. destruct (_ || _); [apply first_sentences_visible | exact V1]. }
    clearbody text2.
    destruct (negb _); [|exact V2].
    destruct (Py.contains "allerg" _ || _); [now apply has_visible_app_r|].
    destruct (Py.contains "recommend" _); [now apply has_visible_app_r | exact V2].
Qed.

Lemma clean_other_nonempty (text : string) : clean_other text <> "".
Proof.
  unfold clean_other. apply strip_visible_nonempty.
  set (t5 := strip_labels text).
  set (t6 := if (3 <? length (Py.split ". " t5))%nat
             then first_sentences 3 (Py.split ". " t5) else t5).
  destruct (starts_with_any _ t6) eqn:E; cbn [negb].
  - unfold starts_with_any in E. cbn [existsb] in E.
    repeat (apply orb_true_iff in E as [E|E];
            [eapply startswith_lower_visible; [|exact E]; reflexivity|]).
    discriminate E.
  - now apply has_visible_app_l.
Qed.

Lemma clean_and_format_nonempty (text query : string) :
  _clean_and_format_response text query <> "".
Proof.
  unfold _clean_and_format_response.
  destruct (if is_top_items_query query then _ else _) as [|i items].
  - destruct (is_recommendation_query query).
    + unfold recommendation_answer. apply strip_visible_nonempty.
      now apply has_visible_app_r.
    + apply clean_other_nonempty.
  - unfold top_items_answer. apply strip_visible_nonempty.
    now apply has_visible_app_l.
Qed.

Lemma truncate_dump_nonempty (text : string) :
  text <> "" -> truncate_dump text <> "".
Proof.
  intros H. unfold truncate_dump. destruct (2 <? _)%nat; [|exact H].
  apply visible_nonempty, first_sentences_visible.
Qed.

(** Post-processing returns an empty answer only for an empty candidate. *)
Lemma post_process_nonempty (text q : string) (st st' : qstate) (a : string) :
  post_process text q st = (inr a, st') -> text <> "" -> a <> "".
Proof.
  unfold post_process, _compress_verbose_response, raise, ret. intros H Hne.
  destruct (has_raw_data text).
  { injection H as <- _. apply extract_nonempty. }
  destruct (has_field_labels text).
  { injection H as <- _. apply clean_and_format_nonempty. }
  destruct (is_verbose text); [discriminate H|].
  destruct (looks_like_dump text); injection H as <- _;
    [now apply truncate_dump_nonempty | exact Hne].
Qed.

End BranchesNonEmpty.

(** ** No exception reaches the caller of [query] *)

Lemma app_nonempty (s t : string) : s <> "" -> s +:+ t <> "".
Proof. destruct s; [contradiction | discriminate]. Qed.

Lemma ollama_error_answer_nonempty (msg : string) : ollama_error_answer msg <> "".
Proof. unfold ollama_error_answer. apply app_nonempty. discriminate. Qed.

Lemma unexpected_error_answer_nonempty (msg : string) :
  unexpected_error_answer msg <> "".
Proof. unfold unexpected_error_answer. apply app_nonempty. discriminate. Qed.

Lemma handled_answer_nonempty (e : exn) : handled_answer e <> "".
Proof.
  destruct e; [apply ollama_error_answer_nonempty
              | apply unexpected_error_answer_nonempty].
Qed.

Lemma query_outcome (w : World) (q : string) (st : qstate) :
  query w q st =
  (inr (match fst (query_body w q st) with
        | inl e => handled_answer e
        | inr a => a
        end), snd (query_body w q st)).
Proof.
  unfold query, try_except.
  destruct (query_body w q st) as [[[msg|msg]|a] st1]; reflexivity.
Qed.

Lemma query_body_empty_answer (w : World) (q : string) (st : qstate) :
  match fst (query_body w q st) with
  | inl e => True
  | inr a =>
      a = "" ->
      exists e, last_call (snd (query_body w q st)) = Some e
                /\ blank_generation w e
  end.
Proof.
  unfold query_body, last_call.
  destruct (is_greeting _); [query_steps; discriminate|].
  destruct (_ <? 3)%nat; [query_steps; discriminate|].
  query_steps.
  destruct (_index _) as [ix|]; query_steps; [|exact I].
  destruct (retrieve w ix _) as [e|nodes]; query_steps; [exact I|].
  destruct (no_context nodes).
  - destruct (is_order_related _); query_steps; [discriminate|].
    destruct (complete w _) as [e|text] eqn:Ec; query_steps; [exact I|].
    intros Ha. eexists. split; [apply last_snoc|].
    exists text. split; [exact Ec | exact Ha].
  - query_steps.
    destruct (_index _) as [ix'|]; query_steps; [|exact I].
    destruct (engine_query w ix' _ _ _) as [e|resp] eqn:Ee; query_steps;
      [exact I|].
    match goal with
    | |- context [post_process ?t ?x ?s] =>
        pose proof (post_process_state t x s) as Hs;
        destruct (post_process t x s) as [[e|a] st1] eqn:Ep
    end; cbn [fst snd] in *; [exact I|].
    intros Ha. subst st1 a.
    cbn [trace]. eexists. split; [apply last_snoc|].
    exists resp. split; [exact Ee|].
    destruct (string_dec (response_text resp) "") as [Et|Et]; [exact Et|].
    destruct (post_process_nonempty _ _ _ _ _ Ep Et eq_refl).
Qed.

(** C3, amended.  [query] never raises to its caller.  When its body
    raises, the answer is the text of the handler: a fixed sentence about the
    model followed by the text of the exception for a [ResponseError], the
    tag [[Unexpected Error During Query]] followed by the text of the
    exception for anything else; it is not the text of an earlier stage.
    That answer is never empty.  The answer is empty only when the text that
    came back from the language model was blank: the completion of the
    fallback chat had nothing but white space, or the response of the query
    engine had no text. *)
Theorem query_never_raises_and_reports_errors_as_text
    (w : World) (q : string) (st : qstate) :
  exists a,
    query w q st = (inr a, snd (query_body w q st))
    /\ (forall msg, fst (query_body w q st) = inl (ResponseError msg) ->
          a = ollama_error_answer msg)
    /\ (forall msg, fst (query_body w q st) = inl (Exception msg) ->
          a = unexpected_error_answer msg)
    /\ (forall e, fst (query_body w q st) = inl e -> a <> "")
    /\ (a = "" ->
        exists e, last_call (snd (query w q st)) = Some e
                  /\ blank_generation w e).
Proof.
  eexists. split; [apply query_outcome|].
  pose proof (query_body_empty_answer w q st) as Hb.
  rewrite query_outcome. cbn [snd].
  destruct (fst (query_body w q st)) as [e|a].
  - repeat split.
    + intros msg [= ->]. reflexivity.
    + intros msg [= ->]. reflexivity.
    + intros e' _. apply handled_answer_nonempty.
    + intros H. destruct (handled_answer_nonempty _ H).
  - repeat split; try discriminate. exact Hb.
Qed.

(** * Concrete runs *)

Section Runs.

(** ** Classifier and gate *)

Lemma greeting_run :
  q_lower_clean (Py.strip "Hello!") ∈ greetings
  /\ query (empty_world "") "Hello!" demo_state = (inr greeting_answer, demo_state).
Proof.
  assert (H : q_lower_clean (Py.strip "Hello!") ∈ greetings)
    by (apply (bool_decide_unpack _); vm_compute; exact I).
  split; [exact H|].
  exact (greeting_returns_canned_answer_without_calls
           (empty_world "") "Hello!" demo_state H).
Defined.

Lemma menu_query_on_empty_index_run :
  is_order_related (Py.strip "what's on the menu") = true
  /\ no_context [] = true
  /\ query (empty_world "") "what's on the menu" demo_state
     = (inr no_data_answer,
        after_retrieval (empty_world "") demo_state demo_index
          (Py.strip "what's on the menu"))
  /\ filter is_generation
       (trace (snd (query (empty_world "") "what's on the menu" demo_state)))
     = filter is_generation (trace demo_state).
Proof.
  assert (H1 : is_order_related (Py.strip "what's on the menu") = true)
    by (vm_compute; reflexivity).
  assert (H2 : no_context [] = true) by reflexivity.
  split; [exact H1|]. split; [exact H2|].
  exact (domain_query_without_context_gets_no_data_answer
           (empty_world "") "what's on the menu" demo_state demo_index []
           H1 eq_refl eq_refl H2).
Defined.

(** ** The fallback chat can answer with nothing *)

(** A query without domain keyword, nothing retrieved, and a model that
    answers with blanks: the answer is the empty string. *)
Lemma blank_completion_gives_empty_answer :
  query (empty_world "   ") "tell me a joke" demo_state
  = (inr "",
     {| im := demo_manager; reads := 1;
        trace := [EvRetrieve demo_index "tell me a joke";
                  EvComplete (fallback_prompt "tell me a joke")] |}).
Proof. vm_compute. reflexivity. Qed.

(** ** Candidates and branches *)

Lemma grounded_demo (candidate q : string) :
  is_greeting (Py.strip q) = false ->
  (Py.py_len (Py.strip q) <? 3)%nat = false ->
  grounded (grounded_world candidate) q demo_state
    {| response := Some candidate; str_resp := candidate |}.
Proof.
  intros Hg Hl. split; [exact Hg | exact Hl|].
  exists demo_index, [demo_node], demo_index. repeat split; reflexivity.
Qed.

(** The recovery branch fires and the label clean-up is not applied to what
    it returns: the answer still holds the label, which the clean-up would
    have removed. *)
Lemma recovered_answer_keeps_field_label :
  has_raw_data leaking_candidate = true
  /\ fst (query (grounded_world leaking_candidate) "what do you have" demo_state)
     = inr "Item Name, Quantity: Plain Naan, 12"
  /\ strip_labels "Item Name, Quantity: Plain Naan, 12" = "Plain Naan, 12".
Proof. repeat split; vm_compute; reflexivity. Qed.

Lemma first_matching_branch_run :
  grounded (grounded_world leaking_candidate) "what do you have" demo_state
    {| response := Some leaking_candidate; str_resp := leaking_candidate |}
  /\ fst (query (grounded_world leaking_candidate) "what do you have" demo_state)
     = inr (_extract_meaningful_response leaking_candidate
              (Py.strip "what do you have")).
Proof.
  assert (G : grounded (grounded_world leaking_candidate) "what do you have"
                demo_state
                {| response := Some leaking_candidate;
                   str_resp := leaking_candidate |})
    by (apply grounded_demo; vm_compute; reflexivity).
  split; [exact G|].
  apply (proj1 (candidate_goes_through_first_matching_branch _ _ _) _ G).
  vm_compute. reflexivity.
Defined.

(** A grounded answer longer than 250 characters and with more than three
    sentences: the candidate comes back as it is. *)
Lemma long_candidate_is_returned_uncut :
  fst (query (grounded_world long_candidate) "what curry do you have" demo_state)
  = inr long_candidate
  /\ (250 <? Py.py_len long_candidate)%nat = true
  /\ sentences long_candidate = 5.
Proof. repeat split; vm_compute; reflexivity. Qed.

Lemma dump_branch_run :
  grounded (grounded_world dump_candidate) "what curry do you have" demo_state
    {| response := Some dump_candidate; str_resp := dump_candidate |}
  /\ exists a,
       fst (query (grounded_world dump_candidate) "what curry do you have"
              demo_state) = inr a
       /\ a = truncate_dump dump_candidate /\ sentences a <= 2.
Proof.
  assert (G : grounded (grounded_world dump_candidate) "what curry do you have"
                demo_state
                {| response := Some dump_candidate; str_resp := dump_candidate |})
    by (apply grounded_demo; vm_compute; reflexivity).
  split; [exact G|].
  destruct (grounded_answer_sentence_cuts _ _ _ _ G) as (a & Ha & Hd & _).
  exists a. split; [exact Ha|].
  assert (D : a = truncate_dump (response_text
                     {| response := Some dump_candidate;
                        str_resp := dump_candidate |})
              /\ sentences a <= 2
              /\ (2 < sentences dump_candidate ->
                  cut_at_sentences 2 dump_candidate a)
              /\ (sentences dump_candidate <= 2 -> a = dump_candidate))
    by (apply Hd; vm_compute; reflexivity).
  destruct D as (D1 & D2 & _). split; [exact D1 | exact D2].
Defined.

(** ** Builder and watcher *)

Lemma failed_build_run :
  fails_before_publish embedding_down (persist_dir demo_host)
    (Exception "embedding service unavailable") None
  /\ _build_index embedding_down demo_host
     = (inl (Exception "embedding service unavailable"),
        {| manager := manager demo_host; persist_dir := None |}).
Proof.
  assert (H : fails_before_publish embedding_down (persist_dir demo_host)
                (Exception "embedding service unavailable") None).
  { right. exists ["Cauliflower Bhajee, Chicken Curry"].
    split; [vm_compute; reflexivity|].
    right. exists None. split; [reflexivity|]. left. reflexivity. }
  split; [exact H|].
  exact (proj1 (failed_build_keeps_published_generation
                  embedding_down _ demo_host None H)).
Defined.

(** The removal succeeds and the embedding fails: the handle is still the
    one published before, and the directory that held the vectors of that
    generation is gone. *)
Lemma failed_build_loses_persisted_vectors :
  persist_dir demo_host = Some ["Cauliflower Bhajee, Chicken Curry"]
  /\ fst (_build_index embedding_down demo_host)
     = inl (Exception "embedding service unavailable")
  /\ _index (manager (snd (_build_index embedding_down demo_host)))
     = Some demo_index
  /\ persist_dir (snd (_build_index embedding_down demo_host)) = None.
Proof. repeat split; vm_compute; reflexivity. Qed.

Lemma watcher_run :
  _monitor_files [] demo_host = (inr tt, demo_host)
  /\ get_files_snapshot (seen vanishing_tick) = inl read_error
  /\ _monitor_files ([] ++ vanishing_tick :: [changed_tick]) demo_host
     = (inl read_error, demo_host).
Proof.
  assert (H1 : _monitor_files [] demo_host = (inr tt, demo_host)) by reflexivity.
  assert (H2 : get_files_snapshot (seen vanishing_tick) = inl read_error)
    by (vm_compute; reflexivity).
  split; [exact H1|]. split; [exact H2|].
  exact (watcher_ends_at_directory_read_error [] vanishing_tick [changed_tick]
           demo_host demo_host read_error H1 H2).
Defined.

(** The watcher does not retry: after the read error the changed corpus of
    the next tick is never picked up, while a watcher that had met only the
    second tick would have rebuilt. *)
Lemma watcher_dies_on_read_error :
  fst (_monitor_files [vanishing_tick; changed_tick] demo_host) = inl read_error
  /\ _index (manager (snd (_monitor_files [vanishing_tick; changed_tick] demo_host)))
     = Some demo_index
  /\ fst (_monitor_files [changed_tick] demo_host) = inr tt
  /\ _last_snapshot (manager (snd (_monitor_files [changed_tick] demo_host)))
     = Some {[ ("menu.csv", 2%Z) ]}
  /\ _last_snapshot (manager (snd (_monitor_files [vanishing_tick; changed_tick]
                                     demo_host)))
     = Some {[ ("menu.csv", 1%Z) ]}.
Proof. repeat split; vm_compute; reflexivity. Qed.

(** ** A publication between the two reads of the handle *)

(** One query, two generations: the retrieval that opened the gate ran
    against the old one, the answer comes from the new one. *)
Lemma query_mixes_generations :
  trace (snd (query swapping_world "what curry do you have" demo_state))
  = [EvRetrieve demo_index "what curry do you have";
     EvEngineQuery new_index "what curry do you have"]
  /\ demo_index <> new_index
  /\ fst (query swapping_world "what curry do you have" demo_state)
     = inr "Lamb Biryani, Garlic Naan".
Proof.
  split; [vm_compute; reflexivity|].
  split; [discriminate|]. vm_compute; reflexivity.
Qed.

End Runs.

(** * Further properties of the code *)

(** ** [IndexManager.query]: inputs that stop before retrieval *)

(** X1.  An input whose trimmed form has fewer than three characters (the
    empty string and white space only among them) is answered without
    reading the handle and without any call: with the greeting when it is
    one, with the request to be more specific otherwise. *)
Theorem short_query_is_answered_without_calls
    (w : World) (q : string) (st : qstate) :
  (Py.py_len (Py.strip q) <? 3)%nat = true ->
  query w q st
  = (inr (if is_greeting (Py.strip q) then greeting_answer else too_short_answer),
     st).
Proof.
  intros H. unfold query, try_except, query_body.
  destruct (is_greeting _); [reflexivity|]. now rewrite H.
Qed.

Lemma lstrip_head (s : string) :
  Py.lstrip s = "" \/ exists c t, Py.lstrip s = String c t /\ Py.is_space c = false.
Proof.
  induction s as [|c s IH]; [now left|].
  rewrite lstrip_cons. destruct (Py.is_space c) eqn:E; [exact IH|].
  right. now exists c, s.
Qed.

Lemma rstrip_idempotent (s : string) : Py.rstrip (Py.rstrip s) = Py.rstrip s.
Proof.
  induction s as [|c s IH]; [reflexivity|].
  rewrite rstrip_cons. destruct (Py.rstrip s) as [|d r] eqn:E.
  - destruct (Py.is_space c) eqn:Ec; [reflexivity|].
    rewrite rstrip_cons. cbn [Py.rstrip]. now rewrite Ec.
  - rewrite rstrip_cons, IH. reflexivity.
Qed.

Lemma rstrip_keeps_visible_head (c : ascii) (t : string) :
  Py.is_space c = false -> exists t', Py.rstrip (String c t) = String c t'.
Proof.
  intros E. rewrite rstrip_cons. destruct (Py.rstrip t) as [|d r].
  - rewrite E. now exists "".
  - now exists (String d r).
Qed.

Lemma strip_idempotent (s : string) : Py.strip (Py.strip s) = Py.strip s.
Proof.
  unfold Py.strip. destruct (lstrip_head s) as [-> | (c & t & -> & Ec)].
  - reflexivity.
  - destruct (rstrip_keeps_visible_head c t Ec) as [t' E].
    rewrite E at 1. rewrite lstrip_cons, Ec, <- E. apply rstrip_idempotent.
Qed.

(** X2.  White space around the input has no effect: [query] gives the same
    answer, and makes the same calls, for an input and for its trimmed
    form. *)
Theorem query_ignores_surrounding_white_space
    (w : World) (q : string) (st : qstate) :
  query w (Py.strip q) st = query w q st.
Proof.
  unfold query, query_body. now rewrite strip_idempotent.
Qed.

(** ** [IndexManager.query]: the gate *)

Lemma Qltb_false (x y : Q) : Qltb x y = false <-> (y <= x)%Q.
Proof.
  unfold Qltb. rewrite negb_false_iff. apply Qle_bool_iff.
Qed.

(** X3.  The gate lets a query through to the grounded path exactly when the
    retriever returned a node whose score is not below the double [0.15]:
    a number at least as large as the value of that double (which is itself
    below 15/100), plus infinity, or NaN.  A node without score counts as
    scored 0, and minus infinity is below. *)
Theorem context_needs_one_score_at_threshold (nodes : list Node) :
  no_context nodes = false
  <-> exists n, In n nodes
        /\ (score n = Some NaN \/ score n = Some PlusInf
            \/ exists x, score n = Some (Finite x) /\ (threshold <= x)%Q).
Proof.
  assert (S : forall n, score_below n = false
                <-> (score n = Some NaN \/ score n = Some PlusInf
                     \/ exists x, score n = Some (Finite x)
                                  /\ (threshold <= x)%Q)).
  { intros n. unfold score_below, float_ltb.
    destruct (score n) as [[x| | |]|].
    - rewrite Qltb_false. split.
      + intros H. right. right. now exists x.
      + intros [[=] | [[=] | (y & [= <-] & H)]]. exact H.
    - split; [now right; left | reflexivity].
    - split; [discriminate | now intros [[=] | [[=] | (y & [=] & _)]]].
    - split; [now left | reflexivity].
    - split; [intros H; vm_compute in H; discriminate H|].
      now intros [[=] | [[=] | (y & [=] & _)]]. }
  assert (F : forall l, forallb score_below l = false
                        <-> exists n, In n l /\ score_below n = false).
  { induction l as [|a l IH]; cbn [forallb In].
    - split; [discriminate | now intros (? & [] & _)].
    - rewrite andb_false_iff, IH. split.
      + intros [H | (n & Hn & H)]; [now exists a; auto | exists n; auto].
      + intros (n & [<- | Hn] & H); [now left | right; now exists n]. }
  unfold no_context. destruct nodes as [|a l].
  - split; [discriminate | now intros (? & [] & _)].
  - rewrite F. split.
    + intros (n & Hn & H). apply S in H. now exists n.
    + intros (n & Hn & H). exists n. split; [exact Hn | now apply S].
Qed.

(** X4.  A query without domain keyword for which nothing is retrieved is
    handed to the language model once, with the fallback prompt built from
    the trimmed query; the answer is the completion trimmed, or the text of
    the handler when the model raises.  The query engine is not called. *)
Theorem fallback_chat_calls_model_once
    (w : World) (q : string) (st : qstate) (ix : Index) (nodes : list Node) :
  is_greeting (Py.strip q) = false ->
  (Py.py_len (Py.strip q) <? 3)%nat = false ->
  is_order_related (Py.strip q) = false ->
  _index (interfere w (reads st) (im st)) = Some ix ->
  retrieve w ix (Py.strip q) = inr nodes ->
  no_context nodes = true ->
  query w q st
  = (inr (match complete w (fallback_prompt (Py.strip q)) with
          | inr text => Py.strip text
          | inl e => handled_answer e
          end),
     {| im := interfere w (reads st) (im st);
        reads := S (reads st);
        trace := (trace st ++ [EvRetrieve ix (Py.strip q)])
                 ++ [EvComplete (fallback_prompt (Py.strip q))] |}).
Proof.
  intros Hg Hl Hrel Hix Hr Hnc. unfold query, try_except.
  rewrite (query_body_to_gate w q st ix nodes Hg Hl Hix Hr), Hnc, Hrel.
  query_steps. destruct (complete w _) as [[msg|msg]|text]; reflexivity.
Qed.

(** X5.  An exception of the retriever is not taken for an empty result: the
    answer is the text of the handler for that exception, and after the
    retrieval no further call is made (no fallback completion). *)
Theorem retriever_error_becomes_the_answer
    (w : World) (q : string) (st : qstate) (ix : Index) (e : exn) :
  is_greeting (Py.strip q) = false ->
  (Py.py_len (Py.strip q) <? 3)%nat = false ->
  _index (interfere w (reads st) (im st)) = Some ix ->
  retrieve w ix (Py.strip q) = inl e ->
  query w q st
  = (inr (handled_answer e), after_retrieval w st ix (Py.strip q)).
Proof.
  intros Hg Hl Hix Hr. unfold query, try_except, query_body.
  rewrite Hg, Hl. query_steps. rewrite Hix. query_steps. rewrite Hr.
  destruct e; reflexivity.
Qed.

(** X6.  Whatever the input and the outside world, the calls of one query
    are appended to the trace and form one of four sequences: none; one
    retrieval; one retrieval and one completion with the fallback prompt;
    one retrieval and one call of the query engine.  The language model is
    thus reached at most once, never before a retrieval, and the
    post-processing of the candidate makes no call. *)
Theorem query_makes_one_of_four_call_sequences
    (w : World) (q : string) (st : qstate) :
  exists calls,
    trace (snd (query w q st)) = trace st ++ calls
    /\ (calls = []
        \/ exists ix,
             calls = [EvRetrieve ix (Py.strip q)]
             \/ calls = [EvRetrieve ix (Py.strip q);
                         EvComplete (fallback_prompt (Py.strip q))]
             \/ exists ix',
                  calls = [EvRetrieve ix (Py.strip q);
                           EvEngineQuery ix' (Py.strip q)]).
Proof.
  rewrite query_state. unfold query_body.
  assert (N : exists calls, trace st = trace st ++ calls
              /\ (calls = []
                  \/ exists ix,
                       calls = [EvRetrieve ix (Py.strip q)]
                       \/ calls = [EvRetrieve ix (Py.strip q);
                                   EvComplete (fallback_prompt (Py.strip q))]
                       \/ exists ix',
                            calls = [EvRetrieve ix (Py.strip q);
                                     EvEngineQuery ix' (Py.strip q)]))
    by (exists []; split; [now rewrite app_nil_r | now left]).
  destruct (is_greeting _); [exact N|].
  destruct (_ <? 3)%nat; [exact N|].
  query_steps.
  destruct (_index _) as [ix|]; query_steps; [|exact N].
  assert (R : exists calls,
              trace st ++ [EvRetrieve ix (Py.strip q)] = trace st ++ calls
              /\ (calls = []
                  \/ exists ix0,
                       calls = [EvRetrieve ix0 (Py.strip q)]
                       \/ calls = [EvRetrieve ix0 (Py.strip q);
                                   EvComplete (fallback_prompt (Py.strip q))]
                       \/ exists ix',
                            calls = [EvRetrieve ix0 (Py.strip q);
                                     EvEngineQuery ix' (Py.strip q)]))
    by (eexists; split; [reflexivity | right; exists ix; now left]).
  destruct (retrieve w ix _) as [e|nodes]; query_steps; [exact R|].
  destruct (no_context nodes).
  - destruct (is_order_related _); query_steps; [exact R|].
    destruct (complete w _); query_steps;
      (eexists; split; [symmetry; apply app_assoc
                       | right; exists ix; right; now left]).
  - query_steps.
    destruct (_index _) as [ix'|]; query_steps; [|exact R].
    destruct (engine_query w ix' _ _ _); query_steps;
      [eexists; split; [symmetry; apply app_assoc
                       | right; exists ix; right; right; now exists ix']|].
    rewrite post_process_state. cbn [trace].
    eexists; split; [symmetry; apply app_assoc
                    | right; exists ix; right; right; now exists ix'].
Qed.

(** ** [collect_documents] and [get_files_snapshot] *)

Lemma collect_from_cons (f : File) (rest : list File) :
  collect_from (f :: rest) =
  if is_data_file f then
    match extract_text f with
    | inl e => inl e
    | inr text =>
        match collect_from rest with
        | inl e => inl e
        | inr ds =>
            inr (if Py.nonempty text && Py.nonempty (Py.strip text)
                 then text :: ds else ds)
        end
    end
  else collect_from rest.
Proof. reflexivity. Qed.

Lemma snapshot_of_cons (f : File) (rest : list File) :
  snapshot_of (f :: rest) =
  if is_data_file f then
    match stat_mtime f with
    | inl e => inl e
    | inr t =>
        match snapshot_of rest with
        | inl e => inl e
        | inr snap => inr ({[ (name f, t) ]} ∪ snap)
        end
    end
  else snapshot_of rest.
Proof. reflexivity. Qed.

(** X7.  Every document [collect_documents] returns has a character that is
    not white space: a file whose extracted text is empty or blank gives no
    document. *)
Theorem collected_documents_are_never_blank
    (listing : exn + list File) (ds : list string) :
  collect_documents listing = inr ds ->
  Forall (fun text => has_visible text = true) ds.
Proof.
  unfold collect_documents. destruct listing as [e|files]; [discriminate|].
  destruct (collect_from files) as [e|ds0] eqn:E; [discriminate|].
  intros [= <-]. unfold build_summary_documents. rewrite app_nil_r.
  revert ds0 E. induction files as [|f files IH]; intros ds0 E.
  - injection E as <-. constructor.
  - rewrite collect_from_cons in E.
    destruct (is_data_file f); [|now apply IH].
    destruct (extract_text f) as [e|text]; [discriminate|].
    destruct (collect_from files) as [e|ds1]; [discriminate|].
    specialize (IH ds1 eq_refl).
    destruct (Py.nonempty text && _) eqn:Ek; injection E as <-; [|exact IH].
    apply andb_true_iff in Ek as [_ Ek].
    constructor; [now apply nonempty_strip_visible | exact IH].
Qed.

(** X8.  Directory entries without one of the data extensions play no part
    in a build or in a snapshot: neither their text nor their modification
    time is read, so that even an entry that cannot be read changes
    nothing. *)
Theorem entries_without_data_extension_are_ignored (files : list File) :
  collect_from files = collect_from (List.filter is_data_file files)
  /\ snapshot_of files = snapshot_of (List.filter is_data_file files).
Proof.
  split; induction files as [|f files IH]; try reflexivity.
  - rewrite collect_from_cons. cbn [List.filter].
    destruct (is_data_file f) eqn:E; [|exact IH].
    rewrite collect_from_cons, E, IH. reflexivity.
  - rewrite snapshot_of_cons. cbn [List.filter].
    destruct (is_data_file f) eqn:E; [|exact IH].
    rewrite snapshot_of_cons, E, IH. reflexivity.
Qed.

Lemma snapshot_of_members (files : list File) :
  forall snap, snapshot_of files = inr snap ->
  forall n t, (n, t) ∈ snap
    <-> exists f, In f files /\ is_data_file f = true /\ name f = n
                  /\ stat_mtime f = inr t.
Proof.
  induction files as [|f files IH]; intros snap E n t.
  - injection E as <-. split; [intros H; now apply not_elem_of_empty in H|].
    now intros (? & [] & _).
  - rewrite snapshot_of_cons in E.
    destruct (is_data_file f) eqn:Ed.
    + destruct (stat_mtime f) as [e|t0] eqn:Es; [discriminate|].
      destruct (snapshot_of files) as [e|snap0]; [discriminate|].
      injection E as <-. rewrite elem_of_union, elem_of_singleton.
      rewrite (IH snap0 eq_refl). split.
      * intros [[= -> ->] | (g & Hg & H)].
        -- exists f. repeat split; auto. now left.
        -- exists g. split; [now right | exact H].
      * intros (g & [<- | Hg] & Hd & Hn & Ht).
        -- left. rewrite Es in Ht. injection Ht as <-. now rewrite Hn.
        -- right. now exists g.
    + rewrite (IH snap E). split.
      * intros (g & Hg & H). exists g. split; [now right | exact H].
      * intros (g & [<- | Hg] & Hd & H); [congruence | now exists g].
Qed.

Lemma snapshot_of_succeeds (files : list File) :
  (forall f, In f files -> is_data_file f = true ->
             exists t, stat_mtime f = inr t)
  <-> exists snap, snapshot_of files = inr snap.
Proof.
  induction files as [|f files IH].
  - split; [now exists ∅ | now intros _ ? []].
  - rewrite snapshot_of_cons. split.
    + intros H.
      assert (H' : exists snap, snapshot_of files = inr snap).
      { apply IH. intros g Hg. apply H. now right. }
      destruct H' as [snap ->].
      destruct (is_data_file f) eqn:Ed; [|now exists snap].
      destruct (H f (or_introl eq_refl) Ed) as [t ->]. eauto.
    + intros [snap E] g [<- | Hg] Hd.
      * rewrite Hd in E. destruct (stat_mtime f) as [e|t]; [discriminate|].
        now exists t.
      * apply IH; auto.
        destruct (is_data_file f); [|now exists snap].
        destruct (stat_mtime f); [discriminate|].
        destruct (snapshot_of files) as [|s0]; [discriminate | now exists s0].
Qed.

Lemma snapshot_of_permutation (files files' : list File) (snap : Snapshot) :
  snapshot_of files = inr snap -> Permutation files files' ->
  snapshot_of files' = inr snap.
Proof.
  intros E P.
  assert (S' : exists snap', snapshot_of files' = inr snap').
  { apply snapshot_of_succeeds. intros f Hf Hd.
    assert (S0 : exists s, snapshot_of files = inr s) by eauto.
    apply snapshot_of_succeeds with (f := f) in S0; auto.
    apply (Permutation_in _ (Permutation_sym P)), Hf. }
  destruct S' as [snap' E']. rewrite E'. f_equal.
  apply set_eq. intros [n t].
  rewrite (snapshot_of_members _ _ E), (snapshot_of_members _ _ E').
  split; intros (f & Hf & H); exists f; (split; [|exact H]).
  - apply (Permutation_in _ (Permutation_sym P)), Hf.
  - apply (Permutation_in _ P), Hf.
Qed.

(** X9.  A snapshot that could be taken holds exactly the pairs (name,
    modification time) of the entries with a data extension; it does not
    depend on the order in which the directory lists them. *)
Theorem snapshot_is_the_set_of_data_files
    (files files' : list File) (snap : Snapshot) :
  snapshot_of files = inr snap ->
  (forall n t, (n, t) ∈ snap
     <-> exists f, In f files /\ is_data_file f = true /\ name f = n
                   /\ stat_mtime f = inr t)
  /\ (Permutation files files' -> snapshot_of files' = inr snap).
Proof.
  intros E. split; [now apply snapshot_of_members|].
  now apply snapshot_of_permutation.
Qed.

(** ** [IndexManager._build_index], [__init__] and the watcher *)

Lemma build_returns_inv (env : BuildEnv) (h h' : Host) :
  _build_index env h = (inr tt, h') ->
  exists index snap,
    get_files_snapshot (iterdir env) = inr snap
    /\ manager h' = {| _index := Some index; _last_snapshot := Some snap |}.
Proof.
  build_steps.
  destruct (collect_documents (listdir env)) as [e|ds]; [discriminate|].
  build_steps.
  destruct (open_store env _) as [[e|[]] d1]; build_steps; [discriminate|].
  destruct (from_documents env ds d1) as [[e|index] d2]; build_steps;
    [discriminate|].
  destruct (persist env d2) as [[e|[]] d3]; build_steps; [discriminate|].
  destruct (get_files_snapshot (iterdir env)) as [e|snap] eqn:Es;
    [discriminate|].
  intros [= <-]. now exists index, snap.
Qed.

(** X11.  When everything succeeds but the snapshot read that ends the
    build, the new generation is already published and persisted while
    [_last_snapshot] still holds the old value: the build raises after the
    handle has been swapped. *)
Theorem build_failing_at_final_snapshot_has_published
    (env : BuildEnv) (h : Host) (ds : list string) (index : Index)
    (d1 d2 d3 : Disk) (e : exn) :
  collect_documents (listdir env) = inr ds ->
  open_store env (rmtree env (persist_dir h)) = (inr tt, d1) ->
  from_documents env ds d1 = (inr index, d2) ->
  persist env d2 = (inr tt, d3) ->
  get_files_snapshot (iterdir env) = inl e ->
  _build_index env h
  = (inl e,
     {| manager := {| _index := Some index;
                      _last_snapshot := _last_snapshot (manager h) |};
        persist_dir := d3 |}).
Proof.
  intros Ec Eo Ef Ep Es. build_steps. rewrite Ec. build_steps.
  rewrite Eo. build_steps. rewrite Ef. build_steps. rewrite Ep. build_steps.
  rewrite Es. reflexivity.
Qed.

(** X12.  The constructor either returns with the index and the snapshot
    both set, the snapshot being the one read at the end of the first build,
    or raises with [_last_snapshot] still [None]; the index is then [None]
    as well unless what failed is that last snapshot read. *)
Theorem constructor_publishes_or_raises
    (env : BuildEnv) (disk : Disk) :
  match __init__ env disk with
  | (inr _, h) =>
      exists index snap,
        get_files_snapshot (iterdir env) = inr snap
        /\ manager h = {| _index := Some index; _last_snapshot := Some snap |}
  | (inl e, h) =>
      _last_snapshot (manager h) = None
      /\ (_index (manager h) = None
          \/ get_files_snapshot (iterdir env) = inl e)
  end.
Proof.
  build_steps.
  destruct (collect_documents (listdir env)) as [e|ds]; build_steps;
    [now split; [|left]|].
  destruct (open_store env _) as [[e|[]] d1]; build_steps;
    [now split; [|left]|].
  destruct (from_documents env ds d1) as [[e|index] d2]; build_steps;
    [now split; [|left]|].
  destruct (persist env d2) as [[e|[]] d3]; build_steps;
    [now split; [|left]|].
  destruct (get_files_snapshot (iterdir env)) as [e|snap] eqn:Es;
    build_steps; [now split; [|right]|].
  now exists index, snap.
Qed.

(** X13.  A tick at which the directory shows the files of the recorded
    snapshot, in whatever order, starts no build and changes nothing, even
    when a build started at that moment would fail. *)
Theorem tick_on_unchanged_corpus_does_nothing
    (files files' : list File) (env : BuildEnv) (h : Host) (snap : Snapshot) :
  snapshot_of files = inr snap ->
  _last_snapshot (manager h) = Some snap ->
  Permutation files files' ->
  monitor_tick {| seen := inr files'; rebuild := env |} h = (inr tt, h).
Proof.
  intros E L P.
  build_steps. cbn [seen get_files_snapshot].
  rewrite (snapshot_of_permutation files files' snap E P), L.
  rewrite bool_decide_eq_false_2; [reflexivity | now intros H; apply H].
Qed.

(** X14.  After a build that returned, a tick at which the directory shows
    what the build saw at its end starts no second build: the watcher comes
    to rest on an unchanged corpus. *)
Theorem watcher_rests_after_successful_build
    (env again : BuildEnv) (files files' : list File) (h h' : Host) :
  _build_index env h = (inr tt, h') ->
  iterdir env = inr files ->
  Permutation files files' ->
  monitor_tick {| seen := inr files'; rebuild := again |} h' = (inr tt, h').
Proof.
  intros E I P.
  destruct (build_returns_inv env h h' E) as (index & snap & Es & M).
  rewrite I in Es. cbn [get_files_snapshot] in Es.
  build_steps. cbn [seen get_files_snapshot].
  rewrite (snapshot_of_permutation files files' snap Es P), M.
  cbn [_last_snapshot].
  rewrite bool_decide_eq_false_2; [reflexivity | now intros H; apply H].
Qed.

(** X15.  A tick at which the corpus has changed starts a build; when that
    build raises, the exception ends the watcher loop as well: the state is
    the one the failed build left and no later tick is processed. *)
Theorem failed_rebuild_ends_the_watcher
    (t : Tick) (later : list Tick) (h h' : Host) (snap : Snapshot) (e : exn) :
  get_files_snapshot (seen t) = inr snap ->
  _last_snapshot (manager h) <> Some snap ->
  _build_index (rebuild t) h = (inl e, h') ->
  _monitor_files (t :: later) h = (inl e, h').
Proof.
  intros Es Hne Eb. cbn [_monitor_files]. unfold bind at 1.
  assert (Et : monitor_tick t h = (inl e, h')).
  { unfold monitor_tick, bind, lift, gets. rewrite Es.
    rewrite bool_decide_eq_true_2; [exact Eb | congruence]. }
  now rewrite Et.
Qed.

(** ** The HTTP handler: status codes *)

Lemma rag_query_cases (w : World) (env : HttpEnv) (request : Request)
    (st : qstate) :
  match extract_query_text request with
  | inl e => Http.rag_query w env request st
             = (inr (Http.JSONResponse 500 (exn_str e)), st)
  | inr v =>
      if truthy v then
        exists a st', query_any w v st = (inr a, st')
          /\ Http.rag_query w env request st
             = (inr (match validate_str env v with
                     | inr s => Http.Model
                                  {| Http.answer := a; Http.query := s;
                                     Http.timestamp := utcnow_isoformat env +:+ "Z" |}
                     | inl e => Http.JSONResponse 500 (exn_str e)
                     end), st')
      else Http.rag_query w env request st
           = (inr (Http.JSONResponse 400 "Missing 'query' or 'message' field"), st)
  end.
Proof.
  unfold Http.rag_query, try_except, bind, lift, ret.
  destruct (extract_query_text request) as [e|v]; [reflexivity|].
  destruct (truthy v); cbn [negb]; [|reflexivity].
  destruct (query_any_returns w v st) as (a & st' & E).
  exists a, st'. split; [exact E|]. rewrite E.
  destruct (validate_str env v); reflexivity.
Qed.

Ltac status_leaf :=
  repeat split; intros; try discriminate;
  repeat match goal with
         | H : exists _, _ |- _ => destruct H
         | H : _ /\ _ |- _ => destruct H
         | H : _ \/ _ |- _ => destruct H
         | H : @inr _ _ _ = inr _ |- _ => injection H as H; subst
         | H : @inl _ _ _ = inr _ |- _ => discriminate H
         | H : @inr _ _ _ = inl _ |- _ => discriminate H
         end;
  try congruence; eauto 8.

(** X16.  The handler answers with one of three status codes, each for one
    reason: 400 when the look-up gave an empty or missing value; 500 when
    reading the body raised or when the value found could not be put in the
    [str] field of the response; 200 otherwise, that is when a non-empty
    value was found and accepted.  An error inside [IndexManager.query]
    never gives 500, its text being the answer of a 200 response. *)
Theorem rag_query_status_by_cause
    (w : World) (env : HttpEnv) (request : Request) (st : qstate) :
  exists r st',
    Http.rag_query w env request st = (inr r, st')
    /\ (Http.status r = 400
        <-> exists v, extract_query_text request = inr v /\ truthy v = false)
    /\ (Http.status r = 500
        <-> (exists e, extract_query_text request = inl e)
            \/ exists v e, extract_query_text request = inr v
                           /\ truthy v = true /\ validate_str env v = inl e)
    /\ (Http.status r = 200
        <-> exists v s, extract_query_text request = inr v
                        /\ truthy v = true /\ validate_str env v = inr s).
Proof.
  pose proof (rag_query_cases w env request st) as C.
  destruct (extract_query_text request) as [e|v].
  - do 2 eexists. split; [exact C|]. cbn [Http.status]. status_leaf.
  - destruct (truthy v) eqn:Et.
    + destruct C as (a & st' & _ & C). do 2 eexists. split; [exact C|].
      destruct (validate_str env v) as [e|s] eqn:Ev; cbn [Http.status];
        status_leaf.
    + do 2 eexists. split; [exact C|]. cbn [Http.status]. status_leaf.
Qed.

(** X17.  A body that cannot be read as a JSON object with the two keys
    (it is not JSON, or it is not a dictionary) is answered 500 with the text
    of the exception when the content type names JSON, but 400 when the
    content type names neither JSON nor a form, where the failure is
    swallowed.  In both cases [IndexManager.query] is not run. *)
Theorem unreadable_json_body_gives_500_or_400
    (w : World) (env : HttpEnv) (request : Request) (st : qstate) (e : exn) :
  json_lookup request = inl e ->
  let ct := default "" (content_type request) in
  (is_json_type ct = true ->
     Http.rag_query w env request st
     = (inr (Http.JSONResponse 500 (exn_str e)), st))
  /\ (is_json_type ct = false -> is_form_type ct = false ->
     Http.rag_query w env request st
     = (inr (Http.JSONResponse 400 "Missing 'query' or 'message' field"), st)).
Proof.
  intros H ct. pose proof (rag_query_cases w env request st) as C.
  unfold extract_query_text in C. fold ct in C. unfold json_lookup in H.
  split.
  - intros Hj. rewrite Hj in C.
    destruct (json request) as [e'|body]; [now injection H as ->|].
    now rewrite H in C.
  - intros Hj Hf. rewrite Hj, Hf in C.
    destruct (json request) as [e'|body]; [exact C|].
    now rewrite H in C.
Qed.

(** ** The cut of a data dump *)

(** X18.  When the data-dump branch cuts, what it returns is the beginning
    of the candidate, character for character, up to the second occurrence
    of a full stop followed by a blank, that blank left out: the two
    sentences kept are not reworded or reordered. *)
Theorem dump_cut_is_a_prefix_of_the_candidate (text : string) :
  (2 <? length (Py.split ". " text))%nat = true ->
  exists s1 s2 rest,
    text = s1 +:+ ". " +:+ s2 +:+ ". " +:+ rest
    /\ truncate_dump text = s1 +:+ ". " +:+ s2 +:+ "."
    /\ no_sep s1 /\ no_sep s2.
Proof.
  intros H. unfold truncate_dump. rewrite H.
  assert (J : Py.join ". " (Py.split ". " text) = text)
    by (apply join_split; discriminate).
  pose proof (split_no_sep text) as N.
  destruct (Py.split ". " text) as [|s1 [|s2 [|s3 l]]];
    try (cbn [length] in H; discriminate H).
  exists s1, s2, (Py.join ". " (s3 :: l)).
  inversion_clear N as [|? ? N1 N']. inversion_clear N' as [|? ? N2 _].
  split; [rewrite <- J at 1; now rewrite !join_cons2|].
  split; [|now split].
  unfold first_sentences. cbn [firstn]. rewrite join_cons2.
  cbn [Py.join]. now rewrite !app_assoc'.
Qed.

(** ** The dishes of a recommendation *)

Lemma seen_spec (x : string) (seen : list string) :
  existsb (String.eqb x) seen = true <-> In x seen.
Proof.
  rewrite existsb_exists. split.
  - intros (y & Hy & E). apply String.eqb_eq in E. now subst.
  - intros H. exists x. split; [exact H | apply String.eqb_refl].
Qed.

Lemma dedup_keep_first_spec (l : list string) :
  forall seen,
    NoDup (Py.dedup_keep_first seen l)
    /\ forall x, In x (Py.dedup_keep_first seen l) <-> In x l /\ ~ In x seen.
Proof.
  induction l as [|a l IH]; intros seen; cbn [Py.dedup_keep_first].
  - split; [constructor | cbn [In]; tauto].
  - destruct (existsb (String.eqb a) seen) eqn:E.
    + apply seen_spec in E. destruct (IH seen) as [N M].
      split; [exact N|]. intros x. rewrite M. cbn [In].
      split; [tauto|]. intros [[<- | H] Hs]; [contradiction | tauto].
    + assert (Ha : ~ In a seen).
      { intros H. apply seen_spec in H. congruence. }
      destruct (IH (a :: seen)) as [N M]. split.
      * apply NoDup_cons. split; [|exact N].
        rewrite list_elem_of_In, M. cbn [In]. tauto.
      * intros x. cbn [In]. rewrite M. cbn [In].
        destruct (string_dec a x) as [<- | Hne]; tauto.
Qed.

(** X19.  The bullets of a recommendation are made from the dishes found in
    the candidate: each dish is listed once however often it occurs, at most
    five are listed, and the first one found comes first. *)
Theorem recommended_dishes_are_distinct (text : string) :
  let dishes := Re.findall_group1 Patterns.dish text in
  (dishes <> [] ->
   recommendation_answer text
   = Py.strip
       (("Perfect! Based on what's trending right now:" +:+ nl +:+ nl
         +:+ bullet_dishes (unique_dishes dishes)
         +:+ nl +:+ "These are currently among our guests' favorites. ")
        +:+ "Which cuisine or spice level appeals to you?"))
  /\ NoDup (unique_dishes dishes)
  /\ length (unique_dishes dishes) <= 5
  /\ (forall dish, In dish (unique_dishes dishes) -> In dish dishes)
  /\ hd_error (unique_dishes dishes) = hd_error dishes.
Proof.
  intros dishes. split.
  { unfold recommendation_answer. fold dishes.
    destruct dishes; [contradiction | reflexivity]. }
  clearbody dishes. unfold unique_dishes.
  destruct (dedup_keep_first_spec dishes []) as [N M].
  repeat split.
  - eapply sublist_NoDup; [exact N | apply sublist_take].
  - apply firstn_le_length.
  - intros dish H. apply (M dish).
    rewrite <- (firstn_skipn 5 (Py.dedup_keep_first [] dishes)).
    apply in_or_app. now left.
  - destruct dishes as [|a l]; reflexivity.
Qed.

(** ** The two repair methods *)

(** X20.  [_extract_meaningful_response] and [_clean_and_format_response]
    return a text that is not empty for every candidate and every query, the
    empty candidate included. *)
Theorem repair_methods_never_return_empty_text (text query : string) :
  _extract_meaningful_response text query <> ""
  /\ _clean_and_format_response text query <> "".
Proof.
  split; [apply extract_nonempty | apply clean_and_format_nonempty].
Qed.

Lemma adjacent_spaces_cons (a : ascii) (s : string) :
  adjacent_spaces (String a s)
  = (Py.is_space a && head_space s) || adjacent_spaces s.
Proof. reflexivity. Qed.

(** Replacing every run of two or more white-space characters by one blank
    leaves no two of them side by side.  [skip] is the number of characters
    of the run being replaced that are still ahead. *)
Lemma collapse_leaves_no_adjacent_spaces (s : string) :
  forall n pv skip,
    skip = 0 \/ skip = lead Py.is_space s ->
    let r := Re.sub_at Patterns.spaces2 " " n pv skip s in
    adjacent_spaces r = false
    /\ (skip = lead Py.is_space s -> head_space r = false)
    /\ (skip = 0 -> head_space s = false -> head_space r = false).
Proof.
  induction s as [|a s IH]; intros n pv skip Hk r; subst r.
  - rewrite sub_at_nil. destruct skip; [|now repeat split].
    rewrite run_spaces2. now repeat split.
  - rewrite sub_at_cons. destruct skip as [|k].
    + rewrite run_spaces2. destruct s as [|b t].
      * rewrite sub_at_nil, run_spaces2.
        rewrite adjacent_spaces_cons. cbn [head_space adjacent_spaces lead].
        rewrite andb_false_r. repeat split; auto.
        destruct (Py.is_space a); [discriminate | reflexivity].
      * destruct (Py.is_space a) eqn:Ea.
        -- destruct (Py.is_space b) eqn:Eb.
           ++ rewrite pos_eat.
              replace (S (S n) + lead Py.is_space t =? n)%nat with false
                by (symmetry; apply Nat.eqb_neq; lia).
              replace (S (S n) + lead Py.is_space t - n - 1)
                with (lead Py.is_space (String b t))
                by (cbn [lead]; rewrite Eb; lia).
              destruct (IH (S n) (Some a) (lead Py.is_space (String b t))
                          (or_intror eq_refl)) as (A & H & _).
              rewrite app_cons, app_nil, adjacent_spaces_cons, A, (H eq_refl).
              cbn [lead head_space]. rewrite Ea.
              rewrite andb_false_r. repeat split; discriminate.
           ++ destruct (IH (S n) (Some a) 0 (or_introl eq_refl)) as (A & _ & H).
              rewrite adjacent_spaces_cons, A, (H eq_refl Eb).
              cbn [lead head_space]. rewrite Ea, Eb.
              rewrite andb_false_r. repeat split; discriminate.
        -- destruct (IH (S n) (Some a) 0 (or_introl eq_refl)) as (A & _ & _).
           rewrite adjacent_spaces_cons, A. cbn [lead head_space].
           rewrite Ea. repeat split; reflexivity.
    + destruct Hk as [Hk | Hk]; [discriminate|].
      cbn [lead] in Hk. destruct (Py.is_space a) eqn:Ea; [|discriminate].
      injection Hk as ->.
      destruct (IH (S n) (Some a) (lead Py.is_space s) (or_intror eq_refl))
        as (A & H & _).
      repeat split; auto; discriminate.
Qed.

Lemma adjacent_spaces_tail (c : ascii) (s : string) :
  adjacent_spaces (String c s) = false -> adjacent_spaces s = false.
Proof.
  rewrite adjacent_spaces_cons. intros H. now apply orb_false_iff in H.
Qed.

Lemma adjacent_spaces_lstrip (s : string) :
  adjacent_spaces s = false -> adjacent_spaces (Py.lstrip s) = false.
Proof.
  induction s as [|c s IH]; [reflexivity|]. intros H.
  rewrite lstrip_cons. destruct (Py.is_space c); [|exact H].
  apply IH. now apply adjacent_spaces_tail in H.
Qed.

Lemma head_space_app (a b : string) :
  a <> "" -> head_space (a +:+ b) = head_space a.
Proof. destruct a; [contradiction | reflexivity]. Qed.

Lemma adjacent_spaces_prefix (a b : string) :
  adjacent_spaces (a +:+ b) = false -> adjacent_spaces a = false.
Proof.
  induction a as [|c a IH]; [reflexivity|].
  rewrite app_cons, !adjacent_spaces_cons. intros H.
  apply orb_false_iff in H as [H1 H2]. rewrite (IH H2), orb_false_r.
  destruct a as [|d a]; [apply andb_false_r|].
  now rewrite app_cons in H1.
Qed.

Lemma adjacent_spaces_strip (s : string) :
  adjacent_spaces s = false -> adjacent_spaces (Py.strip s) = false.
Proof.
  intros H. unfold Py.strip. apply adjacent_spaces_lstrip in H.
  destruct (rstrip_app (Py.lstrip s)) as [ws E]. rewrite E in H.
  now apply adjacent_spaces_prefix in H.
Qed.

(** X21.  Every line the recovery loop keeps is trimmed, has a character
    that is not white space, and has no two white-space characters side by
    side. *)
Theorem kept_lines_are_trimmed_and_collapsed (lines : list string) :
  Forall (fun l => Py.strip l = l
                   /\ has_visible l = true
                   /\ adjacent_spaces l = false)
         (keep_meaningful lines).
Proof.
  induction lines as [|line rest IH]; [constructor|].
  rewrite keep_meaningful_cons.
  destruct (Re.matches Patterns.date_line line); [exact IH|].
  destruct (Re.matches Patterns.number_line line) eqn:En; [exact IH|].
  destruct (Re.matches Patterns.category_line line); [exact IH|].
  destruct (Re.matches Patterns.id_line line); [exact IH|].
  destruct (Py.nonempty (Py.strip line) && _) eqn:Ek; [|exact IH].
  apply andb_true_iff in Ek as [Ek _].
  constructor; [|exact IH].
  split; [apply strip_idempotent|]. split.
  - rewrite has_visible_strip. unfold Re.sub at 1.
    apply collapse_spaces_visible; [lia|].
    apply strip_numbering_visible; [exact En|].
    now apply nonempty_strip_visible.
  - apply adjacent_spaces_strip. unfold Re.sub at 1.
    apply (collapse_leaves_no_adjacent_spaces _ 0 None 0). now left.
Qed.

(** ** The extraction functions *)

Lemma startswith_app_l (m x t : string) :
  Py.startswith m x = true -> Py.startswith m (x +:+ t) = true.
Proof.
  revert x. induction m as [|a m IH]; intros x H; [reflexivity|].
  destruct x as [|b x]; [discriminate|].
  rewrite app_cons. cbn [Py.startswith] in *.
  apply andb_true_iff in H as [H1 H2]. now rewrite H1, IH.
Qed.

Lemma starts_with_marker_app (x t : string) :
  starts_with_marker x = true -> starts_with_marker (x +:+ t) = true.
Proof.
  unfold starts_with_marker. rewrite !existsb_exists.
  intros (m & Hm & H). exists m. split; [exact Hm | now apply startswith_app_l].
Qed.

Lemma sheet_part_marker (p : Path) (xls : ExcelFile) (sheet : string) :
  starts_with_marker (sheet_part p xls sheet) = true.
Proof.
  unfold sheet_part, starts_with_marker, extraction_markers.
  destruct (read_excel p sheet (engine xls)) as [e|df]; cbn [existsb].
  - rewrite (startswith_app "[Error reading sheet "). reflexivity.
  - rewrite (startswith_app "=== Sheet: "). reflexivity.
Qed.

Lemma join_marker (sep x : string) (l : list string) :
  starts_with_marker x = true ->
  starts_with_marker (Py.join sep (x :: l)) = true.
Proof.
  intros H. destruct l; [exact H|].
  rewrite join_cons2. now apply starts_with_marker_app.
Qed.

Lemma open_workbook_some (p : Path) (ext : string) (xls : ExcelFile) :
  open_workbook p ext = Some xls ->
  exists engine_name, open_excel p engine_name = inr xls.
Proof.
  unfold open_workbook, try_excel. intros H.
  destruct (String.eqb ext ".xls").
  - destruct (open_excel p "xlrd") as [e|x] eqn:E1.
    + cbn [orb] in H.
      destruct (open_excel p "openpyxl") as [e'|x'] eqn:E2; [discriminate|].
      injection H as <-. now exists "openpyxl".
    + injection H as <-. now exists "xlrd".
  - cbn [orb] in H. destruct (String.eqb ext ".xlsx"); [|discriminate].
    destruct (open_excel p "openpyxl") as [e'|x'] eqn:E2; [discriminate|].
    injection H as <-. now exists "openpyxl".
Qed.

Lemma extract_other_returns (j : Json) (p : Path) :
  not_jsonl p ->
  exists text,
    extract_text_from_file j p = inr text
    /\ (text = "" \/ starts_with_marker text = true).
Proof.
  intros N. unfold not_jsonl in N. apply String.eqb_neq in N.
  unfold extract_text_from_file. cbv zeta. rewrite N.
  destruct (open_workbook p _) as [xls|].
  - eexists. split; [reflexivity|].
    destruct (sheet_names xls) as [|s rest]; [now left | right].
    cbn [map]. apply join_marker, sheet_part_marker.
  - destruct (String.eqb _ ".csv"), (read_csv p), (read_text p);
      eexists; (split; [reflexivity|]); (now left) || (now right).
Qed.

(** X22.  For a path whose suffix is not [.jsonl], [extract_text_from_file]
    never raises, whatever the readers do.  The text is empty or begins with
    one of the four markers, and it is empty only when the plain-text read
    failed or a workbook without sheets was opened. *)
Theorem extraction_of_other_files_never_raises (j : Json) (p : Path) :
  not_jsonl p ->
  exists text,
    extract_text_from_file j p = inr text
    /\ (text = "" \/ starts_with_marker text = true)
    /\ (text = "" ->
        (exists e, read_text p = inl e)
        \/ exists xls engine_name,
             open_excel p engine_name = inr xls /\ sheet_names xls = []).
Proof.
  intros N. unfold not_jsonl in N. apply String.eqb_neq in N.
  unfold extract_text_from_file. cbv zeta. rewrite N.
  assert (T : exists text,
             match read_text p with
             | inr txt => inr ("[Read as text]" +:+ nl +:+ txt)
             | inl _ => inr ""
             end = @inr exn string text
             /\ (text = "" \/ starts_with_marker text = true)
             /\ (text = "" ->
                 (exists e, read_text p = inl e)
                 \/ exists xls engine_name,
                      open_excel p engine_name = inr xls
                      /\ sheet_names xls = [])).
  { destruct (read_text p) as [e|txt].
    - exists "". split; [reflexivity|]. split; [now left|].
      intros _. left. now exists e.
    - eexists. split; [reflexivity|]. split; [now right | discriminate]. }
  destruct (open_workbook p _) as [xls|] eqn:W.
  - apply open_workbook_some in W as [en W].
    destruct (sheet_names xls) as [|s rest] eqn:S.
    + exists "". split; [reflexivity|]. split; [now left|].
      intros _. right. now exists xls, en.
    + eexists. split; [reflexivity|]. cbn [map].
      assert (M := join_marker (nl +:+ nl) _ (map (sheet_part p xls) rest)
                     (sheet_part_marker p xls s)).
      split; [now right|]. intros E. rewrite E in M. discriminate M.
  - destruct (String.eqb _ ".csv"); [|exact T].
    destruct (read_csv p) as [e|df]; [exact T|].
    eexists. split; [reflexivity|]. split; [now right | discriminate].
Qed.

Lemma starts_with_marker_nonempty (x : string) :
  starts_with_marker x = true -> Py.nonempty x && Py.nonempty (Py.strip x) = true.
Proof.
  intros H. assert (V : has_visible x = true).
  { unfold starts_with_marker in H. apply existsb_exists in H as (m & Hm & H).
    apply startswith_inv in H as [t ->].
    unfold extraction_markers in Hm. cbn [In] in Hm.
    destruct Hm as [<- | [<- | [<- | [<- | []]]]]; reflexivity. }
  apply andb_true_iff. split.
  - destruct x; [discriminate V | reflexivity].
  - apply strip_visible_nonempty in V. now destruct (Py.strip x).
Qed.

(** X23.  A directory without [.jsonl] files is always collected: no reader
    failure reaches [collect_documents], and every document it returns begins
    with one of the four markers of the extractor. *)
Theorem corpus_without_jsonl_is_always_collected
    (j : Json) (ps : list Path) :
  Forall not_jsonl ps ->
  exists ds,
    collect_documents (inr (map (file_of j) ps)) = inr ds
    /\ Forall (fun d => starts_with_marker d = true) ds.
Proof.
  intros N. unfold collect_documents, build_summary_documents.
  assert (C : exists ds, collect_from (map (file_of j) ps) = inr ds
                         /\ Forall (fun d => starts_with_marker d = true) ds).
  { induction N as [|p ps Hp _ (ds & E & F)]; [now exists []|].
    cbn [map]. rewrite collect_from_cons, E.
    destruct (is_data_file _); [|now exists ds].
    destruct (extract_other_returns j p Hp) as (text & X & M).
    cbn [extract_text file_of]. rewrite X.
    destruct M as [-> | M].
    - now exists ds.
    - rewrite (starts_with_marker_nonempty _ M). exists (text :: ds).
      split; [reflexivity | now constructor]. }
  destruct C as (ds & -> & F). exists (ds ++ []).
  split; [reflexivity | now rewrite app_nil_r].
Qed.

Lemma data_ext_jsonl (f : File) :
  Py.lower (suffix f) = ".jsonl" -> is_data_file f = true.
Proof.
  intros E. unfold is_data_file. rewrite E.
  apply bool_decide_eq_true_2. unfold DATA_EXTS. set_solver.
Qed.

(** X24.  One [.jsonl] file that cannot be opened makes
    [collect_documents] raise, wherever it stands in the listing and whatever
    the other files hold. *)
Theorem unreadable_jsonl_aborts_the_collection
    (j : Json) (ps : list Path) (p : Path) (e : exn) :
  In p ps ->
  Py.lower (path_suffix p) = ".jsonl" ->
  read_lines p = inl e ->
  exists e', collect_documents (inr (map (file_of j) ps)) = inl e'.
Proof.
  intros I S R. unfold collect_documents.
  assert (C : exists e', collect_from (map (file_of j) ps) = inl e').
  { induction ps as [|p0 ps IH]; [contradiction|].
    cbn [map]. rewrite collect_from_cons. destruct I as [-> | I].
    - rewrite (data_ext_jsonl (file_of j p) S).
      cbn [extract_text file_of]. unfold extract_text_from_file. cbv zeta.
      rewrite S, R. now exists e.
    - destruct (IH I) as [e' ->].
      destruct (is_data_file _); [|now exists e'].
      destruct (extract_text _) as [e0|text]; [now exists e0 | now exists e']. }
  destruct C as [e' ->]. now exists e'.
Qed.

Lemma jsonl_lines_cons (j : Json) (raw_line : string) (f : list string) :
  jsonl_lines j (raw_line :: f) =
  if negb (Py.nonempty (Py.strip raw_line)) then jsonl_lines j f
  else
    match jsonl_line j (Py.strip raw_line) with
    | inl e => inl e
    | inr l =>
        match jsonl_lines j f with
        | inl e => inl e
        | inr lines => inr (l :: lines)
        end
    end.
Proof. reflexivity. Qed.

Lemma jsonl_line_returns (j : Json) (raw_line : string) :
  (forall e, loads j raw_line <> Raised e) ->
  exists l, jsonl_line j raw_line = inr l.
Proof.
  intros H. unfold jsonl_line.
  destruct (loads j raw_line) as [obj | | e]; [| eauto | now destruct (H e)].
  destruct obj; eauto.
  cbv zeta. destruct (truthy _ && truthy _); [eauto|].
  destruct (truthy _); eauto.
Qed.

(** X25.  When the lines of a [.jsonl] file can be read and [json.loads]
    raises nothing but [JSONDecodeError], [extract_text_from_jsonl] returns:
    its text is made of one block for each line that is not blank, joined by
    empty lines. *)
Theorem jsonl_gives_one_block_per_line
    (j : Json) (raw_lines : list string) :
  (forall l e, In l raw_lines -> loads j (Py.strip l) <> Raised e) ->
  exists lines,
    extract_text_from_jsonl j (inr raw_lines)
    = inr (Py.join (nl +:+ nl) lines)
    /\ jsonl_lines j raw_lines = inr lines
    /\ length lines = length (List.filter not_blank raw_lines).
Proof.
  intros H. unfold extract_text_from_jsonl.
  assert (C : exists lines,
             jsonl_lines j raw_lines = inr lines
             /\ length lines = length (List.filter not_blank raw_lines)).
  { induction raw_lines as [|l f IH]; [now exists []|].
    destruct IH as (lines & E & L); [intros; apply H; now right|].
    rewrite jsonl_lines_cons, E. cbn [List.filter]. unfold not_blank at 1.
    destruct (Py.nonempty (Py.strip l)); cbn [negb]; [|now exists lines].
    destruct (jsonl_line_returns j (Py.strip l)) as [b ->];
      [intros e; apply H; now left|].
    exists (b :: lines). split; [reflexivity|]. cbn [length]. now rewrite L. }
  destruct C as (lines & E & L). exists lines. now rewrite E.
Qed.

(** X26.  Lines that [json.loads] cannot decode are passed through: when no
    line of the file decodes, the text is the lines trimmed, the blank ones
    left out, joined by empty lines. *)
Theorem undecodable_lines_are_kept_verbatim
    (j : Json) (raw_lines : list string) :
  (forall l, In l raw_lines -> not_blank l = true ->
             loads j (Py.strip l) = JSONDecodeError) ->
  extract_text_from_jsonl j (inr raw_lines)
  = inr (Py.join (nl +:+ nl) (List.filter Py.nonempty (map Py.strip raw_lines))).
Proof.
  intros H. unfold extract_text_from_jsonl.
  assert (C : jsonl_lines j raw_lines
              = inr (List.filter Py.nonempty (map Py.strip raw_lines))).
  { induction raw_lines as [|l f IH]; [reflexivity|].
    rewrite jsonl_lines_cons, IH by (intros; apply H; [now right | assumption]).
    cbn [map List.filter].
    destruct (Py.nonempty (Py.strip l)) eqn:B; cbn [negb]; [|reflexivity].
    unfold jsonl_line. now rewrite (H l (or_introl eq_refl) B). }
  now rewrite C.
Qed.

(** * Concrete runs of the further properties *)

(** ** Queries *)

Lemma short_query_run :
  (Py.py_len (Py.strip " ok ") <? 3)%nat = true
  /\ query (empty_world "Hello") " ok " demo_state
     = (inr too_short_answer, demo_state).
Proof.
  assert (H : (Py.py_len (Py.strip " ok ") <? 3)%nat = true)
    by (vm_compute; reflexivity).
  split; [exact H|].
  exact (short_query_is_answered_without_calls
           (empty_world "Hello") " ok " demo_state H).
Defined.

Lemma fallback_chat_run :
  is_order_related (Py.strip "tell me a joke") = false
  /\ no_context [] = true
  /\ query (empty_world " Sure! ") "tell me a joke" demo_state
     = (inr "Sure!",
        {| im := demo_manager; reads := 1;
           trace := [EvRetrieve demo_index "tell me a joke";
                     EvComplete (fallback_prompt "tell me a joke")] |}).
Proof.
  assert (H1 : is_order_related (Py.strip "tell me a joke") = false)
    by (vm_compute; reflexivity).
  assert (H2 : is_greeting (Py.strip "tell me a joke") = false)
    by (vm_compute; reflexivity).
  assert (H3 : (Py.py_len (Py.strip "tell me a joke") <? 3)%nat = false)
    by (vm_compute; reflexivity).
  split; [exact H1|]. split; [reflexivity|].
  exact (fallback_chat_calls_model_once
           (empty_world " Sure! ") "tell me a joke" demo_state demo_index []
           H2 H3 H1 eq_refl eq_refl eq_refl).
Defined.

Lemma retriever_error_run :
  retrieve retriever_down demo_index (Py.strip "tell me a joke")
  = inl (Exception "vector store unavailable")
  /\ query retriever_down "tell me a joke" demo_state
     = (inr (handled_answer (Exception "vector store unavailable")),
        after_retrieval retriever_down demo_state demo_index
          (Py.strip "tell me a joke")).
Proof.
  assert (H2 : is_greeting (Py.strip "tell me a joke") = false)
    by (vm_compute; reflexivity).
  assert (H3 : (Py.py_len (Py.strip "tell me a joke") <? 3)%nat = false)
    by (vm_compute; reflexivity).
  split; [reflexivity|].
  exact (retriever_error_becomes_the_answer
           retriever_down "tell me a joke" demo_state demo_index
           (Exception "vector store unavailable") H2 H3 eq_refl eq_refl).
Defined.

Lemma dump_cut_run :
  (2 <? length (Py.split ". " dump_candidate))%nat = true
  /\ exists s1 s2 rest,
       dump_candidate = s1 +:+ ". " +:+ s2 +:+ ". " +:+ rest
       /\ truncate_dump dump_candidate = s1 +:+ ". " +:+ s2 +:+ "."
       /\ no_sep s1 /\ no_sep s2.
Proof.
  assert (H : (2 <? length (Py.split ". " dump_candidate))%nat = true)
    by (vm_compute; reflexivity).
  split; [exact H|].
  exact (dump_cut_is_a_prefix_of_the_candidate dump_candidate H).
Defined.

(** ** Builder and watcher *)

Lemma collected_documents_run :
  collect_documents (inr [menu_file 1; vanished_file])
  = inr ["Cauliflower Bhajee, Chicken Curry"]
  /\ Forall (fun text => has_visible text = true)
            ["Cauliflower Bhajee, Chicken Curry"].
Proof.
  assert (H : collect_documents (inr [menu_file 1; vanished_file])
              = inr ["Cauliflower Bhajee, Chicken Curry"])
    by (vm_compute; reflexivity).
  split; [exact H|].
  exact (collected_documents_are_never_blank _ _ H).
Defined.

Lemma snapshot_run :
  snapshot_of [menu_file 1; drinks_file 3]
  = inr {[ ("menu.csv", 1%Z); ("drinks.XLSX", 3%Z) ]}
  /\ snapshot_of [drinks_file 3; menu_file 1]
     = inr {[ ("menu.csv", 1%Z); ("drinks.XLSX", 3%Z) ]}.
Proof.
  assert (H : snapshot_of [menu_file 1; drinks_file 3]
              = inr {[ ("menu.csv", 1%Z); ("drinks.XLSX", 3%Z) ]})
    by (vm_compute; reflexivity).
  split; [exact H|].
  exact (proj2 (snapshot_is_the_set_of_data_files
                  [menu_file 1; drinks_file 3] [drinks_file 3; menu_file 1] _ H)
           (perm_swap _ _ _)).
Defined.

Lemma vanishing_build_run :
  get_files_snapshot (iterdir vanishing_build) = inl read_error
  /\ _build_index vanishing_build demo_host
     = (inl read_error,
        {| manager :=
             {| _index :=
                  Some {| docs := docs demo_index
                                  ++ ["Cauliflower Bhajee, Chicken Curry"] |};
                _last_snapshot := Some {[ ("menu.csv", 1%Z) ]} |};
           persist_dir := Some [] |}).
Proof.
  assert (H : get_files_snapshot (iterdir vanishing_build) = inl read_error)
    by (vm_compute; reflexivity).
  split; [exact H|].
  exact (build_failing_at_final_snapshot_has_published
           vanishing_build demo_host ["Cauliflower Bhajee, Chicken Curry"]
           _ None None (Some []) read_error
           ltac:(vm_compute; reflexivity) eq_refl eq_refl eq_refl H).
Defined.

Lemma unchanged_tick_run :
  snapshot_of [menu_file 1; drinks_file 3]
  = inr {[ ("menu.csv", 1%Z); ("drinks.XLSX", 3%Z) ]}
  /\ monitor_tick {| seen := inr [drinks_file 3; menu_file 1];
                     rebuild := embedding_down |} two_file_host
     = (inr tt, two_file_host).
Proof.
  assert (H : snapshot_of [menu_file 1; drinks_file 3]
              = inr {[ ("menu.csv", 1%Z); ("drinks.XLSX", 3%Z) ]})
    by (vm_compute; reflexivity).
  split; [exact H|].
  exact (tick_on_unchanged_corpus_does_nothing
           [menu_file 1; drinks_file 3] [drinks_file 3; menu_file 1]
           embedding_down two_file_host _ H eq_refl (perm_swap _ _ _)).
Defined.

Lemma watcher_rest_run :
  _build_index (healthy_build 2) demo_host
  = (inr tt, snd (_build_index (healthy_build 2) demo_host))
  /\ monitor_tick {| seen := inr [menu_file 2]; rebuild := embedding_down |}
       (snd (_build_index (healthy_build 2) demo_host))
     = (inr tt, snd (_build_index (healthy_build 2) demo_host)).
Proof.
  assert (H : _build_index (healthy_build 2) demo_host
              = (inr tt, snd (_build_index (healthy_build 2) demo_host)))
    by (vm_compute; reflexivity).
  split; [exact H|].
  exact (watcher_rests_after_successful_build
           (healthy_build 2) embedding_down [menu_file 2] [menu_file 2]
           demo_host _ H eq_refl (Permutation_refl _)).
Defined.

Lemma failed_rebuild_run :
  get_files_snapshot (seen failing_tick) = inr {[ ("menu.csv", 2%Z) ]}
  /\ _last_snapshot (manager demo_host) <> Some {[ ("menu.csv", 2%Z) ]}
  /\ _monitor_files [failing_tick; changed_tick] demo_host
     = (inl (Exception "embedding service unavailable"),
        {| manager := manager demo_host; persist_dir := None |}).
Proof.
  assert (H1 : get_files_snapshot (seen failing_tick)
               = inr {[ ("menu.csv", 2%Z) ]}) by (vm_compute; reflexivity).
  assert (H2 : _last_snapshot (manager demo_host)
               <> Some {[ ("menu.csv", 2%Z) ]})
    by (apply (bool_decide_unpack _); vm_compute; exact I).
  split; [exact H1|]. split; [exact H2|].
  exact (failed_rebuild_ends_the_watcher
           failing_tick [changed_tick] demo_host _ _ _ H1 H2
           ltac:(vm_compute; reflexivity)).
Defined.

(** ** The HTTP handler *)

Lemma unreadable_body_run :
  json_lookup text_as_json = inl decode_error
  /\ json_lookup text_untyped = inl decode_error
  /\ Http.rag_query (empty_world "Hello") demo_http text_as_json demo_state
     = (inr (Http.JSONResponse 500 (exn_str decode_error)), demo_state)
  /\ Http.rag_query (empty_world "Hello") demo_http text_untyped demo_state
     = (inr (Http.JSONResponse 400 "Missing 'query' or 'message' field"),
        demo_state).
Proof.
  split; [reflexivity|]. split; [reflexivity|]. split.
  - apply (unreadable_json_body_gives_500_or_400
             (empty_world "Hello") demo_http text_as_json demo_state
             decode_error eq_refl).
    vm_compute. reflexivity.
  - apply (unreadable_json_body_gives_500_or_400
             (empty_world "Hello") demo_http text_untyped demo_state
             decode_error eq_refl); vm_compute; reflexivity.
Defined.

(** ** Extraction *)

Lemma csv_extraction_run :
  not_jsonl menu_csv
  /\ exists text,
       extract_text_from_file demo_json menu_csv = inr text
       /\ (text = "" \/ starts_with_marker text = true)
       /\ (text = "" ->
           (exists e, read_text menu_csv = inl e)
           \/ exists xls engine_name,
                open_excel menu_csv engine_name = inr xls
                /\ sheet_names xls = []).
Proof.
  assert (H : not_jsonl menu_csv)
    by (intros E; vm_compute in E; discriminate E).
  split; [exact H|].
  exact (extraction_of_other_files_never_raises demo_json menu_csv H).
Defined.

Lemma corpus_without_jsonl_run :
  Forall not_jsonl [menu_csv; broken_xls]
  /\ exists ds,
       collect_documents (inr (map (file_of demo_json) [menu_csv; broken_xls]))
       = inr ds
       /\ Forall (fun d => starts_with_marker d = true) ds.
Proof.
  assert (H : Forall not_jsonl [menu_csv; broken_xls])
    by (repeat constructor; intros E; vm_compute in E; discriminate E).
  split; [exact H|].
  exact (corpus_without_jsonl_is_always_collected demo_json _ H).
Defined.

Lemma unreadable_jsonl_run :
  In locked_jsonl [menu_csv; locked_jsonl]
  /\ read_lines locked_jsonl = inl (Exception "[Errno 13] Permission denied")
  /\ exists e',
       collect_documents (inr (map (file_of demo_json) [menu_csv; locked_jsonl]))
       = inl e'.
Proof.
  assert (H : In locked_jsonl [menu_csv; locked_jsonl])
    by (right; left; reflexivity).
  split; [exact H|]. split; [reflexivity|].
  exact (unreadable_jsonl_aborts_the_collection
           demo_json [menu_csv; locked_jsonl] locked_jsonl _ H
           ltac:(vm_compute; reflexivity) eq_refl).
Defined.

Lemma jsonl_blocks_run :
  (forall l e, In l demo_lines -> loads demo_json (Py.strip l) <> Raised e)
  /\ exists lines,
       extract_text_from_jsonl demo_json (inr demo_lines)
       = inr (Py.join (nl +:+ nl) lines)
       /\ jsonl_lines demo_json demo_lines = inr lines
       /\ length lines = length (List.filter not_blank demo_lines).
Proof.
  assert (H : forall l e, In l demo_lines
                          -> loads demo_json (Py.strip l) <> Raised e).
  { intros l e _. unfold demo_json. cbn [loads].
    destruct (Py.startswith _ _); discriminate. }
  split; [exact H|].
  exact (jsonl_gives_one_block_per_line demo_json demo_lines H).
Defined.

Lemma undecodable_lines_run :
  (forall l, In l demo_lines -> not_blank l = true ->
             loads no_json (Py.strip l) = JSONDecodeError)
  /\ extract_text_from_jsonl no_json (inr demo_lines)
     = inr (Py.join (nl +:+ nl)
              (List.filter Py.nonempty (map Py.strip demo_lines))).
Proof.
  assert (H : forall l, In l demo_lines -> not_blank l = true ->
                        loads no_json (Py.strip l) = JSONDecodeError)
    by (intros; reflexivity).
  split; [exact H|].
  exact (undecodable_lines_are_kept_verbatim no_json demo_lines H).
Defined.
